(** * Member balance ledger, OTP-gated fund transfer and refund

    A shallow embedding of the balance-affecting views of the kiosk
    application:

    - [mobile_api/models.py]: [FundTransferOTP] ([create_otp], [is_valid],
      [mark_as_used]);
    - [mobile_api/views.py]: [get_member_from_request],
      [request_transfer_otp], [verify_transfer_otp], and with them
      [search_member], [balance_transactions] and [mobile_login];
    - [admin_panel/views.py]: [is_admin_user], [is_cashier_or_admin],
      [is_staff_role], [api_refill_balance], [api_update_transaction],
      [api_process_refund], and with them [can_access_django_admin],
      [is_staff_user] and [api_rfid_login];
    - [members/views.py]: [api_validate_rfid_login];
    - [inventory/signals.py] and [inventory/utils.py]: the handlers that
      run when a product is saved, and the counter of failed accesses.

    Conventions.
    - A [DecimalField(decimal_places=2)] value is an integer number of
      hundredths ([Z]); on such values [quantize(Decimal('0.01'))] is the
      identity.  The amounts of the requests are given in hundredths too.
    - A [DateTimeField] is a number of seconds ([Z]); every view receives the
      reading of [timezone.now()] as its argument [now].
    - A database table is a finite map from primary keys to rows; the
      append-only [BalanceTransaction] table is the list of its rows in
      insertion order.
    - A storage write may raise: the store carries a [fuse], the number of
      writes that still succeed before one raises [DatabaseError].
    - Requests served at once are workers that take their steps on the
      shared database in the order of a schedule. *)

From stdpp Require Import gmap strings list fin_maps sorting.
From Stdlib Require Import Ascii String ZArith Lia.

Open Scope Z_scope.

(** ** Python helpers *)

(** [str.isspace] on the ASCII range. *)
Definition isspace (c : ascii) : bool :=
  let n := nat_of_ascii c in
  ((9 <=? n)%nat && (n <=? 13)%nat) || ((28 <=? n)%nat && (n <=? 32)%nat).

Fixpoint lstrip (s : string) : string :=
  match s with
  | String c s' => if isspace c then lstrip s' else s
  | EmptyString => EmptyString
  end.

Fixpoint rstrip (s : string) : string :=
  match s with
  | String c s' =>
      match rstrip s' with
      | EmptyString => if isspace c then EmptyString else String c EmptyString
      | r => String c r
      end
  | EmptyString => EmptyString
  end.

(** [s.strip()] *)
Definition strip (s : string) : string := rstrip (lstrip s).

(** Truth value of a [str]. *)
Definition truthy (s : string) : bool := negb (String.eqb s "").

(** ** Data model *)

(** [django.contrib.auth.models.User], as far as the views read it. *)
Record User := mkUser {
  user_pk : positive;
  is_staff : bool;
  is_superuser : bool }.

Module Member.
(** [members.models.Member]; the fields the views read or write. *)
Record t := mk {
  rfid_card_number : string;
  full_name : string;
  email : string;
  role : string;
  user : option positive;
  balance : Z;
  is_active : bool;
  last_transaction : option Z }.

Definition set_balance (b : Z) (m : t) : t :=
  mk (rfid_card_number m) (full_name m) (email m) (role m) (user m) b
     (is_active m) (last_transaction m).

Definition set_last_transaction (ts : Z) (m : t) : t :=
  mk (rfid_card_number m) (full_name m) (email m) (role m) (user m)
     (balance m) (is_active m) (Some ts).
End Member.

Inductive TransactionType := deposit | deduction.

Module BalanceTransaction.
(** [members.models.BalanceTransaction]: one ledger entry. *)
Record t := mk {
  member : positive;
  transaction_type : TransactionType;
  amount : Z;
  balance_before : Z;
  balance_after : Z;
  notes : string;
  created_at : Z }.
End BalanceTransaction.

Module FundTransferOTP.
(** [mobile_api.models.FundTransferOTP]. *)
Record t := mk {
  member : positive;
  recipient_rfid : string;
  amount : Z;
  notes : string;
  otp_code : string;
  created_at : Z;
  expires_at : Z;
  is_used : bool;
  verified_at : option Z }.

(** [is_valid(self)] *)
Definition is_valid (self : t) (now : Z) : bool :=
  if is_used self then false
  else if expires_at self <? now then false
  else true.

(** The in-memory effect of [mark_as_used(self)]. *)
Definition used_at (now : Z) (self : t) : t :=
  mk (member self) (recipient_rfid self) (amount self) (notes self)
     (otp_code self) (created_at self) (expires_at self) true (Some now).
End FundTransferOTP.

Module TransactionItem.
(** [transactions.models.TransactionItem]. *)
Record t := mk {
  product : option positive;
  product_name : string;
  quantity : Z }.
End TransactionItem.

Module Transaction.
(** [transactions.models.Transaction] with its [items] relation. *)
Record t := mk {
  transaction_number : string;
  member : option positive;
  total_amount : Z;
  payment_method : string;
  amount_paid : Z;
  amount_from_balance : Z;
  status : string;
  notes : string;
  items : list TransactionItem.t }.

Definition set_status (s : string) (x : t) : t :=
  mk (transaction_number x) (member x) (total_amount x) (payment_method x)
     (amount_paid x) (amount_from_balance x) s (notes x) (items x).
Definition set_payment_method (s : string) (x : t) : t :=
  mk (transaction_number x) (member x) (total_amount x) s
     (amount_paid x) (amount_from_balance x) (status x) (notes x) (items x).
Definition set_amount_paid (a : Z) (x : t) : t :=
  mk (transaction_number x) (member x) (total_amount x) (payment_method x)
     a (amount_from_balance x) (status x) (notes x) (items x).
Definition set_amount_from_balance (a : Z) (x : t) : t :=
  mk (transaction_number x) (member x) (total_amount x) (payment_method x)
     (amount_paid x) a (status x) (notes x) (items x).
Definition set_notes (s : string) (x : t) : t :=
  mk (transaction_number x) (member x) (total_amount x) (payment_method x)
     (amount_paid x) (amount_from_balance x) (status x) s (items x).

(** Modelled from the spec: [Transaction.STATUS_CHOICES] is declared in
    transactions/models.py, which is not among the sources; the data model
    gives the status enumeration as pending, completed, cancelled.  These
    are the keys of [dict(Transaction.STATUS_CHOICES)]. *)
Definition STATUS_CHOICES : list string :=
  ["pending"; "completed"; "cancelled"].
End Transaction.

Module Product.
(** [inventory.models.Product]: the stock counter. *)
Record t := mk { stock_quantity : Z }.
End Product.

(** The database. *)
Record DB := mkDB {
  members : gmap positive Member.t;
  balance_transactions : list BalanceTransaction.t;
  transfer_otps : gmap positive FundTransferOTP.t;
  transactions : gmap positive Transaction.t;
  products : gmap positive Product.t }.

Definition with_members (f : gmap positive Member.t → gmap positive Member.t)
    (d : DB) : DB :=
  mkDB (f (members d)) (balance_transactions d) (transfer_otps d)
       (transactions d) (products d).
Definition with_balance_transactions
    (f : list BalanceTransaction.t → list BalanceTransaction.t) (d : DB) : DB :=
  mkDB (members d) (f (balance_transactions d)) (transfer_otps d)
       (transactions d) (products d).
Definition with_transfer_otps
    (f : gmap positive FundTransferOTP.t → gmap positive FundTransferOTP.t)
    (d : DB) : DB :=
  mkDB (members d) (balance_transactions d) (f (transfer_otps d))
       (transactions d) (products d).
Definition with_transactions
    (f : gmap positive Transaction.t → gmap positive Transaction.t)
    (d : DB) : DB :=
  mkDB (members d) (balance_transactions d) (transfer_otps d)
       (f (transactions d)) (products d).
Definition with_products
    (f : gmap positive Product.t → gmap positive Product.t) (d : DB) : DB :=
  mkDB (members d) (balance_transactions d) (transfer_otps d)
       (transactions d) (f (products d)).

(** ** Queries *)

(** Outcome of [Model.objects.get(...)]. *)
Inductive QueryResult (A : Type) :=
  | DoesNotExist
  | One (pk : positive) (row : A)
  | MultipleObjectsReturned.
Arguments DoesNotExist {A}.
Arguments One {A} pk row.
Arguments MultipleObjectsReturned {A}.

(** [Model.objects.filter(...)]: the matching rows with their keys. *)
Definition objects_filter {A} (P : positive → A → bool)
    (table : gmap positive A) : list (positive * A) :=
  List.filter (λ kv, P kv.1 kv.2) (map_to_list table).

(** [Model.objects.get(...)] *)
Definition objects_get {A} (P : positive → A → bool)
    (table : gmap positive A) : QueryResult A :=
  match objects_filter P table with
  | [] => DoesNotExist
  | [(pk, row)] => One pk row
  | _ => MultipleObjectsReturned
  end.

(** The entry with the least key. *)
Definition least_key {A} (l : list (positive * A)) : option (positive * A) :=
  foldr (λ kv acc,
           match acc with
           | Some kv' => if (kv.1 <? kv'.1)%positive then Some kv else acc
           | None => Some kv
           end) None l.

(** [Model.objects.filter(...).first()]: the match with the least primary
    key (the order of an unordered queryset). *)
Definition objects_first {A} (P : positive → A → bool)
    (table : gmap positive A) : option (positive * A) :=
  least_key (objects_filter P table).

(** [Model.objects.get(id=pk, ...)]: at most one row has the key. *)
Definition get_by_pk {A} (P : A → bool) (pk : positive)
    (table : gmap positive A) : QueryResult A :=
  match table !! pk with
  | Some row => if P row then One pk row else DoesNotExist
  | None => DoesNotExist
  end.

(** ** Store, exceptions and the monad of the views *)

Inductive Exn :=
  | ObjectDoesNotExist
  | MultipleObjects
  | DatabaseError
  | BalanceRejected.

Record Store := mkStore {
  db : DB;
  fuse : option nat }.

Definition M (A : Type) : Type := Store → (Exn + A) * Store.

Definition ret {A} (a : A) : M A := λ s, (inr a, s).

Definition bind {A B} (m : M A) (k : A → M B) : M B :=
  λ s, match m s with
       | (inl e, s') => (inl e, s')
       | (inr a, s') => k a s'
       end.

Notation "'let!' x ':=' m 'in' k" := (bind m (λ x, k))
  (at level 10, x name, m at level 100, k at level 200).
Notation "'do!' m 'in' k" := (bind m (λ _, k))
  (at level 10, m at level 100, k at level 200).

Definition raise {A} (e : Exn) : M A := λ s, (inl e, s).

Definition read {A} (f : DB → A) : M A := λ s, (inr (f (db s)), s).

(** One storage write; it raises when the fuse has run out. *)
Definition write (f : DB → DB) : M unit :=
  λ s, match fuse s with
       | Some O => (inl DatabaseError, mkStore (db s) None)
       | Some (S n) => (inr tt, mkStore (f (db s)) (Some n))
       | None => (inr tt, mkStore (f (db s)) None)
       end.

(** [with transaction.atomic(): m]: an exception leaving the block rolls
    the database back to its state at entry and propagates. *)
Definition atomic {A} (m : M A) : M A :=
  λ s, match m s with
       | (inl e, s') => (inl e, mkStore (db s) (fuse s'))
       | (inr a, s') => (inr a, s')
       end.

(** [try: m except Exception as e: h e] *)
Definition try_except {A} (m : M A) (h : Exn → M A) : M A :=
  λ s, match m s with
       | (inl e, s') => h e s'
       | (inr a, s') => (inr a, s')
       end.

(** [instance.save(update_fields=[...])]: an UPDATE of the row with key
    [pk]; Django raises [DatabaseError] when it affects no row. *)
Definition save_fields {A} (table : DB → gmap positive A)
    (upd : (gmap positive A → gmap positive A) → DB → DB)
    (pk : positive) (f : A → A) : M unit :=
  let! row := read (λ d, table d !! pk) in
  match row with
  | Some _ => write (upd (alter f pk))
  | None => raise DatabaseError
  end.

(** [instance.save()]: writes the whole row. *)
Definition save {A} (upd : (gmap positive A → gmap positive A) → DB → DB)
    (pk : positive) (row : A) : M unit :=
  write (upd (<[pk := row]>)).

(** [instance.refresh_from_db()] *)
Definition refresh_from_db {A} (table : DB → gmap positive A)
    (pk : positive) : M A :=
  let! r := read (λ d, table d !! pk) in
  match r with
  | Some row => ret row
  | None => raise ObjectDoesNotExist
  end.

(** [BalanceTransaction.objects.create(...)] *)
Definition BalanceTransaction_create (e : BalanceTransaction.t)
    : M BalanceTransaction.t :=
  do! write (with_balance_transactions (λ l, l ++ [e])) in
  ret e.

(** ** Responses *)

(** The error responses of the views, one constructor for each distinct
    message. *)
Inductive ApiError :=
  (* mobile_api *)
  | NotAuthenticated          (* MobileMemberPermission refused *)
  | MemberAccountNotFound     (* 404 'Member account not found' *)
  | SessionExpired            (* 401 'Member account not found or session expired' *)
  | AuthenticationRequired    (* 401 'Authentication required' *)
  | OtpCodeRequired           (* 400 'OTP code is required' *)
  | InvalidOrExpiredOtpCode   (* 400 'Invalid or expired OTP code' *)
  | OtpExpired                (* 400 'OTP code has expired. Please request a new one.' *)
  | InvalidAmount             (* 400 'Transfer amount must be greater than zero' *)
  | InsufficientBalance       (* 400 'Insufficient balance' *)
  | MissingContact            (* 400 'Email address is required for OTP verification...' *)
  | RecipientNotFound         (* 404 'Recipient member not found' *)
  | SelfTransfer              (* 400 'Cannot transfer funds to yourself' *)
  | OtpCreationFailed         (* 500 'Failed to create OTP. Please try again.' *)
  | TransferFailed            (* 500 'An error occurred during the transfer...' *)
  (* admin_panel *)
  | LoginRequired             (* login_required redirects to the login page *)
  | PermissionDenied          (* 403 'Permission denied...' *)
  | MemberIdRequired          (* 'Member ID is required' *)
  | AmountRequired            (* 'Amount is required' *)
  | AmountNotPositive         (* 'Amount must be greater than zero' *)
  | InvalidAmountFormat       (* 'Invalid amount format' *)
  | MemberNotFound            (* 'Member not found' *)
  | TransactionIdRequired     (* 'Transaction ID is required' *)
  | TransactionNotFound       (* 404 'Transaction not found' *)
  | NotRefundable             (* 'Transaction not found or not eligible for refund' *)
  | RefundNotPermitted        (* 403 'You do not have permission to process refunds' *)
  | NotOwnTransaction         (* 403 'You can only refund your own transactions' *)
  | ServerError (e : Exn)     (* 'Server error: ...' *)
  (* an exception no handler of the view catches *)
  | InternalServerError (e : Exn).

Definition OtpAlreadyUsed : ApiError := InvalidOrExpiredOtpCode.

Inductive Response (A : Type) :=
  | Success (payload : A)
  | Failure (e : ApiError).
Arguments Success {A} payload.
Arguments Failure {A} e.

(** Runs a view on a database; [fault] is the fuse of the storage.  An
    exception that leaves the view becomes the framework's 500 response. *)
Definition run {A} (view : M (Response A)) (d : DB) (fault : option nat)
    : Response A * DB :=
  match view (mkStore d fault) with
  | (inr r, s) => (r, db s)
  | (inl e, s) => (Failure (InternalServerError e), db s)
  end.

(** ** mobile_api/models.py: FundTransferOTP *)

(** The table after
    [cls.objects.filter(member=member, is_used=False).delete()]. *)
Definition delete_unused (member : positive)
    (otps : gmap positive FundTransferOTP.t) : gmap positive FundTransferOTP.t :=
  filter (λ kv, ¬ (FundTransferOTP.member kv.2 = member
                   ∧ FundTransferOTP.is_used kv.2 = false)) otps.

(** [FundTransferOTP.create_otp(member, recipient_rfid, amount, notes)];
    [otp_code] is the outcome of [generate_otp()].  The new row gets a
    primary key that no row of the table has. *)
Definition create_otp (member : positive) (recipient_rfid : string)
    (amount : Z) (notes : string) (otp_code : string) (now : Z)
    : M (positive * FundTransferOTP.t) :=
  (* delete any existing unused OTPs for this member *)
  do! write (with_transfer_otps (delete_unused member)) in
  (* expires_at = timezone.now() + timedelta(minutes=10) *)
  let expires_at := now + 600 in
  let otp := FundTransferOTP.mk member recipient_rfid amount notes otp_code
                                now expires_at false None in
  let! pk := read (λ d, fresh (dom (transfer_otps d))) in
  do! write (with_transfer_otps (<[pk := otp]>)) in
  ret (pk, otp).

(** [otp.mark_as_used()] on the row with key [pk]. *)
Definition mark_as_used (pk : positive) (now : Z) : M unit :=
  save_fields transfer_otps with_transfer_otps pk (FundTransferOTP.used_at now).

(** ** mobile_api/views.py *)

(** [request.user] is [None] for an anonymous request. *)
Record Request := mkRequest {
  request_user : option User;
  session_member_id : option positive }.

(** [MobileMemberPermission.has_permission] *)
Definition has_permission (d : DB) (request : Request) : bool :=
  match request_user request with
  | Some _ => true
  | None =>
      match session_member_id request with
      | Some member_id =>
          match get_by_pk Member.is_active member_id (members d) with
          | One _ _ => true
          | _ => false
          end
      | None => false
      end
  end.

Definition linked_to (u : User) (m : Member.t) : bool :=
  match Member.user m with
  | Some pk => (pk =? user_pk u)%positive
  | None => false
  end.

(** [get_member_from_request(request)] *)
Definition get_member_from_request (d : DB) (request : Request)
    : ApiError + (positive * Member.t) :=
  let by_user : ApiError + option (positive * Member.t) :=
    match request_user request with
    | Some u =>
        let mine := λ (_ : positive) m, linked_to u m && Member.is_active m in
        match objects_get mine (members d) with
        | One pk row => inr (Some (pk, row))
        | DoesNotExist => inl MemberAccountNotFound
        | MultipleObjectsReturned =>
            match objects_first mine (members d) with
            | Some kv => inr (Some kv)
            | None => inl MemberAccountNotFound
            end
        end
    | None => inr None
    end in
  match by_user with
  | inl e => inl e
  | inr (Some member) => inr member
  | inr None =>
      match session_member_id request with
      | Some member_id =>
          match get_by_pk Member.is_active member_id (members d) with
          | One pk row => inr (pk, row)
          | _ => inl SessionExpired
          end
      | None => inl AuthenticationRequired
      end
  end.

(** [Member.objects.get(rfid_card_number=rfid, is_active=True)] *)
Definition get_active_by_rfid (d : DB) (rfid : string) : QueryResult Member.t :=
  objects_get (λ _ m, String.eqb (Member.rfid_card_number m) rfid
                      && Member.is_active m) (members d).

(** [request_transfer_otp], up to the creation of the intent: the reads and
    the checks.  The arguments after [request] are the serializer's
    validated data.  The result is the sender with the stripped recipient
    card and notes. *)
Definition request_transfer_checks (d : DB) (request : Request)
    (recipient_rfid : string) (amount : Z) (notes : string)
    : ApiError + (positive * string * string) :=
  if negb (has_permission d request) then inl NotAuthenticated else
  match get_member_from_request d request with
  | inl e => inl e
  | inr (member_id, member) =>
      let recipient_rfid := strip recipient_rfid in
      let notes := strip notes in
      if amount <=? 0 then inl InvalidAmount
      else if Member.balance member <? amount then inl InsufficientBalance
      else if negb (truthy (Member.email member)) then inl MissingContact
      else
        match get_active_by_rfid d recipient_rfid with
        | DoesNotExist => inl RecipientNotFound
        | MultipleObjectsReturned => inl (InternalServerError MultipleObjects)
        | One recipient_id _ =>
            if (recipient_id =? member_id)%positive then inl SelfTransfer
            else inr (member_id, recipient_rfid, notes)
        end
  end.

(** [request_transfer_otp]; [otp_code] is the generated code.  Sending the
    e-mail touches no table. *)
Definition request_transfer_otp (request : Request) (recipient_rfid : string)
    (amount : Z) (notes : string) (otp_code : string) (now : Z)
    : M (Response (positive * FundTransferOTP.t)) :=
  let! d := read id in
  match request_transfer_checks d request recipient_rfid amount notes with
  | inl e => ret (Failure e)
  | inr (member_id, recipient_rfid, notes) =>
      try_except
        (let! otp := create_otp member_id recipient_rfid amount notes
                                otp_code now in
         ret (Success otp))
        (λ _, ret (Failure OtpCreationFailed))
  end.

(** [FundTransferOTP.objects.get(member=member, otp_code=otp_code,
    is_used=False)] *)
Definition find_unused_otp (d : DB) (member_id : positive) (otp_code : string)
    : QueryResult FundTransferOTP.t :=
  objects_get
    (λ _ o, (FundTransferOTP.member o =? member_id)%positive
            && String.eqb (FundTransferOTP.otp_code o) otp_code
            && negb (FundTransferOTP.is_used o))
    (transfer_otps d).

(** What [verify_transfer_otp] holds in memory when it enters its atomic
    block. *)
Record TransferPlan := mkPlan {
  plan_member : positive * Member.t;
  plan_otp : positive * FundTransferOTP.t;
  plan_recipient : positive * Member.t }.

(** [verify_transfer_otp], up to the atomic block: the reads and the
    checks on what was read. *)
Definition verify_transfer_checks (d : DB) (request : Request)
    (otp_code : string) (now : Z) : ApiError + TransferPlan :=
  if negb (has_permission d request) then inl NotAuthenticated else
  match get_member_from_request d request with
  | inl e => inl e
  | inr (member_id, member) =>
      let otp_code := strip otp_code in
      if negb (truthy otp_code) then inl OtpCodeRequired else
      match find_unused_otp d member_id otp_code with
      | DoesNotExist => inl InvalidOrExpiredOtpCode
      | MultipleObjectsReturned => inl (InternalServerError MultipleObjects)
      | One otp_id otp =>
          if negb (FundTransferOTP.is_valid otp now) then inl OtpExpired else
          let amount := FundTransferOTP.amount otp in
          if Member.balance member <? amount then inl InsufficientBalance else
          match get_active_by_rfid d (FundTransferOTP.recipient_rfid otp) with
          | DoesNotExist => inl RecipientNotFound
          | MultipleObjectsReturned => inl (InternalServerError MultipleObjects)
          | One recipient_id recipient =>
              if (recipient_id =? member_id)%positive then inl SelfTransfer
              else inr (mkPlan (member_id, member) (otp_id, otp)
                               (recipient_id, recipient))
          end
      end
  end.

Definition transfer_notes (direction : string) (other : Member.t)
    (otp : FundTransferOTP.t) : string :=
  ("Fund transfer " +:+ direction +:+ " " +:+ Member.full_name other +:+ " ("
     +:+ Member.rfid_card_number other +:+ ")")
  +:+ (if truthy (FundTransferOTP.notes otp)
       then " - " +:+ FundTransferOTP.notes otp else "").

(** [verify_transfer_otp], the atomic block and its handler.  Serialising
    the two entries and sending the completion e-mails, which follow the
    block, touch no table. *)
Definition perform_transfer (plan : TransferPlan) (now : Z)
    : M (Response (BalanceTransaction.t * BalanceTransaction.t)) :=
  let '(member_id, member) := plan_member plan in
  let '(otp_id, otp) := plan_otp plan in
  let '(recipient_id, recipient) := plan_recipient plan in
  let amount := FundTransferOTP.amount otp in
  try_except
    (let! entries :=
       atomic
         (do! mark_as_used otp_id now in
          (* deduct from sender *)
          let sender_balance_before := Member.balance member in
          do! save_fields members with_members member_id
                (Member.set_balance (sender_balance_before - amount)) in
          let! member := refresh_from_db members member_id in
          let sender_balance_after := Member.balance member in
          let! sender_transaction :=
            BalanceTransaction_create
              (BalanceTransaction.mk member_id deduction amount
                 sender_balance_before sender_balance_after
                 (transfer_notes "to" recipient otp) now) in
          (* add to recipient *)
          let recipient_balance_before := Member.balance recipient in
          do! save_fields members with_members recipient_id
                (Member.set_balance (recipient_balance_before + amount)) in
          let! recipient := refresh_from_db members recipient_id in
          let recipient_balance_after := Member.balance recipient in
          let! recipient_transaction :=
            BalanceTransaction_create
              (BalanceTransaction.mk recipient_id deposit amount
                 recipient_balance_before recipient_balance_after
                 (transfer_notes "from" member otp) now) in
          (* update last transaction time *)
          do! save_fields members with_members member_id
                (Member.set_last_transaction now) in
          do! save_fields members with_members recipient_id
                (Member.set_last_transaction now) in
          ret (sender_transaction, recipient_transaction)) in
     ret (Success entries))
    (λ _, ret (Failure TransferFailed)).

(** [verify_transfer_otp] *)
Definition verify_transfer_otp (request : Request) (otp_code : string)
    (now : Z) : M (Response (BalanceTransaction.t * BalanceTransaction.t)) :=
  let! d := read id in
  match verify_transfer_checks d request otp_code now with
  | inl e => ret (Failure e)
  | inr plan => perform_transfer plan now
  end.

(** ** admin_panel/views.py *)

(** [Member.objects.get(user=user)] *)
Definition get_member_of_user (d : DB) (u : User) : QueryResult Member.t :=
  objects_get (λ _ m, linked_to u m) (members d).

(** [is_admin_user(user)] *)
Definition is_admin_user (d : DB) (u : User) : bool :=
  if is_superuser u then true
  else match get_member_of_user d u with
       | One _ member =>
           String.eqb (Member.role member) "admin" && Member.is_active member
       | _ => false
       end.

(** [is_cashier_or_admin(user)] *)
Definition is_cashier_or_admin (d : DB) (u : User) : bool :=
  if is_staff u || is_superuser u then true
  else match get_member_of_user d u with
       | One _ member =>
           (String.eqb (Member.role member) "cashier"
            || String.eqb (Member.role member) "admin")
           && Member.is_active member
       | _ => false
       end.

(** [is_staff_role(user)] *)
Definition is_staff_role (d : DB) (u : User) : bool :=
  if is_staff u && negb (is_superuser u) then true
  else match get_member_of_user d u with
       | One _ member =>
           String.eqb (Member.role member) "staff" && Member.is_active member
       | _ => false
       end.

(** Modelled from the spec: [Member.add_balance] is defined in
    members/models.py, which is not among the sources.  It is the spec's
    [applyDelta] with the amount to add: before = current;
    after = before + amount; rejected if after < 0; otherwise the member's
    stored balance becomes after.  The result is the member object as the
    caller holds it afterwards. *)
Definition add_balance (pk : positive) (self : Member.t) (amount : Z)
    : M Member.t :=
  let after := Member.balance self + amount in
  if after <? 0 then raise BalanceRejected
  else
    do! save_fields members with_members pk (Member.set_balance after) in
    ret (Member.set_balance after self).

(** A decimal amount in a JSON body. *)
Inductive JsonAmount :=
  | AmountAbsent                (* no key, null, 0 or '': falsy *)
  | AmountMalformed             (* [Decimal(str(...))] raises *)
  | AmountOf (hundredths : Z).

(** [api_refill_balance]; [member_id] is [None] when the body has none.
    The e-mail to the administrator touches no table. *)
Definition api_refill_balance (request : Request) (member_id : option positive)
    (amount : JsonAmount) (notes : string) (now : Z)
    : M (Response Z) :=
  match request_user request with
  | None => ret (Failure LoginRequired)
  | Some u =>
      let! d := read id in
      let is_admin := is_admin_user d u in
      let is_staff_role_user := is_staff_role d u in
      if negb (is_admin || is_staff_role_user)
      then ret (Failure PermissionDenied)
      else
        try_except
          (let notes := strip notes in
           match member_id with
           | None => ret (Failure MemberIdRequired)
           | Some member_id =>
           match amount with
           | AmountAbsent => ret (Failure AmountRequired)
           | AmountMalformed => ret (Failure InvalidAmountFormat)
           | AmountOf amount =>
           if amount <=? 0 then ret (Failure AmountNotPositive) else
           match get_by_pk Member.is_active member_id (members d) with
           | DoesNotExist => ret (Failure MemberNotFound)
           | MultipleObjectsReturned => raise MultipleObjects
           | One _ member =>
               let! performed_by_role :=
                 if is_staff_role_user && negb is_admin then
                   match objects_get
                           (λ _ m, linked_to u m && Member.is_active m)
                           (members d) with
                   | One _ staff_member =>
                       ret (if String.eqb (Member.role staff_member) "staff"
                            then "staff" else "admin")
                   | DoesNotExist => ret "admin"
                   | MultipleObjectsReturned => raise MultipleObjects
                   end
                 else ret "admin" in
               let balance_before := Member.balance member in
               let! member := add_balance member_id member amount in
               let balance_after := Member.balance member in
               let transaction_notes :=
                 ("Balance refill by " +:+ performed_by_role)
                 +:+ (if truthy notes then ". " +:+ notes else "") in
               do! BalanceTransaction_create
                     (BalanceTransaction.mk member_id deposit amount
                        balance_before balance_after transaction_notes now) in
               ret (Success (Member.balance member))
           end end end)
          (λ e, ret (Failure (ServerError e)))
  end.

Section AdminPanel.

(** [Transaction.PAYMENT_METHODS] is declared in transactions/models.py,
    which is not among the sources: the choices are a parameter. *)
Variable PAYMENT_METHODS : list (string * string).

(** [transaction.get_payment_method_display()] *)
Definition get_payment_method_display (x : Transaction.t) : string :=
  match List.find (λ c, String.eqb c.1 (Transaction.payment_method x))
                  PAYMENT_METHODS with
  | Some c => c.2
  | None => Transaction.payment_method x
  end.

Definition in_choices (s : string) (keys : list string) : bool :=
  existsb (String.eqb s) keys.

(** The fields of the JSON body of [api_update_transaction]; [None] when
    the key is absent, [Some None] for an amount that does not parse. *)
Record UpdateData := mkUpdateData {
  data_transaction_id : option positive;
  data_status : option string;
  data_payment_method : option string;
  data_amount_paid : option (option Z);
  data_amount_from_balance : option (option Z);
  data_notes : option string }.

Definition update_if {A} (field : option A) (f : A → Transaction.t → Transaction.t)
    (x : Transaction.t) : Transaction.t :=
  match field with
  | Some v => f v x
  | None => x
  end.

(** [api_update_transaction] *)
Definition api_update_transaction (request : Request) (data : UpdateData)
    : M (Response Transaction.t) :=
  match request_user request with
  | None => ret (Failure LoginRequired)
  | Some u =>
      let! d := read id in
      if negb (is_admin_user d u) then ret (Failure PermissionDenied) else
      match data_transaction_id data with
      | None => ret (Failure TransactionIdRequired)
      | Some transaction_id =>
          match transactions d !! transaction_id with
          | None => ret (Failure TransactionNotFound)
          | Some transaction =>
              let transaction :=
                update_if (data_status data)
                  (λ status x,
                     let status := strip status in
                     if in_choices status Transaction.STATUS_CHOICES
                     then Transaction.set_status status x else x)
                  transaction in
              let transaction :=
                update_if (data_payment_method data)
                  (λ payment_method x,
                     let payment_method := strip payment_method in
                     if in_choices payment_method PAYMENT_METHODS.*1
                     then Transaction.set_payment_method payment_method x
                     else x)
                  transaction in
              let transaction :=
                update_if (data_amount_paid data)
                  (λ amount_paid x,
                     match amount_paid with
                     | Some a => if 0 <=? a
                                 then Transaction.set_amount_paid a x else x
                     | None => x
                     end)
                  transaction in
              let transaction :=
                update_if (data_amount_from_balance data)
                  (λ amount x,
                     match amount with
                     | Some a => if 0 <=? a
                                 then Transaction.set_amount_from_balance a x
                                 else x
                     | None => x
                     end)
                  transaction in
              let transaction :=
                update_if (data_notes data)
                  (λ notes x, Transaction.set_notes (strip notes) x)
                  transaction in
              do! save with_transactions transaction_id transaction in
              ret (Success transaction)
          end
      end
  end.

(** The loop that restores the product stock; [item.product] is read
    when the loop reaches the item. *)
Fixpoint restore_stock (items : list TransactionItem.t) : M unit :=
  match items with
  | [] => ret tt
  | item :: rest =>
      do! match TransactionItem.product item with
          | Some product_id =>
              let! product := refresh_from_db products product_id in
              save with_products product_id
                (Product.mk (Product.stock_quantity product
                             + TransactionItem.quantity item))
          | None => ret tt
          end in
      restore_stock rest
  end.

(** What a successful refund reports: the balance before and after, when
    the sale has an owning member. *)
Definition RefundReceipt : Type := option (Z * Z).

(** [api_process_refund]; rendering the receipt, which follows the writes,
    touches no table. *)
Definition api_process_refund (request : Request)
    (transaction_id : option positive) (reason : string) (now : Z)
    : M (Response RefundReceipt) :=
  match request_user request with
  | None => ret (Failure LoginRequired)
  | Some u =>
    try_except
      (let refund_reason := strip reason in
       match transaction_id with
       | None => ret (Failure TransactionIdRequired)
       | Some transaction_id =>
       let! d := read id in
       match get_by_pk (λ x, String.eqb (Transaction.status x) "completed")
                       transaction_id (transactions d) with
       | DoesNotExist => ret (Failure NotRefundable)
       | MultipleObjectsReturned => raise MultipleObjects
       | One _ transaction =>
       (* select_related('member') *)
       let! member :=
         match Transaction.member transaction with
         | Some member_id =>
             let! row := refresh_from_db members member_id in
             ret (Some (member_id, row))
         | None => ret None
         end in
       let has_full_access := is_cashier_or_admin d u in
       let mine := λ (_ : positive) m, linked_to u m && Member.is_active m in
       let denied : option ApiError :=
         if has_full_access then None
         else
           let user_member :=
             match objects_get mine (members d) with
             | One pk _ => Some pk
             | DoesNotExist => None
             | MultipleObjectsReturned => fst <$> objects_first mine (members d)
             end in
           match user_member with
           | None => Some RefundNotPermitted
           | Some user_member_id =>
               if bool_decide (Transaction.member transaction
                               = Some user_member_id)
               then None else Some NotOwnTransaction
           end in
       match denied with
       | Some e => ret (Failure e)
       | None =>
           (* all refunds go to the card balance *)
           let! receipt :=
             match member with
             | Some (member_id, member) =>
                 let balance_before := Member.balance member in
                 let! member :=
                   add_balance member_id member
                               (Transaction.total_amount transaction) in
                 let balance_after := Member.balance member in
                 let original :=
                   "Refund for transaction "
                     +:+ Transaction.transaction_number transaction
                     +:+ " (Original: "
                     +:+ get_payment_method_display transaction +:+ ")" in
                 do! BalanceTransaction_create
                       (BalanceTransaction.mk member_id deposit
                          (Transaction.total_amount transaction)
                          balance_before balance_after
                          (if truthy refund_reason
                           then original +:+ ". " +:+ refund_reason
                           else original)
                          now) in
                 ret (Some (balance_before, balance_after))
             | None => ret None
             end in
           (* restore product stock *)
           do! restore_stock (Transaction.items transaction) in
           (* mark transaction as cancelled *)
           let transaction := Transaction.set_status "cancelled" transaction in
           let transaction :=
             Transaction.set_notes
               (if truthy refund_reason
                then "Refunded. " +:+ refund_reason else "Refunded")
               transaction in
           do! save with_transactions transaction_id transaction in
           do! match member with
               | Some (member_id, _) =>
                   do! refresh_from_db members member_id in ret tt
               | None => ret tt
               end in
           ret (Success receipt)
       end
       end
       end)
      (λ e, ret (Failure (ServerError e)))
  end.

End AdminPanel.

(** ** mobile_api/views.py: looking up a recipient *)

(** The answers of [search_member] that are its own; the other answers
    are those of the transfer views. *)
Inductive SearchError :=
  | RfidRequired          (* 400 'RFID card number is required' *)
  | CardNotFound          (* 404 'Member not found with the provided RFID card number' *)
  | SearchFailed (e : ApiError).

(** [search_member]; [rfid] is the query parameter, the empty string when
    it is absent.  The result is the member the serializer renders. *)
Definition search_member (d : DB) (request : Request) (rfid : string)
    : SearchError + (positive * Member.t) :=
  if negb (has_permission d request) then inl (SearchFailed NotAuthenticated)
  else
  match get_member_from_request d request with
  | inl e => inl (SearchFailed e)
  | inr (member_id, _) =>
      let rfid := strip rfid in
      if negb (truthy rfid) then inl RfidRequired else
      match get_active_by_rfid d rfid with
      | One recipient_id recipient =>
          if (recipient_id =? member_id)%positive
          then inl (SearchFailed SelfTransfer)
          else inr (recipient_id, recipient)
      | DoesNotExist => inl CardNotFound
      | MultipleObjectsReturned =>
          inl (SearchFailed (InternalServerError MultipleObjects))
      end
  end.

(** ** mobile_api/views.py: the history of balance transactions *)

(** [member.balance_transactions.all()] *)
Definition member_balance_transactions (d : DB) (member_id : positive)
    : list BalanceTransaction.t :=
  List.filter (λ e, (BalanceTransaction.member e =? member_id)%positive)
              (balance_transactions d).

Fixpoint insert_by_created_at (e : BalanceTransaction.t)
    (l : list BalanceTransaction.t) : list BalanceTransaction.t :=
  match l with
  | [] => [e]
  | e' :: l' =>
      if BalanceTransaction.created_at e' <? BalanceTransaction.created_at e
      then e :: l
      else e' :: insert_by_created_at e l'
  end.

(** [queryset.order_by('-created_at')]: newest first.  The database leaves
    the order of rows with equal timestamps open; here the row inserted
    later comes first. *)
Definition order_by_created_at_desc (l : list BalanceTransaction.t)
    : list BalanceTransaction.t :=
  foldr insert_by_created_at [] l.

(** [queryset[start:stop]]: Django raises [ValueError] ('Negative indexing
    is not supported.') on a negative bound. *)
Definition queryset_slice {A} (qs : list A) (start stop : Z)
    : option (list A) :=
  if (start <? 0) || (stop <? 0) then None
  else Some (take (Z.to_nat (stop - start)) (drop (Z.to_nat start) qs)).

(** The ['pagination'] object of the response. *)
Record Pagination := mkPagination {
  pagination_page : Z;
  pagination_limit : Z;
  pagination_total : Z;
  has_next : bool;
  has_previous : bool }.

Inductive HistoryError :=
  | HistoryRefused (e : ApiError)   (* the permission class or the resolver *)
  | NegativeIndexing.               (* the ValueError of the slice: a 500 *)

Module Views.
(** [balance_transactions(request)]; [page] and [limit] are the query
    parameters after [int(...)]. *)
Definition balance_transactions (d : DB) (request : Request) (page limit : Z)
    : HistoryError + (list BalanceTransaction.t * Pagination) :=
  if negb (has_permission d request) then inl (HistoryRefused NotAuthenticated)
  else
  match get_member_from_request d request with
  | inl e => inl (HistoryRefused e)
  | inr (member_id, _) =>
      let offset := (page - 1) * limit in
      match queryset_slice
              (order_by_created_at_desc
                 (member_balance_transactions d member_id))
              offset (offset + limit) with
      | None => inl NegativeIndexing
      | Some rows =>
          let total :=
            Z.of_nat (List.length (member_balance_transactions d member_id)) in
          inr (rows,
               mkPagination page limit total (offset + limit <? total)
                            (1 <? page))
      end
  end.
End Views.

(** The first entry is newer than the second; it is not older. *)
Definition newer (e e' : BalanceTransaction.t) : Prop :=
  BalanceTransaction.created_at e' < BalanceTransaction.created_at e.
Definition not_older (e e' : BalanceTransaction.t) : Prop :=
  BalanceTransaction.created_at e' ≤ BalanceTransaction.created_at e.

(** The rows of the pages 1 to [n], in this order, as a client reads them
    one page after the other. *)
Definition pages_read (d : DB) (request : Request) (limit : Z) (n : nat)
    : list BalanceTransaction.t :=
  List.concat ((λ i, match Views.balance_transactions d request
                             (Z.of_nat i + 1) limit with
                     | inr (rows, _) => rows
                     | inl _ => []
                     end) <$> seq 0 n).

(** ** admin_panel/views.py: the other role tests *)

(** [can_access_django_admin(user)] *)
Definition can_access_django_admin (d : DB) (u : User) : bool :=
  if is_superuser u then true
  else if is_staff u && negb (is_superuser u) then false
  else match get_member_of_user d u with
       | One _ member =>
           if String.eqb (Member.role member) "staff" && Member.is_active member
           then false
           else if String.eqb (Member.role member) "admin"
                   && Member.is_active member
           then true
           else false
       | _ => false
       end.

(** [is_staff_user(user)] *)
Definition is_staff_user (d : DB) (u : User) : bool :=
  if is_staff u || is_superuser u then false
  else match get_member_of_user d u with
       | One _ member =>
           String.eqb (Member.role member) "staff" && Member.is_active member
       | _ => false
       end.

(** ** Sales *)

(** The units of a product that the line items of a sale name. *)
Definition returned_quantity (product_id : positive)
    (items : list TransactionItem.t) : Z :=
  foldr (λ item acc,
           if bool_decide (TransactionItem.product item = Some product_id)
           then TransactionItem.quantity item + acc else acc) 0 items.

(** Two states of a sale that agree on what was sold, to whom and for how
    much. *)
Definition same_sale (x x' : Transaction.t) : Prop :=
  Transaction.transaction_number x = Transaction.transaction_number x'
  ∧ Transaction.member x = Transaction.member x'
  ∧ Transaction.total_amount x = Transaction.total_amount x'
  ∧ Transaction.items x = Transaction.items x'.

(** No sale records a negative payment. *)
Definition payments_nonnegative (d : DB) : Prop :=
  map_Forall (λ _ x, 0 ≤ Transaction.amount_paid x
                     ∧ 0 ≤ Transaction.amount_from_balance x)
             (transactions d).

(** ** inventory/signals.py

    [Product.save()], which [api_process_refund] calls for every line
    item, runs the two handlers. *)

(** What the [post_save] handler of [Product] calls. *)
Inductive StockAction :=
  | ResetAttempts            (* reset_out_of_stock_attempts(instance) *)
  | LowStockWarning          (* send_low_stock_warning(instance) *)
  | OutOfStockNotification.  (* send_out_of_stock_notification(instance) *)

(** [track_stock_before_save]: the stock of the stored row, which the
    [pre_save] handler leaves in [instance._previous_stock_quantity]. *)
Definition track_stock_before_save (ps : gmap positive Product.t)
    (pk : option positive) : option Z :=
  match pk with
  | Some pk =>
      match ps !! pk with
      | Some old_instance => Some (Product.stock_quantity old_instance)
      | None => None
      end
  | None => None
  end.

(** [check_out_of_stock]: the calls it makes, in their order, for an
    instance with the given [is_active], [stock_quantity] and
    [low_stock_threshold]. *)
Definition check_out_of_stock (is_active : bool) (previous_stock : option Z)
    (stock_quantity low_stock_threshold : Z) (created : bool)
    : list StockAction :=
  if negb is_active then [] else
  (match previous_stock with
   | Some previous_stock =>
       if (previous_stock =? 0) && (0 <? stock_quantity) then [ResetAttempts]
       else if (0 <? previous_stock) && (previous_stock <? stock_quantity)
       then [ResetAttempts]
       else []
   | None => []
   end)
  ++ (match previous_stock with
      | Some previous_stock =>
          let was_above_threshold := low_stock_threshold <? previous_stock in
          let is_at_or_below_threshold :=
            stock_quantity <=? low_stock_threshold in
          if is_at_or_below_threshold && (0 <? stock_quantity) then
            let stock_reduced := stock_quantity <? previous_stock in
            if was_above_threshold
               || (negb was_above_threshold && stock_reduced)
            then [LowStockWarning] else []
          else []
      | None => []
      end)
  ++ (if stock_quantity =? 0 then
        if created then [OutOfStockNotification]
        else match previous_stock with
             | Some previous_stock =>
                 if 0 <? previous_stock then [OutOfStockNotification] else []
             | None => []
             end
      else []).

(** ** inventory/utils.py: the counter of failed accesses *)

(** An entry of [django.core.cache] with the time at which it expires. *)
Record CacheEntry := mkEntry {
  cached : Z;
  expires : Z }.

(** The two families of keys, [out_of_stock_attempts_{product.id}] and
    [out_of_stock_last_notification_{product.id}], by product. *)
Record Cache := mkCache {
  out_of_stock_attempts : gmap positive CacheEntry;
  out_of_stock_last_notification : gmap positive CacheEntry }.

(** [cache.get(key, default)] at time [now] *)
Definition cache_get (entries : gmap positive CacheEntry) (key : positive)
    (default now : Z) : Z :=
  match entries !! key with
  | Some e => if expires e <=? now then default else cached e
  | None => default
  end.

(** [cache.set(key, value, timeout)] at time [now] *)
Definition cache_set (entries : gmap positive CacheEntry) (key : positive)
    (value timeout now : Z) : gmap positive CacheEntry :=
  <[key := mkEntry value (now + timeout)]> entries.

(** [reset_out_of_stock_attempts(product)] *)
Definition reset_out_of_stock_attempts (product_id : positive) (c : Cache)
    : Cache :=
  mkCache (delete product_id (out_of_stock_attempts c))
          (delete product_id (out_of_stock_last_notification c)).

(** [track_out_of_stock_attempt(product)]: the cache afterwards and the
    pair [(attempt_count, notification_sent)]. *)
Definition track_out_of_stock_attempt (product_id : positive)
    (stock_quantity now : Z) (c : Cache) : Cache * (Z * bool) :=
  if 0 <? stock_quantity then (c, (0, false)) else
  let attempt_count :=
    cache_get (out_of_stock_attempts c) product_id 0 now + 1 in
  let c := mkCache (cache_set (out_of_stock_attempts c) product_id
                      attempt_count 86400 now)
                   (out_of_stock_last_notification c) in
  let last_notification_count :=
    cache_get (out_of_stock_last_notification c) product_id 0 now in
  if (5 <=? attempt_count)
     && (last_notification_count / 5 <? attempt_count / 5)
  then (mkCache (out_of_stock_attempts c)
                (cache_set (out_of_stock_last_notification c) product_id
                   attempt_count 86400 now),
        (attempt_count, true))
  else (c, (attempt_count, false)).

(** Attempts on one product at the given times, one after the other: what
    each call returns. *)
Fixpoint track_attempts (product_id : positive) (stock_quantity : Z)
    (times : list Z) (c : Cache) : list (Z * bool) :=
  match times with
  | [] => []
  | now :: rest =>
      let '(c', answer) :=
        track_out_of_stock_attempt product_id stock_quantity now c in
      answer :: track_attempts product_id stock_quantity rest c'
  end.

(** Throughout the day that starts at [t0] the cache reads [k] attempts on
    the product, the last notified one being the last multiple of five. *)
Definition counted (product_id : positive) (t0 k : Z) (c : Cache) : Prop :=
  0 ≤ k
  ∧ ∀ t, t0 ≤ t < t0 + 86400 →
         cache_get (out_of_stock_attempts c) product_id 0 t = k
         ∧ cache_get (out_of_stock_last_notification c) product_id 0 t
           = 5 * (k / 5).

(** ** Logging in *)

Module AuthUser.
(** A row of [django.contrib.auth.models.User]. *)
Record t := mk {
  username : string;
  is_active : bool;
  is_staff : bool;
  is_superuser : bool }.
End AuthUser.

(** [request.user] once the user with key [pk] is logged in. *)
Definition authenticated (pk : positive) (row : AuthUser.t) : User :=
  mkUser pk (AuthUser.is_staff row) (AuthUser.is_superuser row).

(** [member.user]; a foreign key names a row of the table. *)
Definition member_user (users : gmap positive AuthUser.t) (member : Member.t)
    : option (positive * AuthUser.t) :=
  match Member.user member with
  | Some pk =>
      match users !! pk with
      | Some row => Some (pk, row)
      | None => None
      end
  | None => None
  end.

(** [django.contrib.auth.login(request, user)]: the session is flushed
    when it belongs to another user, and kept otherwise. *)
Definition login (request : Request) (pk : positive) (row : AuthUser.t)
    : Request :=
  mkRequest (Some (authenticated pk row))
            (match request_user request with
             | Some u =>
                 if (user_pk u =? pk)%positive then session_member_id request
                 else None
             | None => session_member_id request
             end).

(** [request.session['member_id'] = member.id] *)
Definition remember_member (request : Request) (member_id : positive)
    : Request :=
  mkRequest (request_user request) (Some member_id).

Inductive RfidError :=
  | RfidIsRequired        (* 'RFID is required' *)
  | RfidMemberNotFound    (* 'Member not found' / 'Member not found or inactive' *)
  | NoActiveUser          (* 'No active user ... linked to this RFID ...' *)
  | RfidServerError.      (* 'Server error ...' *)

Inductive RfidAnswer :=
  | MemberOnly (name : string)       (* member_only: True *)
  | Username (username : string).

(** members/views.py: [api_validate_rfid_login]; [rfid] is the empty
    string when the body has none. *)
Definition api_validate_rfid_login (users : gmap positive AuthUser.t)
    (d : DB) (rfid : string) : RfidError + RfidAnswer :=
  if negb (truthy rfid) then inl RfidIsRequired else
  match get_active_by_rfid d rfid with
  | DoesNotExist => inl RfidMemberNotFound
  | MultipleObjectsReturned => inl RfidServerError
  | One _ member =>
      if String.eqb (Member.role member) "member"
         && match member_user users member with
            | None => true
            | Some (_, user) =>
                negb (truthy (AuthUser.username user))
                || negb (AuthUser.is_active user)
            end
      then inr (MemberOnly (Member.full_name member))
      else
        match member_user users member with
        | None => inl NoActiveUser
        | Some (_, user) =>
            if negb (AuthUser.is_active user) then inl NoActiveUser
            else inr (Username (AuthUser.username user))
        end
  end.

(** admin_panel/views.py: [api_rfid_login]: the answer and the request as
    the session holds it afterwards. *)
Definition api_rfid_login (users : gmap positive AuthUser.t) (d : DB)
    (request : Request) (rfid : string) : RfidError + (RfidAnswer * Request) :=
  if negb (truthy rfid) then inl RfidIsRequired else
  match get_active_by_rfid d rfid with
  | DoesNotExist => inl RfidMemberNotFound
  | MultipleObjectsReturned => inl RfidServerError
  | One member_id member =>
      if String.eqb (Member.role member) "member"
         && match member_user users member with
            | None => true
            | Some (_, user) =>
                negb (truthy (AuthUser.username user))
                || negb (AuthUser.is_active user)
            end
      then inr (MemberOnly (Member.full_name member),
                remember_member request member_id)
      else
        match member_user users member with
        | None => inl NoActiveUser
        | Some (pk, user) =>
            if negb (AuthUser.is_active user) then inl NoActiveUser
            else inr (Username (AuthUser.username user),
                      login request pk user)
        end
  end.

(** [str.isdigit] on the ASCII range. *)
Definition isdigit (c : ascii) : bool :=
  let n := nat_of_ascii c in (48 <=? n)%nat && (n <=? 57)%nat.

(** [pin.isdigit() and len(pin) == 4] *)
Definition is_pin (pin : string) : bool :=
  forallb isdigit (list_ascii_of_string pin)
  && negb (String.eqb pin "")
  && (String.length pin =? 4)%nat.

(** The outcomes of [member.check_pin(pin)]. *)
Inductive PinCheck :=
  | PinMatches
  | PinDiffers
  | PinAttributeError     (* raises AttributeError *)
  | PinException.         (* raises another exception *)

Inductive LoginError :=
  | PinRequired           (* 400 'PIN is required' *)
  | PinFormat             (* 400 'PIN must be exactly 4 digits' *)
  | InvalidCredentials    (* 401 'Invalid username or PIN. ...' *)
  | MemberInactive        (* 404 'Member account not found or is inactive. ...' *)
  | RfidLoginNotAllowed   (* 403 'RFID login is only allowed for members with role member' *)
  | UseUsername           (* 400 'Please use username to login' *)
  | CardUnknown           (* 404 'Member not found or account is inactive' *)
  | IdentifierRequired    (* 400 'Username or RFID is required' *)
  | PinNotSet             (* 400 'PIN not set for this account. ...' *)
  | PinVerificationError  (* 500 'Error verifying PIN. ...' *)
  | UserAccountNotFound   (* 404 'User account not found' *)
  | UnexpectedError.      (* 500 'An unexpected error occurred. ...' *)

Section MobileLogin.

(** [Member.check_pin] is defined in members/models.py, which is not among
    the sources: it is a parameter. *)
Variable check_pin : positive → Member.t → string → PinCheck.

(** mobile_api/views.py: [mobile_login]; a field of the body that is
    absent is the empty string.  The result is the member whose data the
    response carries and the request as the session holds it afterwards. *)
Definition mobile_login (users : gmap positive AuthUser.t) (d : DB)
    (request : Request) (username pin rfid : string)
    : LoginError + (positive * Member.t * Request) :=
  let username := strip username in
  let pin := strip pin in
  let rfid := strip rfid in
  if negb (truthy pin) then inl PinRequired else
  if negb (is_pin pin) then inl PinFormat else
  let found : LoginError + (positive * Member.t) :=
    if truthy username then
      let named := λ (_ : positive) u,
        String.eqb (AuthUser.username u) username && AuthUser.is_active u in
      let user :=
        match objects_get named users with
        | One pk row => Some (pk, row)
        | DoesNotExist => None
        | MultipleObjectsReturned => objects_first named users
        end in
      match user with
      | None => inl InvalidCredentials
      | Some (pk, row) =>
          let mine := λ (_ : positive) m,
            linked_to (authenticated pk row) m && Member.is_active m in
          match objects_get mine (members d) with
          | One member_id member => inr (member_id, member)
          | DoesNotExist => inl MemberInactive
          | MultipleObjectsReturned =>
              match objects_first mine (members d) with
              | Some kv => inr kv
              | None => inl MemberInactive
              end
          end
      end
    else if truthy rfid then
      match get_active_by_rfid d rfid with
      | One member_id member =>
          if negb (String.eqb (Member.role member) "member")
          then inl RfidLoginNotAllowed
          else
            match member_user users member with
            | Some (_, user) =>
                if truthy (AuthUser.username user) then inl UseUsername
                else inr (member_id, member)
            | None => inr (member_id, member)
            end
      | DoesNotExist => inl CardUnknown
      | MultipleObjectsReturned => inl UnexpectedError
      end
    else inl IdentifierRequired in
  match found with
  | inl e => inl e
  | inr (member_id, member) =>
      match check_pin member_id member pin with
      | PinDiffers => inl InvalidCredentials
      | PinAttributeError => inl PinNotSet
      | PinException => inl PinVerificationError
      | PinMatches =>
          if String.eqb (Member.role member) "member"
             && match member_user users member with
                | None => true
                | Some (_, user) => negb (truthy (AuthUser.username user))
                end
          then inr (member_id, member, remember_member request member_id)
          else
            match member_user users member with
            | None => inl UserAccountNotFound
            | Some (pk, user) => inr (member_id, member, login request pk user)
            end
      end
  end.

End MobileLogin.

(** ** Quantities of the ledger *)

(** The sum of all member balances. *)
Definition total_balance (d : DB) : Z :=
  map_fold (λ _ m acc, Member.balance m + acc) 0 (members d).

Definition is_type (kind : TransactionType) (e : BalanceTransaction.t) : bool :=
  match kind, BalanceTransaction.transaction_type e with
  | deposit, deposit | deduction, deduction => true
  | _, _ => false
  end.

(** The sum of the amounts of a member's ledger entries of one type. *)
Definition entries_total (kind : TransactionType) (member_id : positive)
    (ledger : list BalanceTransaction.t) : Z :=
  foldr (λ e acc,
           if (BalanceTransaction.member e =? member_id)%positive && is_type kind e
           then BalanceTransaction.amount e + acc else acc) 0 ledger.

(** Every balance is the sum of the member's deposits minus the sum of
    the member's deductions. *)
Definition ledger_consistent (d : DB) : Prop :=
  map_Forall
    (λ pk m, Member.balance m
             = entries_total deposit pk (balance_transactions d)
               - entries_total deduction pk (balance_transactions d))
    (members d).

(** No member has a negative balance. *)
Definition balances_nonnegative (d : DB) : Prop :=
  map_Forall (λ _ m, 0 ≤ Member.balance m) (members d).

(** No transfer intent has a negative amount. *)
Definition amounts_nonnegative (d : DB) : Prop :=
  map_Forall (λ _ o, 0 ≤ FundTransferOTP.amount o) (transfer_otps d).

(** Each sender has at most one unused transfer intent. *)
Definition at_most_one_unused (d : DB) : Prop :=
  ∀ pk1 pk2 o1 o2,
    transfer_otps d !! pk1 = Some o1 → transfer_otps d !! pk2 = Some o2 →
    FundTransferOTP.member o1 = FundTransferOTP.member o2 →
    FundTransferOTP.is_used o1 = false → FundTransferOTP.is_used o2 = false →
    pk1 = pk2.

(** The request comes from member [x] and its code is that of the one
    unused intent [otp] of [x]. *)
Definition presents (d : DB) (request : Request) (otp_code : string)
    (x : positive) (mx : Member.t) (otp_id : positive)
    (otp : FundTransferOTP.t) : Prop :=
  has_permission d request = true
  ∧ get_member_from_request d request = inr (x, mx)
  ∧ strip otp_code ≠ ""
  ∧ find_unused_otp d x (strip otp_code) = One otp_id otp.

(** Two tables with the same keys whose rows are related by [R]. *)
Definition rows_related {A} (R : A → A → Prop) (t t' : gmap positive A)
    : Prop :=
  ∀ pk, match t !! pk, t' !! pk with
        | Some a, Some a' => R a a'
        | None, None => True
        | _, _ => False
        end.

(** Two states of a member row that differ at most in the balance and the
    activity timestamp. *)
Definition same_account (m m' : Member.t) : Prop :=
  Member.rfid_card_number m = Member.rfid_card_number m'
  ∧ Member.full_name m = Member.full_name m'
  ∧ Member.email m = Member.email m'
  ∧ Member.role m = Member.role m'
  ∧ Member.user m = Member.user m'
  ∧ Member.is_active m = Member.is_active m'.

(** The stock counters after the loop of [api_process_refund] has gone
    through [items]. *)
Definition restocked (items : list TransactionItem.t)
    (ps : gmap positive Product.t) : gmap positive Product.t :=
  foldl (λ ps item,
           match TransactionItem.product item with
           | Some product_id =>
               alter (λ p, Product.mk (Product.stock_quantity p
                                       + TransactionItem.quantity item))
                     product_id ps
           | None => ps
           end) ps items.

(** Every line item that names a product names one that exists. *)
Definition products_exist (items : list TransactionItem.t)
    (ps : gmap positive Product.t) : Prop :=
  Forall (λ item, match TransactionItem.product item with
                  | Some product_id => is_Some (ps !! product_id)
                  | None => True
                  end) items.

(** The ledger entry of a refund. *)
Definition refund_entry (PAYMENT_METHODS : list (string * string))
    (member_id : positive) (m : Member.t) (x : Transaction.t)
    (reason : string) (now : Z) : BalanceTransaction.t :=
  let original :=
    "Refund for transaction " +:+ Transaction.transaction_number x
      +:+ " (Original: " +:+ get_payment_method_display PAYMENT_METHODS x
      +:+ ")" in
  BalanceTransaction.mk member_id deposit (Transaction.total_amount x)
    (Member.balance m) (Member.balance m + Transaction.total_amount x)
    (if truthy (strip reason) then original +:+ ". " +:+ strip reason
     else original)
    now.

(** The transaction row a refund saves. *)
Definition refunded (x : Transaction.t) (reason : string) : Transaction.t :=
  Transaction.set_notes
    (if truthy (strip reason) then "Refunded. " +:+ strip reason
     else "Refunded")
    (Transaction.set_status "cancelled" x).

(** The body [{"transaction_id": pk, "status": status}]. *)
Definition status_only (pk : positive) (status : string) : UpdateData :=
  mkUpdateData (Some pk) (Some status) None None None None.

(** ** Sequences of calls *)

(** A call of one of the views that touch balances, intents or sales, on
    a storage that may fail ([fault]). *)
Inductive Operation :=
  | RequestTransfer (request : Request) (recipient_rfid : string) (amount : Z)
      (notes otp_code : string) (now : Z) (fault : option nat)
  | VerifyTransfer (request : Request) (otp_code : string) (now : Z)
      (fault : option nat)
  | RefillBalance (request : Request) (member_id : option positive)
      (amount : JsonAmount) (notes : string) (now : Z) (fault : option nat)
  | ProcessRefund (request : Request) (transaction_id : option positive)
      (reason : string) (now : Z) (fault : option nat)
  | UpdateTransaction (request : Request) (data : UpdateData)
      (fault : option nat).

(** The database after a call. *)
Definition perform (PAYMENT_METHODS : list (string * string))
    (d : DB) (op : Operation) : DB :=
  match op with
  | RequestTransfer request recipient_rfid amount notes otp_code now fault =>
      (run (request_transfer_otp request recipient_rfid amount notes otp_code
              now) d fault).2
  | VerifyTransfer request otp_code now fault =>
      (run (verify_transfer_otp request otp_code now) d fault).2
  | RefillBalance request member_id amount notes now fault =>
      (run (api_refill_balance request member_id amount notes now) d fault).2
  | ProcessRefund request transaction_id reason now fault =>
      (run (api_process_refund PAYMENT_METHODS request transaction_id reason
              now) d fault).2
  | UpdateTransaction request data fault =>
      (run (api_update_transaction PAYMENT_METHODS request data) d fault).2
  end.

(** The database after a sequence of calls. *)
Definition perform_all (PAYMENT_METHODS : list (string * string))
    (d : DB) (ops : list Operation) : DB :=
  foldl (perform PAYMENT_METHODS) d ops.

(** The storage does not fail during the call, where the call is a refill
    or a refund: the two views that write outside of an atomic block. *)
Definition uninterrupted (op : Operation) : Prop :=
  match op with
  | RefillBalance _ _ _ _ _ fault | ProcessRefund _ _ _ _ fault => fault = None
  | _ => True
  end.

(** ** Two requests at once

    Each request is served by a worker of its own; the workers share the
    database only.  A worker serving [verify_transfer_otp] first reads the
    sender, the intent and the recipient and checks them
    ([verify_transfer_checks]), then runs the atomic block on what it holds
    in memory ([perform_transfer]); another worker may run in between. *)
Inductive Worker :=
  | Waiting (request : Request) (otp_code : string) (now : Z)
      (fault : option nat)
  | Checked (plan : TransferPlan) (now : Z) (fault : option nat)
  | Answered (r : Response (BalanceTransaction.t * BalanceTransaction.t)).

(** One step of a worker on the shared database. *)
Definition work (d : DB) (w : Worker) : DB * Worker :=
  match w with
  | Waiting request otp_code now fault =>
      match verify_transfer_checks d request otp_code now with
      | inl e => (d, Answered (Failure e))
      | inr plan => (d, Checked plan now fault)
      end
  | Checked plan now fault =>
      let '(r, d') := run (perform_transfer plan now) d fault in
      (d', Answered r)
  | Answered r => (d, w)
  end.

(** A worker serving [request_transfer_otp]: after the checks it deletes
    the sender's unused intents, then it creates the new intent (the two
    writes of [create_otp]); another worker may run in between. *)
Inductive Issuer :=
  | Asking (request : Request) (recipient_rfid : string) (amount : Z)
      (notes otp_code : string) (now : Z)
  | Deleted (member : positive) (recipient_rfid : string) (amount : Z)
      (notes otp_code : string) (now : Z)
  | Issued (r : Response (positive * FundTransferOTP.t)).

(** One step of an issuing worker on the shared database. *)
Definition issue (d : DB) (w : Issuer) : DB * Issuer :=
  match w with
  | Asking request recipient_rfid amount notes otp_code now =>
      match request_transfer_checks d request recipient_rfid amount notes with
      | inl e => (d, Issued (Failure e))
      | inr (member, recipient_rfid, notes) =>
          (with_transfer_otps (delete_unused member) d,
           Deleted member recipient_rfid amount notes otp_code now)
      end
  | Deleted member recipient_rfid amount notes otp_code now =>
      let otp := FundTransferOTP.mk member recipient_rfid amount notes
                   otp_code now (now + 600) false None in
      let pk := fresh (dom (transfer_otps d)) in
      (with_transfer_otps (<[pk := otp]>) d, Issued (Success (pk, otp)))
  | Issued r => (d, w)
  end.

(** Two workers under a schedule: [false] lets the first worker take its
    next step, [true] the second. *)
Fixpoint interleave {W} (step : DB → W → DB * W) (schedule : list bool)
    (d : DB) (w1 w2 : W) : DB * W * W :=
  match schedule with
  | [] => (d, w1, w2)
  | false :: rest =>
      let '(d', w1') := step d w1 in interleave step rest d' w1' w2
  | true :: rest =>
      let '(d', w2') := step d w2 in interleave step rest d' w1 w2'
  end.

(** What a worker that has passed the checks holds in memory, as far as
    the amounts go. *)
Definition plan_covered (plan : TransferPlan) : Prop :=
  let amount := FundTransferOTP.amount (plan_otp plan).2 in
  0 ≤ amount
  ∧ amount ≤ Member.balance (plan_member plan).2
  ∧ 0 ≤ Member.balance (plan_recipient plan).2.

Definition worker_covered (w : Worker) : Prop :=
  match w with
  | Checked plan _ _ => plan_covered plan
  | _ => True
  end.

(** ** A concrete kiosk

    The end-to-end scenarios of the specification: Alice holds 500.00 and
    sends 200.00 to Bob, who holds 50.00; Carol holds 20.00 and has a
    completed sale of 150.00. *)
Module Scenario.
Definition alice : Member.t :=
  Member.mk "RFID-A" "Alice" "alice@example.org" "member" (Some 10%positive)
            50000 true None.
Definition bob : Member.t :=
  Member.mk "RFID-B" "Bob" "" "member" None 5000 true None.
Definition carol : Member.t :=
  Member.mk "RFID-C" "Carol" "carol@example.org" "member" (Some 13%positive)
            2000 true None.

Definition sale : Transaction.t :=
  Transaction.mk "TXN-0001" (Some 3%positive) 15000 "cash" 15000 0
                 "completed" ""
                 [TransactionItem.mk (Some 1%positive) "Paper" 2].

Definition kiosk : DB :=
  mkDB (<[1%positive := alice]> (<[2%positive := bob]>
          (<[3%positive := carol]> ∅)))
       [BalanceTransaction.mk 1 deposit 50000 0 50000 "Balance refill by admin" 0;
        BalanceTransaction.mk 2 deposit 5000 0 5000 "Balance refill by admin" 0;
        BalanceTransaction.mk 3 deposit 2000 0 2000 "Balance refill by admin" 0]
       ∅
       (<[1%positive := sale]> ∅)
       (<[1%positive := Product.mk 5]> ∅).

Definition as_alice : Request :=
  mkRequest (Some (mkUser 10 false false)) None.
Definition as_bob : Request := mkRequest None (Some 2%positive).
Definition as_cashier : Request :=
  mkRequest (Some (mkUser 20 true false)) None.
Definition as_admin : Request :=
  mkRequest (Some (mkUser 30 true true)) None.

Definition payment_methods : list (string * string) :=
  [("cash", "Cash"); ("debit", "Debit")].

(** Alice asks to send 200.00 to Bob at time 1000 and is issued 123456. *)
Definition requested : DB :=
  (run (request_transfer_otp as_alice "RFID-B" 20000 "lunch" "123456" 1000)
       kiosk None).2.

Definition intent : FundTransferOTP.t :=
  FundTransferOTP.mk 1 "RFID-B" 20000 "lunch" "123456" 1000 1600 false None.

(** She confirms at time 1100. *)
Definition transferred : DB :=
  (run (verify_transfer_otp as_alice "123456" 1100) requested None).2.

(** Had Alice's balance dropped to 100.00 after her request. *)
Definition overdrawn : DB :=
  with_members (alter (Member.set_balance 10000) 1%positive) requested.


(** The cashier refunds Carol's sale at time 2000. *)
Definition carol_refunded : DB :=
  (run (api_process_refund payment_methods as_cashier (Some 1%positive)
          "damaged" 2000) kiosk None).2.


(** The same refund, when saving the product row raises (the third write
    of the view). *)
Definition half_refunded : DB :=
  (run (api_process_refund payment_methods as_cashier (Some 1%positive)
          "damaged" 2000) kiosk (Some 2%nat)).2.

(** A refill of 10.00 for Bob, when appending the ledger entry raises (the
    second write of the view). *)
Definition half_refilled : DB :=
  (run (api_refill_balance as_admin (Some 2%positive) (AmountOf 1000) ""
          3000) kiosk (Some 1%nat)).2.

(** A day at the kiosk. *)
Definition day : list Operation :=
  [RefillBalance as_admin (Some 2%positive) (AmountOf 1000) "" 500 None;
   RequestTransfer as_alice "RFID-B" 20000 "lunch" "123456" 1000 None;
   VerifyTransfer as_alice "123456" 1100 (Some 4%nat);
   VerifyTransfer as_alice "123456" 1150 None;
   ProcessRefund as_cashier (Some 1%positive) "damaged" 2000 None;
   UpdateTransaction as_admin (status_only 1 "completed") None;
   ProcessRefund as_admin (Some 1%positive) "twice" 2300 None].

(** The refill of [half_refilled] as a sequence of one call. *)
Definition interrupted_refill : list Operation :=
  [RefillBalance as_admin (Some 2%positive) (AmountOf 1000) "" 3000
                 (Some 1%nat)].

(** The refund of Carol's sale, when appending the ledger entry raises (the
    second write of the view). *)
Definition interrupted_refund : list Operation :=
  [ProcessRefund as_cashier (Some 1%positive) "damaged" 2000 (Some 1%nat)].

(** From two devices at once, Alice asks to send 300.00 to Bob and 400.00
    to Carol, against her balance of 500.00: each worker deletes her unused
    intents before either creates its own, and she holds two unused intents. *)
Definition two_intents : DB :=
  (interleave issue [false; true; false; true] kiosk
     (Asking as_alice "RFID-B" 30000 "" "111111" 1000)
     (Asking as_alice "RFID-C" 40000 "" "222222" 1000)).1.1.

Definition first_call : Worker := Waiting as_alice "111111" 1100 None.
Definition second_call : Worker := Waiting as_alice "222222" 1100 None.

Definition sent : BalanceTransaction.t :=
  BalanceTransaction.mk 1 deduction 20000 50000 30000
    "Fund transfer to Bob (RFID-B) - lunch" 1100.
Definition received : BalanceTransaction.t :=
  BalanceTransaction.mk 2 deposit 20000 5000 25000
    "Fund transfer from Alice (RFID-A) - lunch" 1100.
End Scenario.

(** ** The kiosk with a staff member, user accounts and a guest sale *)
Module Shop.
Definition dave : Member.t :=
  Member.mk "RFID-D" "Dave" "dave@example.org" "staff" (Some 14%positive)
            0 true None.

(** A sale at the counter without a member card: three sheets of paper in
    two lines, and a line whose product has been deleted since. *)
Definition guest_sale : Transaction.t :=
  Transaction.mk "TXN-0002" None 3000 "cash" 3000 0 "completed" ""
                 [TransactionItem.mk (Some 1%positive) "Paper" 1;
                  TransactionItem.mk (Some 1%positive) "Paper" 2;
                  TransactionItem.mk None "Pencil" 1].

Definition shop : DB :=
  with_transactions (<[2%positive := guest_sale]>)
    (with_members (<[4%positive := dave]>) Scenario.kiosk).

Definition as_carol : Request :=
  mkRequest (Some (mkUser 13 false false)) None.
Definition anonymous : Request := mkRequest None None.

(** The user accounts: Alice, Carol and Dave have one; Bob has none. *)
Definition accounts : gmap positive AuthUser.t :=
  <[10%positive := AuthUser.mk "alice" true false false]>
    (<[13%positive := AuthUser.mk "carol" true false false]>
       (<[14%positive := AuthUser.mk "dave" true false false]> ∅)).

(** Every member has chosen the PIN 1234. *)
Definition check_pin (_ : positive) (_ : Member.t) (pin : string)
    : PinCheck :=
  if String.eqb pin "1234" then PinMatches else PinDiffers.

(** What the worker that serves Alice's confirmation holds when it has
    passed the checks on [Scenario.requested]. *)
Definition plan : TransferPlan :=
  mkPlan (1%positive, Scenario.alice) (1%positive, Scenario.intent)
         (2%positive, Scenario.bob).

(** Erin is a member whose user account has been disabled. *)
Definition erin : Member.t :=
  Member.mk "RFID-E" "Erin" "erin@example.org" "member" (Some 15%positive)
            1000 true None.
Definition accounts_with_erin : gmap positive AuthUser.t :=
  <[15%positive := AuthUser.mk "erin" false false false]> accounts.
Definition kiosk_with_erin : DB :=
  with_members (<[5%positive := erin]>) Scenario.kiosk.
End Shop.

(** * Properties *)

(** ** Queries *)

Lemma least_key_None {A} (l : list (positive * A)) :
  least_key l = None ↔ l = [].
Proof.
  destruct l as [|kv l]; [done|]. simpl. split; [|done].
  by destruct (least_key l) as [kv'|]; [destruct (_ <? _)%positive|].
Qed.

Lemma least_key_Some {A} (l : list (positive * A)) pk row :
  List.NoDup l →
  (∀ k r r', In (k, r) l → In (k, r') l → r = r') →
  least_key l = Some (pk, row)
  ↔ In (pk, row) l ∧ ∀ pk' row', In (pk', row') l → (pk ≤ pk')%positive.
Proof.
  revert pk row. induction l as [|[k r] l IH]; intros pk row Hnd Hkeys.
  - simpl. split; [done|]. by intros [[] _].
  - inversion_clear Hnd as [|? ? Hnot Hnd'].
    assert (Hkeys' : ∀ k r r', In (k, r) l → In (k, r') l → r = r')
      by (intros; eapply Hkeys; right; eauto).
    simpl. destruct (least_key l) as [[k0 r0]|] eqn:E.
    + destruct (proj1 (IH k0 r0 Hnd' Hkeys') eq_refl) as [Hin0 Hmin0].
      simpl. destruct (Pos.ltb_spec k k0) as [Hlt|Hge].
      * split.
        -- intros [= -> ->]. split; [by left|].
           intros k' r' [[= -> ->]|Hin']; [lia|].
           specialize (Hmin0 _ _ Hin'). lia.
        -- intros [Hin Hmin]. destruct Hin as [|Hin]; [congruence|].
           exfalso. specialize (Hmin k r ltac:(by left)).
           specialize (Hmin0 _ _ Hin). lia.
      * split.
        -- intros [= -> ->]. split; [by right|].
           intros k' r' [[= -> ->]|Hin']; [lia|]. by eapply Hmin0.
        -- intros [Hin Hmin]. destruct Hin as [[= -> ->]|Hin].
           ++ specialize (Hmin _ _ (or_intror Hin0)).
              assert (k0 = pk) as -> by lia. exfalso. apply Hnot.
              by rewrite (Hkeys pk row r0) by (simpl; auto).
           ++ specialize (Hmin0 _ _ Hin).
              specialize (Hmin _ _ (or_intror Hin0)).
              assert (k0 = pk) as -> by lia.
              f_equal. f_equal. eapply Hkeys; right; eauto.
    + apply least_key_None in E as ->. split.
      * intros [= -> ->]. split; [by left|].
        intros k' r' [[= -> ->]|[]]. lia.
      * intros [[|[]] _]. congruence.
Qed.

Section Queries.
Context {A : Type} (P : positive → A → bool) (table : gmap positive A).

Lemma elem_of_objects_filter pk row :
  In (pk, row) (objects_filter P table)
  ↔ table !! pk = Some row ∧ P pk row = true.
Proof.
  unfold objects_filter. rewrite filter_In, <- list_elem_of_In.
  by rewrite elem_of_map_to_list.
Qed.

Lemma NoDup_objects_filter : List.NoDup (objects_filter P table).
Proof.
  apply List.NoDup_filter, NoDup_ListNoDup, NoDup_map_to_list.
Qed.

Lemma objects_get_One pk row :
  objects_get P table = One pk row
  ↔ table !! pk = Some row ∧ P pk row = true
    ∧ ∀ pk' row', table !! pk' = Some row' → P pk' row' = true → pk' = pk.
Proof.
  unfold objects_get. split.
  - destruct (objects_filter P table) as [|[k r] [|? ?]] eqn:E; try done.
    intros [= -> ->].
    assert (Hin : ∀ k' r', In (k', r') (objects_filter P table)
                           ↔ (k', r') = (pk, row)).
    { intros. rewrite E. simpl.
      split; [intros [|[]]; congruence | intros ->; by left]. }
    setoid_rewrite elem_of_objects_filter in Hin.
    split_and!; try (by apply Hin).
    intros k' r' ? ?. by assert ((k', r') = (pk, row)) as [= -> ->]
      by (by apply Hin).
  - intros (Hrow & HP & Huniq).
    pose proof NoDup_objects_filter as Hnd.
    assert (Hin : ∀ kv, In kv (objects_filter P table) → kv = (pk, row)).
    { intros [k r] [Hk HPk]%elem_of_objects_filter.
      pose proof (Huniq _ _ Hk HPk) as ->. congruence. }
    assert (Hmem : In (pk, row) (objects_filter P table))
      by by apply elem_of_objects_filter.
    destruct (objects_filter P table) as [|kv1 [|kv2 l]].
    + destruct Hmem.
    + rewrite (Hin kv1) by by left. done.
    + exfalso. inversion_clear Hnd as [|? ? Hnot _].
      apply Hnot. rewrite (Hin kv1), (Hin kv2); simpl; auto.
Qed.

Lemma objects_get_DoesNotExist :
  objects_get P table = DoesNotExist
  ↔ ∀ pk row, table !! pk = Some row → P pk row = false.
Proof.
  unfold objects_get. split.
  - destruct (objects_filter P table) as [|[k r] [|? ?]] eqn:E; try done.
    intros _ pk row Hrow. apply not_true_is_false. intros HP.
    assert (In (pk, row) (objects_filter P table))
      by by apply elem_of_objects_filter.
    rewrite E in *. done.
  - intros Hnone.
    destruct (objects_filter P table) as [|[k r] l] eqn:E; [done|].
    assert (In (k, r) (objects_filter P table)) as [Hk HP]%elem_of_objects_filter
      by (rewrite E; by left).
    rewrite (Hnone _ _ Hk) in HP. done.
Qed.

Lemma objects_get_Multiple :
  objects_get P table = MultipleObjectsReturned
  ↔ ∃ pk1 row1 pk2 row2, pk1 ≠ pk2
      ∧ table !! pk1 = Some row1 ∧ P pk1 row1 = true
      ∧ table !! pk2 = Some row2 ∧ P pk2 row2 = true.
Proof.
  split.
  - unfold objects_get.
    destruct (objects_filter P table) as [|[k1 r1] [|[k2 r2] l]] eqn:E;
      try done.
    intros _. exists k1, r1, k2, r2.
    assert (In (k1, r1) (objects_filter P table)) as H1
      by (rewrite E; simpl; auto).
    assert (In (k2, r2) (objects_filter P table)) as H2
      by (rewrite E; simpl; auto).
    apply elem_of_objects_filter in H1 as [? ?].
    apply elem_of_objects_filter in H2 as [? ?].
    split_and!; try done.
    intros ->. pose proof NoDup_objects_filter as Hnd. rewrite E in Hnd.
    inversion_clear Hnd as [|? ? Hnot _]. apply Hnot.
    left. congruence.
  - intros (k1 & r1 & k2 & r2 & Hne & H1 & HP1 & H2 & HP2).
    destruct (objects_get P table) as [|k r|] eqn:E; [|exfalso|done].
    + rewrite objects_get_DoesNotExist in E. rewrite (E _ _ H1) in HP1. done.
    + apply objects_get_One in E as (_ & _ & Huniq).
      rewrite (Huniq _ _ H1 HP1), (Huniq _ _ H2 HP2) in Hne. done.
Qed.

Lemma objects_first_Some pk row :
  objects_first P table = Some (pk, row)
  ↔ table !! pk = Some row ∧ P pk row = true
    ∧ ∀ pk' row', table !! pk' = Some row' → P pk' row' = true
                  → (pk ≤ pk')%positive.
Proof.
  unfold objects_first. rewrite least_key_Some.
  - rewrite elem_of_objects_filter. split.
    + intros ([? ?] & Hmin). split_and!; [done..|].
      intros. eapply Hmin, elem_of_objects_filter; eauto.
    + intros (? & ? & Hmin). split; [done|].
      intros k r [? ?]%elem_of_objects_filter. by eapply Hmin.
  - apply NoDup_objects_filter.
  - intros k r r' [? _]%elem_of_objects_filter [? _]%elem_of_objects_filter.
    congruence.
Qed.

Lemma objects_first_None :
  objects_first P table = None
  ↔ ∀ pk row, table !! pk = Some row → P pk row = false.
Proof.
  rewrite <- objects_get_DoesNotExist. unfold objects_first, objects_get.
  rewrite least_key_None.
  by destruct (objects_filter P table) as [|[??] [|??]].
Qed.

End Queries.

Lemma get_by_pk_One {A} (P : A → bool) pk (table : gmap positive A) pk' row :
  get_by_pk P pk table = One pk' row
  ↔ pk' = pk ∧ table !! pk = Some row ∧ P row = true.
Proof.
  unfold get_by_pk. destruct (table !! pk) as [r|]; [|by intuition].
  destruct (P r) eqn:E; split; try done.
  - by intros [= -> ->].
  - by intros (-> & [= ->] & _).
  - intros (_ & [= ->] & ?). congruence.
Qed.

(** ** Queries on related tables *)

Section Related.
Context {A : Type} (R : A → A → Prop) (P : positive → A → bool).
Context (t t' : gmap positive A).
Hypothesis Hrel : rows_related R t t'.
Hypothesis HP : ∀ pk a a', R a a' → P pk a = P pk a'.

Lemma related_lookup pk a :
  t !! pk = Some a → ∃ a', t' !! pk = Some a' ∧ R a a'.
Proof.
  intros H. specialize (Hrel pk). rewrite H in Hrel.
  destruct (t' !! pk) as [a'|]; [by exists a'|done].
Qed.

Lemma related_lookup_inv pk a' :
  t' !! pk = Some a' → ∃ a, t !! pk = Some a ∧ R a a'.
Proof.
  intros H. specialize (Hrel pk). rewrite H in Hrel.
  destruct (t !! pk) as [a|]; [by exists a|done].
Qed.

Lemma objects_get_related_One pk row :
  objects_get P t = One pk row
  → ∃ row', objects_get P t' = One pk row' ∧ t' !! pk = Some row' ∧ R row row'.
Proof.
  intros (Hrow & Hp & Huniq)%objects_get_One.
  destruct (related_lookup _ _ Hrow) as (row' & Hrow' & HR).
  exists row'. split_and!; try done. apply objects_get_One.
  split_and!; [done|by rewrite <- (HP _ _ _ HR)|].
  intros k a' (a & Ha & HRa)%related_lookup_inv Hpa.
  apply (Huniq k a Ha). by rewrite (HP _ _ _ HRa).
Qed.

Lemma objects_get_related_DoesNotExist :
  objects_get P t = DoesNotExist → objects_get P t' = DoesNotExist.
Proof.
  rewrite !objects_get_DoesNotExist.
  intros Hnone k a' (a & Ha & HRa)%related_lookup_inv.
  rewrite <- (HP _ _ _ HRa). by eapply Hnone.
Qed.

Lemma objects_get_related_Multiple :
  objects_get P t = MultipleObjectsReturned
  → objects_get P t' = MultipleObjectsReturned.
Proof.
  rewrite !objects_get_Multiple.
  intros (k1 & r1 & k2 & r2 & Hne & H1 & HP1 & H2 & HP2).
  destruct (related_lookup _ _ H1) as (r1' & ? & HR1).
  destruct (related_lookup _ _ H2) as (r2' & ? & HR2).
  exists k1, r1', k2, r2'.
  rewrite <- (HP _ _ _ HR1), <- (HP _ _ _ HR2). done.
Qed.

Lemma objects_first_related pk row :
  objects_first P t = Some (pk, row)
  → ∃ row', objects_first P t' = Some (pk, row')
            ∧ t' !! pk = Some row' ∧ R row row'.
Proof.
  intros (Hrow & Hp & Hmin)%objects_first_Some.
  destruct (related_lookup _ _ Hrow) as (row' & Hrow' & HR).
  exists row'. split_and!; try done. apply objects_first_Some.
  split_and!; [done|by rewrite <- (HP _ _ _ HR)|].
  intros k a' (a & Ha & HRa)%related_lookup_inv Hpa.
  apply (Hmin k a Ha). by rewrite (HP _ _ _ HRa).
Qed.

Lemma get_by_pk_related (Q : A → bool) pk pk' row :
  (∀ a a', R a a' → Q a = Q a') →
  get_by_pk Q pk t = One pk' row
  → ∃ row', get_by_pk Q pk t' = One pk' row'
            ∧ t' !! pk' = Some row' ∧ R row row'.
Proof.
  intros HQ (-> & Hrow & Hq)%get_by_pk_One.
  destruct (related_lookup _ _ Hrow) as (row' & Hrow' & HR).
  exists row'. split_and!; try done. apply get_by_pk_One.
  by rewrite <- (HQ _ _ HR).
Qed.
End Related.

Lemma rows_related_refl {A} (R : A → A → Prop) (t : gmap positive A) :
  (∀ a, R a a) → rows_related R t t.
Proof. intros HR k. by destruct (t !! k). Qed.

Lemma rows_related_trans {A} (R : A → A → Prop) (t1 t2 t3 : gmap positive A) :
  (∀ a b c, R a b → R b c → R a c) →
  rows_related R t1 t2 → rows_related R t2 t3 → rows_related R t1 t3.
Proof.
  intros HR H12 H23 k. specialize (H12 k). specialize (H23 k).
  destruct (t1 !! k), (t2 !! k), (t3 !! k); try done. by eapply HR.
Qed.

Lemma rows_related_alter {A} (R : A → A → Prop) (t : gmap positive A) f pk :
  (∀ a, R a a) → (∀ a, R a (f a)) → rows_related R t (alter f pk t).
Proof.
  intros Hrefl Hf k. destruct (decide (k = pk)) as [->|Hne].
  - rewrite lookup_alter_eq. destruct (t !! pk); simpl; auto.
  - rewrite lookup_alter_ne by done. destruct (t !! k); auto.
Qed.

Lemma same_account_refl m : same_account m m.
Proof. by repeat split. Qed.

Lemma same_account_trans a b c :
  same_account a b → same_account b c → same_account a c.
Proof. unfold same_account. intuition congruence. Qed.

(** ** The monad *)

Lemma bind_inr {A B} (m : M A) (k : A → M B) s b s' :
  bind m k s = (inr b, s')
  ↔ ∃ a s1, m s = (inr a, s1) ∧ k a s1 = (inr b, s').
Proof.
  unfold bind. destruct (m s) as [[e|a] s1]; split.
  - done.
  - by intros (? & ? & ? & _).
  - intros. by exists a, s1.
  - by intros (? & ? & [= <- <-] & ?).
Qed.

Lemma ret_inr {A} (a a' : A) s s' :
  ret a s = (inr a', s') ↔ a' = a ∧ s' = s.
Proof. unfold ret. split; [by intros [= -> ->] | by intros [-> ->]]. Qed.

Lemma read_inr {A} (f : DB → A) s a s' :
  read f s = (inr a, s') ↔ a = f (db s) ∧ s' = s.
Proof. unfold read. split; [by intros [= <- <-] | by intros [-> ->]]. Qed.

Lemma write_inr f s u s' :
  write f s = (inr u, s') → db s' = f (db s).
Proof.
  unfold write. destruct (fuse s) as [[|n]|]; [done|by intros [= _ <-]..].
Qed.

Lemma write_inl f s e s' :
  write f s = (inl e, s') → db s' = db s.
Proof.
  unfold write. destruct (fuse s) as [[|n]|]; [by intros [= _ <-]|done..].
Qed.

Lemma write_no_fault f d :
  write f (mkStore d None) = (inr tt, mkStore (f d) None).
Proof. done. Qed.

Lemma save_fields_inr {A} (table : DB → gmap positive A) upd pk f s u s' :
  save_fields table upd pk f s = (inr u, s')
  → is_Some (table (db s) !! pk) ∧ db s' = upd (alter f pk) (db s).
Proof.
  unfold save_fields. intros (row & s1 & [-> ->]%read_inr & H)%bind_inr.
  destruct (table (db s) !! pk); [|done]. split; [done|by eapply write_inr].
Qed.

Lemma save_fields_no_fault {A} (table : DB → gmap positive A) upd pk f d row :
  table d !! pk = Some row
  → save_fields table upd pk f (mkStore d None)
    = (inr tt, mkStore (upd (alter f pk) d) None).
Proof. intros H. unfold save_fields, bind, read. simpl. by rewrite H. Qed.

Lemma refresh_from_db_inr {A} (table : DB → gmap positive A) pk s row s' :
  refresh_from_db table pk s = (inr row, s')
  ↔ table (db s) !! pk = Some row ∧ s' = s.
Proof.
  unfold refresh_from_db, bind, read. simpl.
  destruct (table (db s) !! pk) as [r|]; unfold ret, raise; split;
    try done; [by intros [= -> ->] | by intros [[= ->] ->] | by intros [? _]].
Qed.

Lemma BalanceTransaction_create_inr e s e' s' :
  BalanceTransaction_create e s = (inr e', s')
  → e' = e ∧ db s' = with_balance_transactions (λ l, l ++ [e]) (db s).
Proof.
  unfold BalanceTransaction_create.
  intros (u & s1 & Hw%write_inr & [-> ->]%ret_inr)%bind_inr. done.
Qed.

(** An exception that leaves an atomic block leaves the database as it was
    on entry. *)
Lemma atomic_inl {A} (m : M A) s e s' :
  atomic m s = (inl e, s') → db s' = db s.
Proof. unfold atomic. by destruct (m s) as [[?|?] ?]; intros [= _ <-]. Qed.

Lemma atomic_inr {A} (m : M A) s a s' :
  atomic m s = (inr a, s') ↔ m s = (inr a, s').
Proof. unfold atomic. by destruct (m s) as [[?|?] ?]. Qed.

(** ** Resolving the sender *)

Lemma get_member_from_request_inr d request x mx :
  get_member_from_request d request = inr (x, mx)
  → members d !! x = Some mx ∧ Member.is_active mx = true.
Proof.
  unfold get_member_from_request.
  destruct (request_user request) as [u|].
  - destruct (objects_get _ _) as [|pk row|] eqn:E.
    + done.
    + intros [= -> ->]. apply objects_get_One in E as (? & HP & _).
      by apply andb_true_iff in HP as [_ ?].
    + destruct (objects_first _ _) as [[pk row]|] eqn:E'; [|done].
      intros [= -> ->]. apply objects_first_Some in E' as (? & HP & _).
      by apply andb_true_iff in HP as [_ ?].
  - destruct (session_member_id request) as [member_id|]; [|done].
    destruct (get_by_pk _ _ _) as [|pk row|] eqn:E; try done.
    intros [= -> ->]. by apply get_by_pk_One in E as (-> & ? & ?).
Qed.

Lemma truthy_true s : truthy s = true ↔ s ≠ "".
Proof.
  unfold truthy. rewrite negb_true_iff.
  destruct (String.eqb_spec s ""); split; congruence.
Qed.

(** ** The checks of [verify_transfer_otp] *)

Lemma verify_transfer_checks_inr d request otp_code now plan :
  verify_transfer_checks d request otp_code now = inr plan
  ↔ ∃ x mx otp_id otp y my,
      plan = mkPlan (x, mx) (otp_id, otp) (y, my)
      ∧ presents d request otp_code x mx otp_id otp
      ∧ FundTransferOTP.is_valid otp now = true
      ∧ FundTransferOTP.amount otp ≤ Member.balance mx
      ∧ get_active_by_rfid d (FundTransferOTP.recipient_rfid otp) = One y my
      ∧ y ≠ x.
Proof.
  unfold verify_transfer_checks, presents. split.
  - destruct (has_permission d request) eqn:Hperm; [simpl|done].
    destruct (get_member_from_request d request) as [|[x mx]] eqn:Hx; [done|].
    destruct (truthy (strip otp_code)) eqn:Hcode; [simpl|done].
    apply truthy_true in Hcode.
    destruct (find_unused_otp d x (strip otp_code)) as [|otp_id otp|] eqn:Hotp;
      try done.
    destruct (FundTransferOTP.is_valid otp now) eqn:Hvalid; [simpl|done].
    destruct (Z.ltb_spec (Member.balance mx) (FundTransferOTP.amount otp));
      [done|].
    destruct (get_active_by_rfid d _) as [|y my|] eqn:Hy; try done.
    destruct (Pos.eqb_spec y x); [done|].
    intros [= <-]. exists x, mx, otp_id, otp, y, my. split_and!; done.
  - intros (x & mx & otp_id & otp & y & my & -> & (-> & -> & Hcode & ->)
            & -> & Hle & -> & Hne).
    apply truthy_true in Hcode as ->. simpl.
    destruct (Z.ltb_spec (Member.balance mx) (FundTransferOTP.amount otp));
      [lia|].
    by destruct (Pos.eqb_spec y x).
Qed.

(** ** The atomic block of [verify_transfer_otp] *)

(** Either the block raised and the database is as before, or every step
    ran: the intent is marked used, the two balances are written from the
    balances held in memory, and two entries are appended. *)
Lemma perform_transfer_inv x mx otp_id otp y my now s r s' :
  perform_transfer (mkPlan (x, mx) (otp_id, otp) (y, my)) now s = (r, s') →
  (r = inr (Failure TransferFailed) ∧ db s' = db s)
  ∨ ∃ mx0,
      members (db s) !! x = Some mx0
      ∧ is_Some (members (db s) !! y)
      ∧ is_Some (transfer_otps (db s) !! otp_id)
      ∧ let A := FundTransferOTP.amount otp in
        let e1 := BalanceTransaction.mk x deduction A (Member.balance mx)
                    (Member.balance mx - A) (transfer_notes "to" my otp) now in
        let e2 := BalanceTransaction.mk y deposit A (Member.balance my)
                    (Member.balance my + A)
                    (transfer_notes "from"
                       (Member.set_balance (Member.balance mx - A) mx0) otp)
                    now in
        r = inr (Success (e1, e2))
        ∧ db s'
          = mkDB (alter (Member.set_last_transaction now) y
                    (alter (Member.set_last_transaction now) x
                       (alter (Member.set_balance (Member.balance my + A)) y
                          (alter (Member.set_balance (Member.balance mx - A)) x
                             (members (db s))))))
                 ((balance_transactions (db s) ++ [e1]) ++ [e2])
                 (alter (FundTransferOTP.used_at now) otp_id
                    (transfer_otps (db s)))
                 (transactions (db s)) (products (db s)).
Proof.
  unfold perform_transfer, try_except. simpl.
  match goal with |- context [bind (atomic ?b) _ s] => set (block := b) end.
  unfold bind at 1. destruct (atomic block s) as [[e|entries] s1] eqn:Hblock.
  - intros [= <- <-]. left. split; [done|]. by eapply atomic_inl.
  - intros [= <- <-]. right. apply (proj1 (atomic_inr _ _ _ _)) in Hblock.
    subst block.
    apply bind_inr in Hblock as (? & s2 & [Hotp E2]%save_fields_inr & Hblock).
    apply bind_inr in Hblock as (? & s3 & [Hx E3]%save_fields_inr & Hblock).
    apply bind_inr in Hblock as (mx1 & ? & [Hmx1 ->]%refresh_from_db_inr & Hblock).
    apply bind_inr in Hblock
      as (e1 & s4 & [-> E4]%BalanceTransaction_create_inr & Hblock).
    apply bind_inr in Hblock as (? & s5 & [Hy E5]%save_fields_inr & Hblock).
    apply bind_inr in Hblock as (my1 & ? & [Hmy1 ->]%refresh_from_db_inr & Hblock).
    apply bind_inr in Hblock
      as (e2 & s6 & [-> E6]%BalanceTransaction_create_inr & Hblock).
    apply bind_inr in Hblock as (? & s7 & [_ E7]%save_fields_inr & Hblock).
    apply bind_inr in Hblock as (? & s8 & [_ E8]%save_fields_inr & Hblock).
    apply ret_inr in Hblock as [-> ->].
    rewrite E2 in Hx, E3. simpl in Hx. destruct Hx as [mx0 Hx].
    rewrite E3 in Hmx1, E4. simpl in Hmx1.
    rewrite lookup_alter_eq, Hx in Hmx1. injection Hmx1 as <-.
    rewrite E4 in Hy, E5. simpl in Hy.
    rewrite E5 in Hmy1, E6. simpl in Hmy1.
    rewrite lookup_alter_eq in Hmy1.
    assert (Hy0 : is_Some (members (db s) !! y)).
    { destruct (decide (x = y)) as [->|Hne]; [by rewrite Hx|].
      by rewrite lookup_alter_ne in Hy. }
    destruct (alter _ x (members (db s)) !! y) as [my0|] eqn:Hmy0;
      [|by destruct Hy]. injection Hmy1 as <-.
    exists mx0. split_and!; try done.
    rewrite E8, E7, E6. by destruct s.
Qed.

(** ** Sums of balances and of ledger entries *)

Lemma total_balance_insert (ms : gmap positive Member.t) pk m m' :
  ms !! pk = Some m →
  map_fold (λ _ m acc, Member.balance m + acc) 0 (<[pk := m']> ms)
  = map_fold (λ _ m acc, Member.balance m + acc) 0 ms
    - Member.balance m + Member.balance m'.
Proof.
  intros Hpk.
  rewrite <- (insert_delete_id ms pk m) at 2 by done.
  rewrite <- (insert_delete_eq ms pk m').
  rewrite !map_fold_insert_L; [lia | | apply lookup_delete_eq | | apply lookup_delete_eq];
    intros; lia.
Qed.

Lemma total_balance_alter (ms : gmap positive Member.t) pk m f :
  ms !! pk = Some m →
  map_fold (λ _ m acc, Member.balance m + acc) 0 (alter f pk ms)
  = map_fold (λ _ m acc, Member.balance m + acc) 0 ms
    - Member.balance m + Member.balance (f m).
Proof.
  intros Hpk. rewrite alter_alt, Hpk. by apply total_balance_insert.
Qed.

Lemma entries_total_app kind pk l1 l2 :
  entries_total kind pk (l1 ++ l2)
  = entries_total kind pk l1 + entries_total kind pk l2.
Proof.
  induction l1 as [|e l1 IH]; simpl; [done|].
  destruct (_ && _); lia.
Qed.

Lemma transfer_notes_set_balance direction b m otp :
  transfer_notes direction (Member.set_balance b m) otp
  = transfer_notes direction m otp.
Proof. done. Qed.

(** ** [verify_transfer_otp] on one database *)

(** The view either fails and leaves the database as it was, or it passed
    every check and the atomic block ran to its end. *)
Lemma verify_transfer_otp_run d fault request otp_code now r d' :
  run (verify_transfer_otp request otp_code now) d fault = (r, d') →
  (∃ e, r = Failure e ∧ d' = d)
  ∨ ∃ x mx otp_id otp y my,
      presents d request otp_code x mx otp_id otp
      ∧ FundTransferOTP.is_valid otp now = true
      ∧ FundTransferOTP.amount otp ≤ Member.balance mx
      ∧ get_active_by_rfid d (FundTransferOTP.recipient_rfid otp) = One y my
      ∧ y ≠ x
      ∧ members d !! x = Some mx
      ∧ members d !! y = Some my
      ∧ transfer_otps d !! otp_id = Some otp
      ∧ let A := FundTransferOTP.amount otp in
        let e1 := BalanceTransaction.mk x deduction A (Member.balance mx)
                    (Member.balance mx - A) (transfer_notes "to" my otp) now in
        let e2 := BalanceTransaction.mk y deposit A (Member.balance my)
                    (Member.balance my + A) (transfer_notes "from" mx otp)
                    now in
        r = Success (e1, e2)
        ∧ d' = mkDB (alter (Member.set_last_transaction now) y
                       (alter (Member.set_last_transaction now) x
                          (alter (Member.set_balance (Member.balance my + A)) y
                             (alter (Member.set_balance (Member.balance mx - A))
                                x (members d)))))
                    ((balance_transactions d ++ [e1]) ++ [e2])
                    (alter (FundTransferOTP.used_at now) otp_id
                       (transfer_otps d))
                    (transactions d) (products d).
Proof.
  unfold run, verify_transfer_otp, bind, read. simpl.
  destruct (verify_transfer_checks d request otp_code now) as [e|plan] eqn:Hc.
  - intros [= <- <-]. left. by exists e.
  - apply verify_transfer_checks_inr in Hc
      as (x & mx & otp_id & otp & y & my & -> & Hp & Hvalid & Hle & Hy & Hne).
    destruct (perform_transfer _ now _) as [r0 s'] eqn:Hrun.
    apply perform_transfer_inv in Hrun
      as [[-> Hdb]|(mx0 & Hx & _ & _ & -> & Hdb)]; simpl in *.
    + intros [= <- <-]. left. by exists TransferFailed.
    + intros [= <- <-]. right.
      destruct Hp as (Hperm & Hreq & Hcode & Hotp).
      pose proof Hreq as [Hmx _]%get_member_from_request_inr.
      pose proof Hy as (Hmy & _)%objects_get_One.
      pose proof Hotp as (Hrow & _)%objects_get_One.
      assert (mx0 = mx) as -> by congruence.
      exists x, mx, otp_id, otp, y, my. split_and!; done.
Qed.

(** * The claims *)

(** C1.  A successful [verify_transfer_otp] of the amount A of the intent,
    from sender x to recipient y: the balance of x decreases by exactly A,
    the balance of y increases by exactly A, every other member is
    untouched up to the activity timestamp, the sum of all balances is
    unchanged, and exactly two ledger entries are appended, a deduction for
    x from its old balance to old - A and a deposit for y from its old
    balance to old + A. *)
Theorem transfer_conserves_balances d fault request otp_code now e1 e2 d' :
  run (verify_transfer_otp request otp_code now) d fault
    = (Success (e1, e2), d') →
  ∃ x mx otp_id otp y my,
    presents d request otp_code x mx otp_id otp
    ∧ get_active_by_rfid d (FundTransferOTP.recipient_rfid otp) = One y my
    ∧ members d !! x = Some mx ∧ members d !! y = Some my ∧ x ≠ y
    ∧ let A := FundTransferOTP.amount otp in
      Member.balance <$> members d' !! x = Some (Member.balance mx - A)
      ∧ Member.balance <$> members d' !! y = Some (Member.balance my + A)
      ∧ (∀ z, z ≠ x → z ≠ y → members d' !! z = members d !! z)
      ∧ total_balance d' = total_balance d
      ∧ balance_transactions d' = balance_transactions d ++ [e1; e2]
      ∧ e1 = BalanceTransaction.mk x deduction A (Member.balance mx)
               (Member.balance mx - A) (transfer_notes "to" my otp) now
      ∧ e2 = BalanceTransaction.mk y deposit A (Member.balance my)
               (Member.balance my + A) (transfer_notes "from" mx otp) now.
Proof.
  intros [(e & [=] & _)|(x & mx & otp_id & otp & y & my & Hp & _ & _ & Hy & Hne
                         & Hmx & Hmy & _ & [= -> ->] & ->)]%verify_transfer_otp_run.
  exists x, mx, otp_id, otp, y, my. simpl. split_and!; try done.
  - rewrite lookup_alter_ne, lookup_alter_eq, lookup_alter_ne, lookup_alter_eq
      by done. by rewrite Hmx.
  - rewrite lookup_alter_eq, lookup_alter_ne, lookup_alter_eq, lookup_alter_ne
      by done. by rewrite Hmy.
  - intros z Hzx Hzy. by rewrite !lookup_alter_ne by done.
  - unfold total_balance. simpl.
    erewrite total_balance_alter; last first.
    { rewrite lookup_alter_ne, lookup_alter_eq, lookup_alter_ne by done.
      by rewrite Hmy. }
    erewrite total_balance_alter; last first.
    { rewrite lookup_alter_ne, lookup_alter_eq by done. by rewrite Hmx. }
    erewrite total_balance_alter; last first.
    { rewrite lookup_alter_ne by done. exact Hmy. }
    erewrite total_balance_alter by exact Hmx.
    simpl. lia.
  - by rewrite <- app_assoc.
Qed.

Lemma transfer_conserves_balances_witness :
  total_balance Scenario.transferred = total_balance Scenario.requested
  ∧ balance_transactions Scenario.transferred
    = balance_transactions Scenario.requested
      ++ [Scenario.sent; Scenario.received].
Proof.
  destruct (transfer_conserves_balances Scenario.requested None
              Scenario.as_alice "123456" 1100 Scenario.sent Scenario.received
              Scenario.transferred)
    as (x & mx & otp_id & otp & y & my & _ & _ & _ & _ & _ & _ & _ & _
        & Htotal & Hledger & _).
  - vm_compute. reflexivity.
  - split; [exact Htotal | exact Hledger].
Defined.

(** Where each sender has at most one unused intent, the lookup of the
    view finds the sender's unused intent by its code. *)
Lemma unused_intent_is_found d x otp_id otp :
  at_most_one_unused d →
  transfer_otps d !! otp_id = Some otp →
  FundTransferOTP.member otp = x →
  FundTransferOTP.is_used otp = false →
  find_unused_otp d x (FundTransferOTP.otp_code otp) = One otp_id otp.
Proof.
  intros Hone Hrow Hx Hunused. apply objects_get_One. split_and!; [done| |].
  - by rewrite Hx, Pos.eqb_refl, String.eqb_refl, Hunused.
  - intros pk' o' Hrow'
      [[Hm%Pos.eqb_eq _]%andb_true_iff Hu%negb_true_iff]%andb_true_iff.
    apply (Hone _ _ _ _ Hrow' Hrow); congruence.
Qed.

Lemma verify_transfer_otp_rejected d fault request otp_code now e :
  verify_transfer_checks d request otp_code now = inl e →
  run (verify_transfer_otp request otp_code now) d fault = (Failure e, d).
Proof.
  intros H. unfold run, verify_transfer_otp, bind, read. simpl. by rewrite H.
Qed.

Lemma verify_transfer_checks_presents d request otp_code now x mx otp_id otp :
  presents d request otp_code x mx otp_id otp →
  verify_transfer_checks d request otp_code now
  = if negb (FundTransferOTP.is_valid otp now) then inl OtpExpired
    else if Member.balance mx <? FundTransferOTP.amount otp
         then inl InsufficientBalance
         else match get_active_by_rfid d (FundTransferOTP.recipient_rfid otp) with
              | DoesNotExist => inl RecipientNotFound
              | MultipleObjectsReturned =>
                  inl (InternalServerError MultipleObjects)
              | One y my =>
                  if (y =? x)%positive then inl SelfTransfer
                  else inr (mkPlan (x, mx) (otp_id, otp) (y, my))
              end.
Proof.
  intros (Hperm & Hreq & Hcode%truthy_true & Hotp).
  unfold verify_transfer_checks. by rewrite Hperm, Hreq, Hcode, Hotp.
Qed.

(** C2.  When the sender's current balance is strictly less than the
    amount of the intent the request presents, [verify_transfer_otp]
    answers 'Insufficient balance' and the database is exactly as before:
    both balances, the ledger and the still unused intent.  And whatever a
    call to [verify_transfer_otp] answers, it leaves no balance negative
    when none was negative before. *)
Theorem insufficient_balance_changes_nothing d fault request otp_code now :
  (∀ x mx otp_id otp,
     presents d request otp_code x mx otp_id otp →
     FundTransferOTP.is_valid otp now = true →
     Member.balance mx < FundTransferOTP.amount otp →
     run (verify_transfer_otp request otp_code now) d fault
     = (Failure InsufficientBalance, d))
  ∧ (∀ r d',
       run (verify_transfer_otp request otp_code now) d fault = (r, d') →
       amounts_nonnegative d → balances_nonnegative d →
       balances_nonnegative d').
Proof.
  split.
  - intros x mx otp_id otp Hp Hvalid Hlt.
    apply verify_transfer_otp_rejected.
    rewrite (verify_transfer_checks_presents _ _ _ _ _ _ _ _ Hp), Hvalid.
    simpl. by destruct (Z.ltb_spec (Member.balance mx)
                          (FundTransferOTP.amount otp)); [|lia].
  - intros r d' [(e & _ & ->)|(x & mx & otp_id & otp & y & my & _ & _ & Hle & _
                               & Hne & Hmx & Hmy & Hotp & _ & ->)]%verify_transfer_otp_run
      Hamounts Hbalances; [done|].
    specialize (Hamounts _ _ Hotp). simpl in Hamounts.
    pose proof (Hbalances _ _ Hmy) as Hy0. simpl in Hy0.
    intros z mz. simpl.
    destruct (decide (z = y)) as [->|Hzy];
      [|destruct (decide (z = x)) as [->|Hzx]].
    + rewrite lookup_alter_eq, lookup_alter_ne, lookup_alter_eq,
        lookup_alter_ne, Hmy by done.
      intros [= <-]. simpl. lia.
    + rewrite lookup_alter_ne, lookup_alter_eq, lookup_alter_ne,
        lookup_alter_eq, Hmx by done.
      intros [= <-]. simpl. lia.
    + rewrite !lookup_alter_ne by done. apply Hbalances.
Qed.

Lemma insufficient_balance_changes_nothing_witness :
  run (verify_transfer_otp Scenario.as_alice "123456" 1100)
      Scenario.overdrawn None
  = (Failure InsufficientBalance, Scenario.overdrawn)
  ∧ balances_nonnegative Scenario.transferred.
Proof.
  destruct (insufficient_balance_changes_nothing Scenario.overdrawn None
              Scenario.as_alice "123456" 1100) as [Hreject _].
  destruct (insufficient_balance_changes_nothing Scenario.requested None
              Scenario.as_alice "123456" 1100) as [_ Hnonneg].
  split.
  - apply (Hreject 1%positive
             (Member.set_balance 10000 Scenario.alice) 1%positive
             Scenario.intent).
    + vm_compute. split_and!; done.
    + vm_compute. reflexivity.
    + vm_compute. reflexivity.
  - apply (Hnonneg (Success (Scenario.sent, Scenario.received))).
    + vm_compute. reflexivity.
    + unfold amounts_nonnegative. apply (bool_decide_unpack _).
      vm_compute. exact I.
    + unfold balances_nonnegative. apply (bool_decide_unpack _).
      vm_compute. exact I.
Defined.

(** ** The sender and the recipient on a database with the same accounts *)

Section SameAccounts.
Context (d d' : DB).
Hypothesis Hsame : rows_related same_account (members d) (members d').

Lemma get_member_from_request_related request x mx :
  get_member_from_request d request = inr (x, mx)
  → ∃ mx', get_member_from_request d' request = inr (x, mx')
           ∧ members d' !! x = Some mx' ∧ same_account mx mx'.
Proof.
  unfold get_member_from_request.
  destruct (request_user request) as [u|].
  - set (mine := λ (_ : positive) m, linked_to u m && Member.is_active m).
    assert (Hmine : ∀ pk a a', same_account a a' → mine pk a = mine pk a').
    { intros pk a a' (_ & _ & _ & _ & Hu & Ha). unfold mine, linked_to.
      by rewrite Hu, Ha. }
    destruct (objects_get mine (members d)) as [|pk row|] eqn:E.
    + done.
    + intros [= -> ->].
      destruct (objects_get_related_One _ _ _ _ Hsame Hmine _ _ E)
        as (mx' & -> & ? & ?).
      by exists mx'.
    + rewrite (objects_get_related_Multiple _ _ _ _ Hsame Hmine E).
      destruct (objects_first mine (members d)) as [[pk row]|] eqn:E';
        [|done].
      intros [= -> ->].
      destruct (objects_first_related _ _ _ _ Hsame Hmine _ _ E')
        as (mx' & -> & ? & ?).
      by exists mx'.
  - destruct (session_member_id request) as [member_id|]; [|done].
    destruct (get_by_pk _ _ (members d)) as [|pk row|] eqn:E; try done.
    intros [= -> ->].
    destruct (get_by_pk_related _ _ _ Hsame Member.is_active _ _ _
                ltac:(by intros ?? (_ & _ & _ & _ & _ & ?)) E)
      as (mx' & -> & ? & ?).
    by exists mx'.
Qed.

Lemma has_permission_related request :
  has_permission d request = true → has_permission d' request = true.
Proof.
  unfold has_permission.
  destruct (request_user request); [done|].
  destruct (session_member_id request) as [member_id|]; [|done].
  destruct (get_by_pk _ _ (members d)) as [|pk row|] eqn:E; try done.
  destruct (get_by_pk_related _ _ _ Hsame Member.is_active _ _ _
              ltac:(by intros ?? (_ & _ & _ & _ & _ & ?)) E)
    as (mx' & -> & ? & ?).
  done.
Qed.

Lemma get_active_by_rfid_related rfid y my :
  get_active_by_rfid d rfid = One y my
  → ∃ my', get_active_by_rfid d' rfid = One y my'
           ∧ members d' !! y = Some my' ∧ same_account my my'.
Proof.
  unfold get_active_by_rfid. intros E.
  eapply objects_get_related_One in E as (my' & ? & ? & ?); [by exists my'|done|].
  intros pk a a' (Hr & _ & _ & _ & _ & Ha). simpl. by rewrite Hr, Ha.
Qed.
End SameAccounts.

(** The members after a transfer are the same accounts. *)
Lemma same_accounts_after_transfer (ms : gmap positive Member.t) x y bx by_ now :
  rows_related same_account ms
    (alter (Member.set_last_transaction now) y
       (alter (Member.set_last_transaction now) x
          (alter (Member.set_balance by_) y
             (alter (Member.set_balance bx) x ms)))).
Proof.
  repeat (eapply rows_related_trans;
          [apply same_account_trans| |
           apply rows_related_alter; [apply same_account_refl|by intros []]]).
  apply rows_related_refl, same_account_refl.
Qed.

(** C5.  After a successful [verify_transfer_otp], a second call with the
    same code from the same sender, at any time and whatever the storage
    does, is answered 'Invalid or expired OTP code' (the view's answer for
    an already used code) and leaves the database, hence every balance and
    the ledger, exactly as the first call left it. *)
Theorem used_intent_is_rejected d fault request otp_code now entries d1 :
  run (verify_transfer_otp request otp_code now) d fault
    = (Success entries, d1) →
  ∀ fault' now',
    run (verify_transfer_otp request otp_code now') d1 fault'
    = (Failure OtpAlreadyUsed, d1).
Proof.
  intros [(e & [=] & _)|(x & mx & otp_id & otp & y & my & Hp & _ & _ & _ & _
                         & _ & _ & _ & _ & ->)]%verify_transfer_otp_run
    fault' now'.
  destruct Hp as (Hperm & Hreq & Hcode%truthy_true & Hotp).
  apply verify_transfer_otp_rejected. unfold verify_transfer_checks.
  match goal with |- context [has_permission ?dd _] => set (d1 := dd) end.
  assert (Hsame : rows_related same_account (members d) (members d1))
    by apply same_accounts_after_transfer.
  rewrite (has_permission_related _ _ Hsame _ Hperm). simpl.
  destruct (get_member_from_request_related _ _ Hsame _ _ _ Hreq)
    as (mx' & -> & _ & _).
  rewrite Hcode. simpl.
  assert (find_unused_otp d1 x (strip otp_code) = DoesNotExist) as ->; [|done].
  apply objects_get_DoesNotExist. intros k o. simpl.
  apply objects_get_One in Hotp as (Hrow & HP & Huniq).
  destruct (decide (k = otp_id)) as [->|Hk].
  - rewrite lookup_alter_eq, Hrow. intros [= <-]. simpl.
    by rewrite andb_false_r.
  - rewrite lookup_alter_ne by done. intros Ho.
    apply not_true_is_false. intros HPo. by apply Hk, (Huniq _ _ Ho).
Qed.

Lemma used_intent_is_rejected_witness :
  run (verify_transfer_otp Scenario.as_alice "123456" 1200)
      Scenario.transferred None
  = (Failure OtpAlreadyUsed, Scenario.transferred).
Proof.
  apply (used_intent_is_rejected Scenario.requested None Scenario.as_alice
           "123456" 1100 (Scenario.sent, Scenario.received)).
  vm_compute. reflexivity.
Defined.

Lemma create_otp_inr member recipient_rfid amount notes otp_code now s pk otp s' :
  create_otp member recipient_rfid amount notes otp_code now s
    = (inr (pk, otp), s') →
  let kept := delete_unused member (transfer_otps (db s)) in
  pk = fresh (dom kept)
  ∧ otp = FundTransferOTP.mk member recipient_rfid amount notes otp_code now
            (now + 600) false None
  ∧ db s' = with_transfer_otps (λ _, <[pk := otp]> kept) (db s).
Proof.
  unfold create_otp.
  intros (? & s1 & E1%write_inr & H)%bind_inr.
  apply bind_inr in H as (pk' & ? & [-> ->]%read_inr & H).
  apply bind_inr in H as (? & s2 & E2%write_inr & [[= -> ->] ->]%ret_inr).
  simpl. rewrite E2, E1. done.
Qed.

(** C6.  An intent is created unused, with expiry time = creation time +
    10 minutes.  When the request presents an unused intent whose expiry
    time is strictly before the time of the call, [verify_transfer_otp]
    answers 'OTP code has expired' although the code matches, and the
    database, hence both parties' balances and the ledger, is exactly as
    before. *)
Theorem expired_intent_is_rejected :
  (∀ member recipient_rfid amount notes code created s pk new s',
     create_otp member recipient_rfid amount notes code created s
       = (inr (pk, new), s') →
     FundTransferOTP.expires_at new = created + 600
     ∧ FundTransferOTP.created_at new = created
     ∧ FundTransferOTP.is_used new = false)
  ∧ (∀ d fault request otp_code now x mx otp_id otp,
       presents d request otp_code x mx otp_id otp →
       FundTransferOTP.expires_at otp < now →
       run (verify_transfer_otp request otp_code now) d fault
       = (Failure OtpExpired, d)).
Proof.
  split.
  - by intros * (_ & -> & _)%create_otp_inr.
  - intros * Hp Hlate. apply verify_transfer_otp_rejected.
    rewrite (verify_transfer_checks_presents _ _ _ _ _ _ _ _ Hp).
    unfold FundTransferOTP.is_valid.
    destruct (FundTransferOTP.is_used otp); [done|].
    by destruct (Z.ltb_spec (FundTransferOTP.expires_at otp) now); [|lia].
Qed.

Lemma expired_intent_is_rejected_witness :
  FundTransferOTP.expires_at Scenario.intent = 1000 + 600
  ∧ run (verify_transfer_otp Scenario.as_alice "123456" 1601)
        Scenario.requested None
    = (Failure OtpExpired, Scenario.requested).
Proof.
  destruct expired_intent_is_rejected as [Hcreate Hexpired]. split.
  - apply (Hcreate 1%positive "RFID-B" 20000 "lunch" "123456" 1000
             (mkStore Scenario.kiosk None) 1%positive Scenario.intent
             (mkStore Scenario.requested None)).
    vm_compute. reflexivity.
  - apply (Hexpired Scenario.requested None Scenario.as_alice
             "123456" 1601 1%positive Scenario.alice 1%positive
             Scenario.intent).
    + vm_compute. split_and!; done.
    + vm_compute. reflexivity.
Defined.

(** ** [request_transfer_otp] *)

Lemma create_otp_inl member recipient_rfid amount notes otp_code now s e s' :
  create_otp member recipient_rfid amount notes otp_code now s = (inl e, s') →
  db s' = db s
  ∨ db s' = with_transfer_otps (delete_unused member) (db s).
Proof.
  unfold create_otp, bind, write, read, ret.
  destruct s as [d [[|[|n]]|]]; simpl; intros [= <- <-]; auto.
Qed.

Lemma lookup_delete_unused member (otps : gmap positive FundTransferOTP.t) pk o :
  delete_unused member otps !! pk = Some o
  ↔ otps !! pk = Some o
    ∧ ¬ (FundTransferOTP.member o = member ∧ FundTransferOTP.is_used o = false).
Proof. unfold delete_unused. by rewrite map_lookup_filter_Some. Qed.

Lemma fresh_delete_unused member (otps : gmap positive FundTransferOTP.t) :
  delete_unused member otps !! fresh (dom (delete_unused member otps)) = None.
Proof. apply not_elem_of_dom, is_fresh. Qed.

(** The view touches the intents only: it leaves them as they were, or
    only removes the sender's unused ones (when creating the row raised),
    or replaces them by the new intent. *)
Lemma request_transfer_otp_run d fault request rfid amount notes code now r d' :
  run (request_transfer_otp request rfid amount notes code now) d fault
    = (r, d') →
  ∃ otps', d' = with_transfer_otps (λ _, otps') d
  ∧ ((∃ e, r = Failure e)
       ∧ (otps' = transfer_otps d
          ∨ ∃ x, otps' = delete_unused x (transfer_otps d))
     ∨ ∃ x mx,
         has_permission d request = true
         ∧ get_member_from_request d request = inr (x, mx)
         ∧ 0 < amount
         ∧ let kept := delete_unused x (transfer_otps d) in
           let pk := fresh (dom kept) in
           let otp := FundTransferOTP.mk x (strip rfid) amount (strip notes)
                        code now (now + 600) false None in
           r = Success (pk, otp) ∧ otps' = <[pk := otp]> kept).
Proof.
  assert (Hid : d = with_transfer_otps (λ _, transfer_otps d) d) by by destruct d.
  unfold run, request_transfer_otp, bind at 1, read. simpl.
  destruct (request_transfer_checks d request rfid amount notes)
    as [e|[[x rfid'] notes']] eqn:Hc; [intros [= <- <-]; eauto 10|].
  assert (∃ mx, has_permission d request = true
                ∧ get_member_from_request d request = inr (x, mx)
                ∧ 0 < amount ∧ rfid' = strip rfid ∧ notes' = strip notes)
    as (mx & Hperm & Hreq & Hpos & -> & ->).
  { revert Hc. unfold request_transfer_checks.
    destruct (has_permission d request); [simpl|done].
    destruct (get_member_from_request d request) as [e|[x' mx]]; [done|].
    destruct (Z.leb_spec amount 0); [done|].
    destruct (Member.balance mx <? amount); [done|].
    destruct (truthy (Member.email mx)); [simpl|done].
    destruct (get_active_by_rfid d (strip rfid)) as [|y my|]; try done.
    destruct (y =? x')%positive; [done|].
    intros [= -> <- <-]. by exists mx. }
  unfold try_except, bind.
  destruct (create_otp _ _ _ _ _ _ _) as [[e|[pk otp]] s1] eqn:E; simpl;
    intros [= <- <-].
  - apply create_otp_inl in E as [->| ->]; simpl.
    + exists (transfer_otps d). eauto 10.
    + exists (delete_unused x (transfer_otps d)). split; [done|]. left. eauto.
  - apply create_otp_inr in E as (-> & -> & ->). simpl.
    eexists. split; [done|]. right. exists x, mx. split_and!; done.
Qed.


Lemma at_most_one_unused_new d x otp :
  FundTransferOTP.member otp = x →
  let kept := delete_unused x (transfer_otps d) in
  let pk := fresh (dom kept) in
  (∀ k o, <[pk := otp]> kept !! k = Some o →
          FundTransferOTP.member o = x → FundTransferOTP.is_used o = false →
          k = pk)
  ∧ (at_most_one_unused d →
     at_most_one_unused (with_transfer_otps (λ _, <[pk := otp]> kept) d)).
Proof.
  intros Hx kept pk.
  assert (Hnew : ∀ k o, <[pk := otp]> kept !! k = Some o →
                        FundTransferOTP.member o = x →
                        FundTransferOTP.is_used o = false → k = pk).
  { intros k o Hk Hm Hu. destruct (decide (k = pk)) as [|Hne]; [done|].
    rewrite lookup_insert_ne in Hk by done.
    apply lookup_delete_unused in Hk as [_ []]. done. }
  split; [done|].
  intros Hd k1 k2 o1 o2 H1 H2 Hm Hu1 Hu2. simpl in *.
  destruct (decide (FundTransferOTP.member o1 = x)) as [Hx1|Hx1].
  - rewrite (Hnew _ _ H1) by done. rewrite (Hnew _ _ H2) by congruence. done.
  - assert (k1 ≠ pk).
    { intros ->. rewrite lookup_insert_eq in H1. congruence. }
    assert (k2 ≠ pk).
    { intros ->. rewrite lookup_insert_eq in H2. congruence. }
    rewrite lookup_insert_ne in H1, H2 by done.
    apply lookup_delete_unused in H1 as [? _], H2 as [? _]. by eapply Hd.
Qed.




(** ** [api_process_refund] *)

(** The stock loop touches the products only. *)
Lemma restore_stock_frame items s r s' :
  restore_stock items s = (r, s') →
  members (db s') = members (db s)
  ∧ balance_transactions (db s') = balance_transactions (db s)
  ∧ transfer_otps (db s') = transfer_otps (db s)
  ∧ transactions (db s') = transactions (db s)
  ∧ (fuse s = None → fuse s' = None).
Proof.
  revert s. induction items as [|item items IH]; intros s; simpl.
  - by intros [= <- <-].
  - unfold bind at 1.
    destruct (TransactionItem.product item) as [product_id|].
    + unfold bind at 1, refresh_from_db, bind at 1, read. simpl.
      destruct (products (db s) !! product_id) as [p|]; simpl;
        [|by intros [= <- <-]].
      unfold save, write.
      destruct s as [d [[|n]|]]; simpl; [by intros [= <- <-]|..];
        intros [? ?]%IH; simpl in *; intuition congruence.
    + simpl. apply IH.
Qed.

Lemma restore_stock_no_fault items d :
  products_exist items (products d) →
  restore_stock items (mkStore d None)
  = (inr tt, mkStore (with_products (restocked items) d) None).
Proof.
  revert d. induction items as [|item items IH]; intros d Hall.
  - by destruct d.
  - inversion_clear Hall as [|? ? Hitem Hitems].
    unfold restocked, with_products. simpl. unfold bind at 1.
    destruct (TransactionItem.product item) as [product_id|] eqn:Hprod.
    + destruct Hitem as [p Hp].
      unfold bind at 1, refresh_from_db, bind at 1, read. simpl.
      rewrite Hp. simpl. rewrite IH.
      * by rewrite alter_alt, Hp.
      * simpl. eapply Forall_impl; [exact Hitems|]. intros i Hi.
        simpl in Hi. destruct (TransactionItem.product i) as [q|]; [|done].
        rewrite lookup_insert_is_Some.
        destruct (decide (product_id = q)); auto.
    + simpl. by rewrite IH.
Qed.


(** Rejection of a transaction that is not completed, whatever the caller
    may do and whatever the storage does. *)
Lemma api_process_refund_not_completed PAYMENT_METHODS d fault request u
    transaction_id x reason now :
  request_user request = Some u →
  transactions d !! transaction_id = Some x →
  Transaction.status x ≠ "completed" →
  run (api_process_refund PAYMENT_METHODS request (Some transaction_id)
         reason now) d fault
  = (Failure NotRefundable, d).
Proof.
  intros Hu Hx Hstatus.
  unfold run, api_process_refund, try_except, bind, read, get_by_pk.
  rewrite Hu. simpl. rewrite Hx.
  by destruct (String.eqb_spec (Transaction.status x) "completed").
Qed.

(** A refund that succeeds has saved the transaction as cancelled. *)
Lemma api_process_refund_success PAYMENT_METHODS d fault request
    transaction_id reason now receipt d' :
  run (api_process_refund PAYMENT_METHODS request transaction_id reason now)
      d fault = (Success receipt, d') →
  ∃ pk x, transaction_id = Some pk
          ∧ transactions d !! pk = Some x
          ∧ Transaction.status x = "completed"
          ∧ transactions d' !! pk = Some (refunded x reason).
Proof.
  unfold run, api_process_refund.
  destruct (request_user request) as [u|]; [|done].
  unfold try_except.
  match goal with |- context [match ?b ?s with _ => _ end] =>
    destruct (b s) as [[e|r] s'] eqn:Hbody end; [done|].
  intros [= -> <-].
  destruct transaction_id as [pk|]; [|done].
  apply bind_inr in Hbody as (d0 & ? & [-> ->]%read_inr & Hbody). simpl in *.
  destruct (get_by_pk _ pk (transactions d)) as [|pk' x|] eqn:Hget; try done.
  apply get_by_pk_One in Hget as (-> & Hx & Hstatus%String.eqb_eq).
  apply bind_inr in Hbody as (member & s1 & Hmember & Hbody).
  destruct (if is_cashier_or_admin d u then None else _) as [e|]; [done|].
  apply bind_inr in Hbody as (receipt' & s2 & Hreceipt & Hbody).
  apply bind_inr in Hbody as (? & s3 & Hstock & Hbody).
  apply bind_inr in Hbody as (? & s4 & Hsave%write_inr & Hbody).
  apply bind_inr in Hbody as (? & s5 & Hrefresh & [_ ->]%ret_inr).
  assert (db s5 = db s4) as ->.
  { destruct member as [[member_id m]|].
    - apply bind_inr in Hrefresh
        as (? & ? & [_ ->]%refresh_from_db_inr & [_ ->]%ret_inr). done.
    - by apply ret_inr in Hrefresh as [_ ->]. }
  exists pk, x. split_and!; try done.
  rewrite Hsave. simpl. by rewrite lookup_insert_eq.
Qed.

(** C8.  For a transaction whose status is not 'completed', in particular
    'cancelled' or 'pending', [api_process_refund] answers 'Transaction not
    found or not eligible for refund' and the database is exactly as
    before: balances, ledger, the status and the stock counters.  A refund
    that succeeds leaves the transaction cancelled, so that every further
    refund of it is rejected in this way. *)
Theorem refund_requires_completed PAYMENT_METHODS :
  (∀ d fault request u transaction_id x reason now,
     request_user request = Some u →
     transactions d !! transaction_id = Some x →
     Transaction.status x ≠ "completed" →
     run (api_process_refund PAYMENT_METHODS request (Some transaction_id)
            reason now) d fault
     = (Failure NotRefundable, d))
  ∧ (∀ d fault request transaction_id reason now receipt d1,
       run (api_process_refund PAYMENT_METHODS request transaction_id
              reason now) d fault = (Success receipt, d1) →
       ∀ request' u' reason' now' fault',
         request_user request' = Some u' →
         run (api_process_refund PAYMENT_METHODS request' transaction_id
                reason' now') d1 fault'
         = (Failure NotRefundable, d1)).
Proof.
  split.
  - intros. by eapply api_process_refund_not_completed.
  - intros * (pk & x & -> & _ & _ & Hx)%api_process_refund_success * Hu.
    by eapply api_process_refund_not_completed.
Qed.

Lemma refund_requires_completed_witness :
  run (api_process_refund Scenario.payment_methods Scenario.as_cashier
         (Some 1%positive) "again" 2100) Scenario.carol_refunded None
  = (Failure NotRefundable, Scenario.carol_refunded)
  ∧ run (api_process_refund Scenario.payment_methods Scenario.as_admin
           (Some 1%positive) "" 2200) Scenario.carol_refunded (Some 0%nat)
    = (Failure NotRefundable, Scenario.carol_refunded).
Proof.
  destruct (refund_requires_completed Scenario.payment_methods)
    as [Hreject Honce].
  split.
  - apply (Hreject Scenario.carol_refunded None Scenario.as_cashier
             (mkUser 20 true false) 1%positive
             (refunded Scenario.sale "damaged")).
    + reflexivity.
    + vm_compute. reflexivity.
    + vm_compute. discriminate.
  - apply (Honce Scenario.kiosk None Scenario.as_cashier (Some 1%positive)
             "damaged" 2000 (Some (2000, 17000)) Scenario.carol_refunded)
      with (u' := mkUser 30 true true).
    + vm_compute. reflexivity.
    + reflexivity.
Defined.


(** What a refund on a storage that does not fail does to the members,
    the ledger and the intents, whatever it answers: nothing, or one credit
    together with its deposit entry. *)
Lemma api_process_refund_books PAYMENT_METHODS d request transaction_id
    reason now r d' :
  run (api_process_refund PAYMENT_METHODS request transaction_id reason now)
      d None = (r, d') →
  transfer_otps d' = transfer_otps d
  ∧ ((members d' = members d
      ∧ balance_transactions d' = balance_transactions d)
     ∨ ∃ member_id m a notes,
         members d !! member_id = Some m
         ∧ members d'
           = alter (Member.set_balance (Member.balance m + a)) member_id
                   (members d)
         ∧ balance_transactions d'
           = balance_transactions d
             ++ [BalanceTransaction.mk member_id deposit a (Member.balance m)
                   (Member.balance m + a) notes now]).
Proof.
  unfold run, api_process_refund, try_except.
  destruct (request_user request) as [u|]; [|intros [= <- <-]; auto].
  destruct transaction_id as [pk|]; [|intros [= <- <-]; auto].
  unfold bind, ret, read, refresh_from_db, add_balance,
    save_fields, save, BalanceTransaction_create, write, bind, ret, read.
  simpl.
  destruct (get_by_pk _ pk (transactions d)) as [|pk' x|];
    [intros [= <- <-]; auto| |intros [= <- <-]; auto].
  destruct (Transaction.member x) as [member_id|] eqn:Hmember.
  - simpl. destruct (members d !! member_id) as [m|] eqn:Hm; simpl;
      [|intros [= <- <-]; auto].
    destruct (if is_cashier_or_admin d u then None else _) as [e|]; simpl;
      [intros [= <- <-]; auto|].
    destruct (Z.ltb_spec (Member.balance m + Transaction.total_amount x) 0);
      simpl; [intros [= <- <-]; auto|].
    rewrite Hm. simpl.
    match goal with |- context [restore_stock ?items ?s] =>
      destruct (restore_stock items s) as [[e|?] [d3 f3]] eqn:Hstock end;
      apply restore_stock_frame in Hstock as (Hm3 & Hl3 & Ho3 & Ht3 & Hf3);
      simpl in *; try rewrite (Hf3 eq_refl).
    + intros [= <- <-]. split; [done|]. right.
      eexists member_id, m, _, _. by rewrite Hm3, Hl3.
    + simpl. rewrite Hm3, lookup_alter_eq, Hm. simpl.
      intros [= <- <-]. simpl. split; [done|]. right.
      eexists member_id, m, _, _. by rewrite Hm3, Hl3.
  - simpl.
    destruct (if is_cashier_or_admin d u then None else _) as [e|]; simpl;
      [intros [= <- <-]; auto|].
    match goal with |- context [restore_stock ?items ?s] =>
      destruct (restore_stock items s) as [[e|?] [d3 f3]] eqn:Hstock end;
      apply restore_stock_frame in Hstock as (Hm3 & Hl3 & Ho3 & Ht3 & Hf3);
      simpl in *; try rewrite (Hf3 eq_refl); simpl; intros [= <- <-]; auto.
Qed.

(** ** [api_refill_balance] *)

(** What a refill on a storage that does not fail does: nothing, or one
    credit together with its deposit entry. *)
Lemma api_refill_balance_run d request member_id amount notes now r d' :
  run (api_refill_balance request member_id amount notes now) d None
    = (r, d') →
  d' = d
  ∨ ∃ pk m a entry_notes,
      member_id = Some pk ∧ amount = AmountOf a ∧ 0 < a
      ∧ members d !! pk = Some m ∧ Member.is_active m = true
      ∧ r = Success (Member.balance m + a)
      ∧ d' = mkDB (alter (Member.set_balance (Member.balance m + a)) pk
                         (members d))
                  (balance_transactions d
                     ++ [BalanceTransaction.mk pk deposit a (Member.balance m)
                           (Member.balance m + a) entry_notes now])
                  (transfer_otps d) (transactions d) (products d).
Proof.
  unfold run, api_refill_balance.
  destruct (request_user request) as [u|]; [|intros [= <- <-]; auto].
  unfold bind at 1, read. simpl.
  destruct (negb _); [intros [= <- <-]; auto|].
  unfold try_except.
  destruct member_id as [pk|]; [|intros [= <- <-]; auto].
  destruct amount as [| |a]; try (intros [= <- <-]; auto).
  destruct (Z.leb_spec a 0); [intros [= <- <-]; auto|].
  destruct (get_by_pk _ pk (members d)) as [|pk' m|] eqn:Hget;
    try (intros [= <- <-]; auto).
  apply get_by_pk_One in Hget as (-> & Hm & Hactive).
  unfold bind at 1.
  match goal with |- context [(if ?c then ?a else ?b) ?s] =>
    assert (Hrole : (∃ e, (if c then a else b) s = (inl e, s))
                    ∨ ∃ role, (if c then a else b) s = (inr role, s)) end.
  { destruct (_ && _); [|right; by eexists].
    destruct (objects_get _ _) as [|? staff|];
      [right; by eexists|right; by eexists|left; by eexists]. }
  destruct Hrole as [[e ->]|[role ->]]; [intros [= <- <-]; auto|].
  unfold bind, ret, read, add_balance, save_fields, BalanceTransaction_create,
    write, bind, ret, read.
  simpl.
  destruct (Z.ltb_spec (Member.balance m + a) 0); [intros [= <- <-]; auto|].
  simpl. rewrite Hm. simpl. intros [= <- <-]. right.
  eexists pk, m, a, _. split_and!; done.
Qed.

(** ** [api_update_transaction] *)

Arguments is_admin_user : simpl never.
Arguments is_cashier_or_admin : simpl never.
Arguments is_staff_role : simpl never.
Arguments strip : simpl never.


(** The view touches the transactions only. *)
Lemma api_update_transaction_frame PAYMENT_METHODS d fault request data r d' :
  run (api_update_transaction PAYMENT_METHODS request data) d fault = (r, d') →
  ∃ f, d' = with_transactions f d.
Proof.
  assert (Hid : d = with_transactions id d) by by destruct d.
  unfold run, api_update_transaction.
  destruct (request_user request) as [u|]; [|intros [= <- <-]; eauto].
  unfold bind at 1, read. simpl.
  destruct (negb _); [intros [= <- <-]; eauto|].
  destruct (data_transaction_id data) as [pk|]; [|intros [= <- <-]; eauto].
  destruct (transactions d !! pk) as [x|]; [|intros [= <- <-]; eauto].
  unfold bind, save, write, ret.
  destruct fault as [[|n]|]; simpl; intros [= <- <-]; eauto.
Qed.



(** ** The ledger invariant *)

Lemma ledger_consistent_frame d d' :
  members d' = members d →
  balance_transactions d' = balance_transactions d →
  ledger_consistent d → ledger_consistent d'.
Proof. unfold ledger_consistent. by intros -> ->. Qed.

Lemma ledger_consistent_credit d d' pk m a before after notes now :
  members d !! pk = Some m →
  members d' = alter (Member.set_balance (Member.balance m + a)) pk (members d) →
  balance_transactions d'
  = balance_transactions d
    ++ [BalanceTransaction.mk pk deposit a before after notes now] →
  ledger_consistent d → ledger_consistent d'.
Proof.
  unfold ledger_consistent. intros Hm -> -> Hd k mk.
  rewrite !entries_total_app. simpl.
  destruct (decide (k = pk)) as [->|Hne].
  - rewrite lookup_alter_eq, Hm. intros [= <-]. simpl.
    rewrite Pos.eqb_refl. simpl. specialize (Hd _ _ Hm). simpl in Hd. lia.
  - rewrite lookup_alter_ne by done. intros Hk.
    destruct (Pos.eqb_spec pk k); [congruence|]. simpl.
    specialize (Hd _ _ Hk). simpl in Hd. lia.
Qed.

Lemma ledger_consistent_transfer d fault request otp_code now r d' :
  run (verify_transfer_otp request otp_code now) d fault = (r, d') →
  ledger_consistent d → ledger_consistent d'.
Proof.
  intros [(e & _ & ->)|(x & mx & otp_id & otp & y & my & _ & _ & _ & _ & Hne
                        & Hmx & Hmy & _ & _ & ->)]%verify_transfer_otp_run Hd;
    [done|].
  intros k mk. simpl. rewrite !entries_total_app. simpl.
  pose proof (Hd _ _ Hmx) as Hx. pose proof (Hd _ _ Hmy) as Hy.
  simpl in Hx, Hy.
  destruct (decide (k = y)) as [->|Hky];
    [|destruct (decide (k = x)) as [->|Hkx]].
  - rewrite lookup_alter_eq, lookup_alter_ne, lookup_alter_eq,
      lookup_alter_ne, Hmy by done.
    intros [= <-]. simpl. rewrite Pos.eqb_refl.
    destruct (Pos.eqb_spec x y); [congruence|]. simpl. lia.
  - rewrite lookup_alter_ne, lookup_alter_eq, lookup_alter_ne,
      lookup_alter_eq, Hmx by done.
    intros [= <-]. simpl. rewrite Pos.eqb_refl.
    destruct (Pos.eqb_spec y x); [congruence|]. simpl. lia.
  - rewrite !lookup_alter_ne by done. intros Hk.
    destruct (Pos.eqb_spec x k); [congruence|].
    destruct (Pos.eqb_spec y k); [congruence|]. simpl.
    specialize (Hd _ _ Hk). simpl in Hd. lia.
Qed.

Lemma ledger_consistent_perform PAYMENT_METHODS d op :
  uninterrupted op →
  ledger_consistent d → ledger_consistent (perform PAYMENT_METHODS d op).
Proof.
  intros Hop Hd. destruct op; simpl in *; subst.
  - destruct (run _ d fault) as [r d'] eqn:E.
    apply request_transfer_otp_run in E as (otps' & -> & _). done.
  - destruct (run _ d fault) as [r d'] eqn:E.
    by eapply ledger_consistent_transfer.
  - destruct (run _ d None) as [r d'] eqn:E.
    apply api_refill_balance_run in E
      as [->|(pk & m & a & n & _ & _ & _ & Hm & _ & _ & ->)]; [done|].
    by eapply ledger_consistent_credit.
  - destruct (run _ d None) as [r d'] eqn:E.
    apply api_process_refund_books in E
      as [_ [[Hm Hl]|(pk & m & a & n & Hm & Hms & Hl)]].
    + by eapply ledger_consistent_frame.
    + by eapply ledger_consistent_credit.
  - destruct (run _ d fault) as [r d'] eqn:E.
    apply api_update_transaction_frame in E as (f & ->). done.
Qed.

(** Starting from a database in which every balance equals the sum of the
    member's deposit entries minus the sum of the member's deduction
    entries, this still holds for every member after any sequence of
    refills, transfer requests, transfers, refunds and transaction updates
    in which no refill and no refund is interrupted by the storage;
    transfers, their requests and the updates may meet any failure. *)
Lemma ledger_stays_consistent PAYMENT_METHODS d ops :
  Forall uninterrupted ops →
  ledger_consistent d →
  ledger_consistent (perform_all PAYMENT_METHODS d ops).
Proof.
  unfold perform_all. revert d.
  induction ops as [|op ops IH]; intros d Hops Hd; simpl; [done|].
  inversion_clear Hops. by apply IH, ledger_consistent_perform.
Qed.

Lemma ledger_consistent_kiosk : ledger_consistent Scenario.kiosk.
Proof.
  unfold ledger_consistent. apply (bool_decide_unpack _). vm_compute. exact I.
Qed.

Lemma ledger_consistent_day :
  ledger_consistent (perform_all Scenario.payment_methods Scenario.kiosk
                       Scenario.day).
Proof.
  apply ledger_stays_consistent; [|apply ledger_consistent_kiosk].
  repeat constructor.
Qed.

(** C4.  The balance does not stay equal to the sum of the deposit
    entries minus the sum of the deduction entries after every sequence of
    refills, transfers and refunds: [api_refill_balance] and
    [api_process_refund] store the credit and append the entry in two
    writes with no atomic block around them.  On the kiosk, where the
    equation holds, the refill of 10.00 for Bob whose entry cannot be
    appended leaves him 60.00 against entries that sum to 50.00, and the
    refund of Carol's sale whose entry cannot be appended leaves her 170.00
    against entries that sum to 20.00.  [verify_transfer_otp], which has
    the atomic block, keeps the equation whatever fails. *)
Theorem interrupted_credit_breaks_the_ledger :
  ledger_consistent Scenario.kiosk
  ∧ perform_all Scenario.payment_methods Scenario.kiosk
                Scenario.interrupted_refill
    = Scenario.half_refilled
  ∧ run (api_refill_balance Scenario.as_admin (Some 2%positive)
           (AmountOf 1000) "" 3000) Scenario.kiosk (Some 1%nat)
    = (Failure (ServerError DatabaseError), Scenario.half_refilled)
  ∧ Member.balance <$> members Scenario.half_refilled !! 2%positive
    = Some 6000
  ∧ entries_total deposit 2 (balance_transactions Scenario.half_refilled)
    - entries_total deduction 2 (balance_transactions Scenario.half_refilled)
    = 5000
  ∧ ¬ ledger_consistent
        (perform_all Scenario.payment_methods Scenario.kiosk
                     Scenario.interrupted_refill)
  ∧ Member.balance
      <$> members (perform_all Scenario.payment_methods Scenario.kiosk
                               Scenario.interrupted_refund) !! 3%positive
    = Some 17000
  ∧ balance_transactions
      (perform_all Scenario.payment_methods Scenario.kiosk
                   Scenario.interrupted_refund)
    = balance_transactions Scenario.kiosk
  ∧ ¬ ledger_consistent
        (perform_all Scenario.payment_methods Scenario.kiosk
                     Scenario.interrupted_refund)
  ∧ ∀ d fault request otp_code now,
      ledger_consistent d →
      ledger_consistent
        (perform_all Scenario.payment_methods d
                     [VerifyTransfer request otp_code now fault]).
Proof.
  split_and!.
  - apply ledger_consistent_kiosk.
  - vm_compute. reflexivity.
  - vm_compute. reflexivity.
  - vm_compute. reflexivity.
  - vm_compute. reflexivity.
  - intros H. specialize (H 2%positive _ eq_refl). vm_compute in H.
    discriminate.
  - vm_compute. reflexivity.
  - vm_compute. reflexivity.
  - intros H. specialize (H 3%positive _ eq_refl). vm_compute in H.
    discriminate.
  - intros d fault request otp_code now Hd. simpl.
    destruct (run _ d fault) as [r d'] eqn:E.
    by eapply ledger_consistent_transfer.
Qed.

(** C3.  [api_process_refund] and [api_refill_balance] are not
    all-or-nothing.  In the refund of Carol's sale the write of the product
    row raises: the view answers 'Server error', yet Carol's balance is
    credited 150.00 and the deposit entry is in the ledger, while the sale
    is still 'completed' and the stock is not restored; the same refund,
    asked again, credits her a second time.  In the refill the append of
    the ledger entry raises: the balance is credited without an entry. *)
Theorem refund_failure_leaves_partial_state :
  run (api_process_refund Scenario.payment_methods Scenario.as_cashier
         (Some 1%positive) "damaged" 2000) Scenario.kiosk (Some 2%nat)
  = (Failure (ServerError DatabaseError), Scenario.half_refunded)
  ∧ Member.balance <$> members Scenario.kiosk !! 3%positive = Some 2000
  ∧ Member.balance <$> members Scenario.half_refunded !! 3%positive
    = Some 17000
  ∧ balance_transactions Scenario.half_refunded
    = balance_transactions Scenario.kiosk
      ++ [refund_entry Scenario.payment_methods 3 Scenario.carol
            Scenario.sale "damaged" 2000]
  ∧ Transaction.status <$> transactions Scenario.half_refunded !! 1%positive
    = Some "completed"
  ∧ products Scenario.half_refunded = products Scenario.kiosk
  ∧ (run (api_process_refund Scenario.payment_methods Scenario.as_cashier
            (Some 1%positive) "damaged" 2100) Scenario.half_refunded None).1
    = Success (Some (17000, 32000))
  ∧ run (api_refill_balance Scenario.as_admin (Some 2%positive)
           (AmountOf 1000) "" 3000) Scenario.kiosk (Some 1%nat)
    = (Failure (ServerError DatabaseError), Scenario.half_refilled)
  ∧ Member.balance <$> members Scenario.half_refilled !! 2%positive
    = Some 6000
  ∧ balance_transactions Scenario.half_refilled
    = balance_transactions Scenario.kiosk
  ∧ ¬ ledger_consistent Scenario.half_refilled.
Proof.
  split_and!; try (vm_compute; reflexivity).
  intros H. specialize (H 2%positive _ eq_refl). vm_compute in H. discriminate.
Qed.

(** The sibling path: whatever the storage does, a failed
    [verify_transfer_otp] leaves the database as it was. *)
Lemma verify_transfer_otp_all_or_nothing d fault request otp_code now e d' :
  run (verify_transfer_otp request otp_code now) d fault = (Failure e, d') →
  d' = d.
Proof.
  by intros [(? & _ & ->)|(? & ? & ? & ? & ? & ? & _ & _ & _ & _ & _ & _ & _
                           & _ & [=] & _)]%verify_transfer_otp_run.
Qed.

(** ** Two workers *)

(** A worker left alone runs the view. *)
Lemma worker_runs_the_view d request otp_code now fault :
  (let '(d1, w1) := work d (Waiting request otp_code now fault) in work d1 w1)
  = (let '(r, d') := run (verify_transfer_otp request otp_code now) d fault in
     (d', Answered r)).
Proof.
  unfold work, run, verify_transfer_otp, bind, read. simpl.
  by destruct (verify_transfer_checks d request otp_code now) as [e|plan].
Qed.

(** An issuing worker left alone runs the view. *)
Lemma issuer_runs_the_view d request rfid amount notes otp_code now :
  (let '(d1, w1) := issue d (Asking request rfid amount notes otp_code now) in
   issue d1 w1)
  = (let '(r, d') :=
       run (request_transfer_otp request rfid amount notes otp_code now)
           d None in
     (d', Issued r)).
Proof.
  unfold issue, run, request_transfer_otp, bind at 1, read. simpl.
  destruct (request_transfer_checks d request rfid amount notes)
    as [e|[[x rfid'] notes']]; [done|].
  by destruct d.
Qed.

(** The atomic block on a storage that does not fail, when the rows it
    writes exist. *)
Lemma perform_transfer_no_fault d x mx otp_id otp y my now mx0 :
  members d !! x = Some mx0 → is_Some (members d !! y) →
  is_Some (transfer_otps d !! otp_id) →
  let A := FundTransferOTP.amount otp in
  let e1 := BalanceTransaction.mk x deduction A (Member.balance mx)
              (Member.balance mx - A) (transfer_notes "to" my otp) now in
  let e2 := BalanceTransaction.mk y deposit A (Member.balance my)
              (Member.balance my + A) (transfer_notes "from" mx0 otp) now in
  run (perform_transfer (mkPlan (x, mx) (otp_id, otp) (y, my)) now) d None
  = (Success (e1, e2),
     mkDB (alter (Member.set_last_transaction now) y
             (alter (Member.set_last_transaction now) x
                (alter (Member.set_balance (Member.balance my + A)) y
                   (alter (Member.set_balance (Member.balance mx - A)) x
                      (members d)))))
          ((balance_transactions d ++ [e1]) ++ [e2])
          (alter (FundTransferOTP.used_at now) otp_id (transfer_otps d))
          (transactions d) (products d)).
Proof.
  intros Hx [my0 Hy] [otp0 Hotp] A e1 e2. subst A e1 e2.
  unfold run, perform_transfer, try_except, atomic, mark_as_used, bind,
    save_fields, refresh_from_db, BalanceTransaction_create, bind, write,
    read, ret.
  simpl. rewrite Hotp. simpl. rewrite Hx. simpl.
  rewrite lookup_alter_eq, Hx. simpl.
  assert (Hy1 : is_Some (alter (Member.set_balance
                                  (Member.balance mx - FundTransferOTP.amount otp))
                               x (members d) !! y)).
  { rewrite lookup_alter. case_decide; [subst; by rewrite Hx|by rewrite Hy]. }
  destruct Hy1 as [my1 Hy1]. rewrite Hy1. simpl.
  rewrite lookup_alter_eq, Hy1. simpl.
  assert (Hx2 : is_Some (alter (Member.set_balance
                                  (Member.balance my + FundTransferOTP.amount otp))
                               y
                               (alter (Member.set_balance
                                         (Member.balance mx
                                          - FundTransferOTP.amount otp))
                                      x (members d)) !! x)).
  { rewrite !lookup_alter. repeat case_decide; by rewrite ?Hx, ?Hy. }
  destruct Hx2 as [mx2 Hx2]. rewrite Hx2. simpl.
  match goal with |- context [match ?t !! y with _ => _ end] =>
    assert (Hy3 : is_Some (t !! y)) end.
  { rewrite !lookup_alter. repeat case_decide; by rewrite ?Hx, ?Hy. }
  destruct Hy3 as [my3 Hy3]. rewrite Hy3. simpl. done.
Qed.

Lemma find_unused_otp_after_other d f x otp_code now otp_id otp other :
  find_unused_otp d x otp_code = One otp_id otp → other ≠ otp_id →
  find_unused_otp
    (with_transfer_otps (λ _, alter (FundTransferOTP.used_at now) other
                                (transfer_otps d)) (with_members f d))
    x otp_code
  = One otp_id otp.
Proof.
  unfold find_unused_otp. simpl.
  intros (Hrow & HP & Huniq)%objects_get_One Hne. apply objects_get_One.
  split_and!; [by rewrite lookup_alter_ne|done|].
  intros k o. rewrite lookup_alter. case_decide as Hk.
  - subst k. destruct (transfer_otps d !! other) as [o'|]; [|done].
    intros [= <-]. simpl. by rewrite andb_false_r.
  - apply Huniq.
Qed.

Lemma work_preserves_cover d w d' w' :
  work d w = (d', w') →
  amounts_nonnegative d → balances_nonnegative d → worker_covered w →
  amounts_nonnegative d' ∧ balances_nonnegative d' ∧ worker_covered w'.
Proof.
  unfold amounts_nonnegative, balances_nonnegative, map_Forall.
  destruct w as [request otp_code now fault|plan now fault|r]; simpl.
  - destruct (verify_transfer_checks d request otp_code now) as [e|plan] eqn:E;
      intros [= <- <-] Ha Hb _; [done|].
    apply verify_transfer_checks_inr in E
      as (x & mx & otp_id & otp & y & my & -> & (_ & Hreq & _ & Hotp) & _ & Hle
          & Hy & _).
    apply get_member_from_request_inr in Hreq as [Hmx _].
    apply objects_get_One in Hotp as (Hrow & _).
    apply objects_get_One in Hy as (Hmy & _).
    split_and!; try done. unfold plan_covered. simpl.
    split_and!; [by apply (Ha _ _ Hrow)|done|by apply (Hb _ _ Hmy)].
  - destruct plan as [[x mx] [otp_id otp] [y my]].
    unfold run. destruct (perform_transfer _ now _) as [r s'] eqn:E.
    apply perform_transfer_inv in E
      as [[-> ->]|(mx0 & Hx & _ & _ & -> & ->)];
      intros [= <- <-] Ha Hb (H0 & Hle & Hy0); simpl in *; [done|].
    split_and!; try done.
    + intros k o. simpl. rewrite lookup_alter. case_decide; [|apply Ha].
      destruct (transfer_otps d !! otp_id) as [o'|] eqn:Ho; [|done].
      intros [= <-]. simpl. by apply (Ha _ _ Ho).
    + intros k m. simpl. rewrite !lookup_alter.
      repeat case_decide; subst; try congruence; intros Hk;
        repeat (apply fmap_Some in Hk as (? & Hk & ->)); simpl;
        specialize (Hb _ _ Hk); lia.
  - by intros [= <- <-].
Qed.

(** C9, as stated, fails: the view takes no lock and checks the balance it
    read before its atomic block.  Alice holds 500.00 and, from two
    requests served at once, two valid intents, 300.00 for Bob and 400.00
    for Carol.  When both workers read before
    either writes, both pass the balance check on 500.00 and both calls
    succeed; the second write of Alice's balance, 500.00 - 400.00, replaces
    the first, and 300.00 have been created. *)
Lemma concurrent_transfers_both_succeed :
  find_unused_otp Scenario.two_intents 1 "111111"
  = One 1%positive (FundTransferOTP.mk 1 "RFID-B" 30000 "" "111111" 1000 1600
                                        false None)
  ∧ find_unused_otp Scenario.two_intents 1 "222222"
    = One 2%positive (FundTransferOTP.mk 1 "RFID-C" 40000 "" "222222" 1000
                                          1600 false None)
  ∧ Member.balance <$> members Scenario.two_intents !! 1%positive = Some 50000
  ∧ ∃ d' first second,
      interleave work [false; true; false; true] Scenario.two_intents
                 Scenario.first_call Scenario.second_call
      = (d', Answered (Success first), Answered (Success second))
      ∧ BalanceTransaction.amount first.1 = 30000
      ∧ BalanceTransaction.amount second.1 = 40000
      ∧ Member.balance <$> members d' !! 1%positive = Some 10000
      ∧ total_balance d' = total_balance Scenario.two_intents + 30000.
Proof.
  split_and!; try (vm_compute; reflexivity).
  eexists _, _, _. split_and!; [vm_compute; reflexivity|..];
    vm_compute; reflexivity.
Qed.

(** C9, amended.  Two calls of [verify_transfer_otp] present two different
    valid intents of the same sender; each amount alone is covered by the
    sender's balance, their sum is not.  When the first call has answered
    before the second starts, the first succeeds and the second answers
    'Insufficient balance' (either call may be the first).  Under every
    schedule of the steps of two workers, no balance becomes negative. *)
Theorem transfers_in_turn_cannot_overdraw :
  (∀ d request1 otp_code1 now1 request2 otp_code2 now2
     x mx otp_id1 otp1 otp_id2 otp2 y1 my1,
     presents d request1 otp_code1 x mx otp_id1 otp1 →
     presents d request2 otp_code2 x mx otp_id2 otp2 →
     otp_id1 ≠ otp_id2 →
     FundTransferOTP.is_valid otp1 now1 = true →
     FundTransferOTP.is_valid otp2 now2 = true →
     FundTransferOTP.amount otp1 ≤ Member.balance mx →
     FundTransferOTP.amount otp2 ≤ Member.balance mx →
     Member.balance mx
       < FundTransferOTP.amount otp1 + FundTransferOTP.amount otp2 →
     get_active_by_rfid d (FundTransferOTP.recipient_rfid otp1) = One y1 my1 →
     y1 ≠ x →
     ∃ d' entries,
       interleave work [false; false; true; true] d
                  (Waiting request1 otp_code1 now1 None)
                  (Waiting request2 otp_code2 now2 None)
       = (d', Answered (Success entries),
          Answered (Failure InsufficientBalance))
       ∧ Member.balance <$> members d' !! x
         = Some (Member.balance mx - FundTransferOTP.amount otp1))
  ∧ (∀ schedule d w1 w2 d' w1' w2',
       interleave work schedule d w1 w2 = (d', w1', w2') →
       amounts_nonnegative d → balances_nonnegative d →
       worker_covered w1 → worker_covered w2 →
       balances_nonnegative d').
Proof.
  split.
  - intros * Hp1 Hp2 Hne Hv1 Hv2 Hle1 Hle2 Hsum Hy1 Hy1x.
    pose proof Hp1 as (_ & [Hmx _]%get_member_from_request_inr & _
                       & (Hrow1 & _)%objects_get_One).
    pose proof Hy1 as (Hmy1 & _)%objects_get_One.
    simpl.
    rewrite (verify_transfer_checks_presents _ _ _ _ _ _ _ _ Hp1), Hv1, Hy1.
    simpl.
    destruct (Z.ltb_spec (Member.balance mx) (FundTransferOTP.amount otp1));
      [lia|].
    destruct (Pos.eqb_spec y1 x); [done|]. simpl.
    rewrite (perform_transfer_no_fault _ _ _ _ _ _ _ _ mx) by done.
    match goal with |- context [verify_transfer_checks ?dd _ _ _] =>
      set (d1 := dd) end.
    assert (Hsame : rows_related same_account (members d) (members d1))
      by apply same_accounts_after_transfer.
    destruct Hp2 as (Hperm2 & Hreq2 & Hcode2 & Hotp2).
    destruct (get_member_from_request_related _ _ Hsame _ _ _ Hreq2)
      as (mx' & Hreq2' & Hmx' & _).
    assert (Hp2' : presents d1 request2 otp_code2 x mx' otp_id2 otp2).
    { split_and!; try done.
      - by apply (has_permission_related _ _ Hsame).
      - by apply (find_unused_otp_after_other d (λ _, members d1)). }
    assert (Hbal : Member.balance mx'
                   = Member.balance mx - FundTransferOTP.amount otp1).
    { revert Hmx'. unfold d1. simpl.
      rewrite lookup_alter_ne, lookup_alter_eq, lookup_alter_ne,
        lookup_alter_eq, Hmx by done.
      by intros [= <-]. }
    assert (Hlt : (Member.balance mx' <? FundTransferOTP.amount otp2) = true)
      by (apply Z.ltb_lt; lia).
    rewrite (verify_transfer_checks_presents _ _ _ _ _ _ _ _ Hp2'), Hv2, Hlt.
    simpl.
    eexists _, _. split; [reflexivity|]. rewrite Hmx'. simpl. by rewrite Hbal.
  - induction schedule as [|[] schedule IH]; intros * Hrun Ha Hb H1 H2.
    + by injection Hrun as <- _ _.
    + simpl in Hrun. destruct (work d w2) as [d0 w0] eqn:E.
      apply work_preserves_cover in E as (? & ? & ?); try done.
      by eapply IH.
    + simpl in Hrun. destruct (work d w1) as [d0 w0] eqn:E.
      apply work_preserves_cover in E as (? & ? & ?); try done.
      by eapply IH.
Qed.

Lemma transfers_in_turn_cannot_overdraw_witness :
  (∃ d' entries,
     interleave work [false; false; true; true] Scenario.two_intents
                Scenario.first_call Scenario.second_call
     = (d', Answered (Success entries), Answered (Failure InsufficientBalance))
     ∧ Member.balance <$> members d' !! 1%positive = Some (50000 - 30000))
  ∧ balances_nonnegative
      (interleave work [false; true; false; true] Scenario.two_intents
                  Scenario.first_call Scenario.second_call).1.1.
Proof.
  destruct transfers_in_turn_cannot_overdraw as [Hturn Hany]. split.
  - apply (Hturn Scenario.two_intents Scenario.as_alice "111111" 1100
             Scenario.as_alice "222222" 1100 1%positive Scenario.alice
             1%positive
             (FundTransferOTP.mk 1 "RFID-B" 30000 "" "111111" 1000 1600
                                 false None)
             2%positive
             (FundTransferOTP.mk 1 "RFID-C" 40000 "" "222222" 1000 1600
                                 false None)
             2%positive Scenario.bob).
    + vm_compute. split_and!; done.
    + vm_compute. split_and!; done.
    + discriminate.
    + vm_compute. reflexivity.
    + vm_compute. reflexivity.
    + vm_compute. discriminate.
    + vm_compute. discriminate.
    + vm_compute. reflexivity.
    + vm_compute. reflexivity.
    + discriminate.
  - destruct (interleave work [false; true; false; true] Scenario.two_intents
                Scenario.first_call Scenario.second_call)
      as [[d' w1'] w2'] eqn:E.
    apply (Hany [false; true; false; true] Scenario.two_intents
             Scenario.first_call Scenario.second_call d' w1' w2' E).
    + unfold amounts_nonnegative. apply (bool_decide_unpack _).
      vm_compute. exact I.
    + unfold balances_nonnegative. apply (bool_decide_unpack _).
      vm_compute. exact I.
    + exact I.
    + exact I.
Defined.

(** * Further properties of the views *)

(** ** The transfer views *)

(** X1.  The atomic block of [verify_transfer_otp] is all-or-nothing,
    whatever the worker holds in memory and whatever the storage does: when
    it does not succeed, the answer is 'An error occurred during the
    transfer' and the database is as it was on entry. *)
Theorem failed_transfer_is_rolled_back plan now d fault e d' :
  run (perform_transfer plan now) d fault = (Failure e, d') →
  e = TransferFailed ∧ d' = d.
Proof.
  destruct plan as [[x mx] [otp_id otp] [y my]].
  unfold run. destruct (perform_transfer _ _ _) as [[ex|r] s'] eqn:E.
  - by apply perform_transfer_inv in E as [[? _]|(? & _ & _ & _ & ? & _)].
  - apply perform_transfer_inv in E
      as [[[= ->] Hd]|(mx0 & _ & _ & _ & [= ->] & _)]; [|done].
    by intros [= <- <-].
Qed.

Lemma failed_transfer_is_rolled_back_witness :
  run (perform_transfer Shop.plan 1100) Scenario.requested (Some 3%nat)
  = (Failure TransferFailed, Scenario.requested)
  ∧ TransferFailed = TransferFailed ∧ Scenario.requested = Scenario.requested.
Proof.
  split; [vm_compute; reflexivity|].
  apply (failed_transfer_is_rolled_back Shop.plan 1100 Scenario.requested
           (Some 3%nat)).
  vm_compute. reflexivity.
Defined.

Lemma request_transfer_checks_inr d request rfid amount notes x r n :
  request_transfer_checks d request rfid amount notes = inr (x, r, n)
  ↔ ∃ mx y my,
      has_permission d request = true
      ∧ get_member_from_request d request = inr (x, mx)
      ∧ r = strip rfid ∧ n = strip notes
      ∧ 0 < amount ∧ amount ≤ Member.balance mx
      ∧ Member.email mx ≠ ""
      ∧ get_active_by_rfid d (strip rfid) = One y my
      ∧ y ≠ x.
Proof.
  unfold request_transfer_checks. split.
  - destruct (has_permission d request); [simpl|done].
    destruct (get_member_from_request d request) as [e|[x' mx]]; [done|].
    destruct (Z.leb_spec amount 0); [done|].
    destruct (Z.ltb_spec (Member.balance mx) amount); [done|].
    destruct (truthy (Member.email mx)) eqn:Hmail; [simpl|done].
    apply truthy_true in Hmail.
    destruct (get_active_by_rfid d (strip rfid)) as [|y my|]; try done.
    destruct (Pos.eqb_spec y x'); [done|].
    intros [= -> <- <-]. by exists mx, y, my.
  - intros (mx & y & my & -> & -> & -> & -> & Hpos & Hle & Hmail & -> & Hne).
    simpl.
    destruct (Z.leb_spec amount 0); [lia|].
    destruct (Z.ltb_spec (Member.balance mx) amount); [lia|].
    apply truthy_true in Hmail as ->. simpl.
    by destruct (Pos.eqb_spec y x).
Qed.

Lemma request_transfer_otp_Success d fault request rfid amount notes code now
    pk otp d' :
  run (request_transfer_otp request rfid amount notes code now) d fault
    = (Success (pk, otp), d') →
  ∃ x,
    request_transfer_checks d request rfid amount notes
    = inr (x, strip rfid, strip notes)
    ∧ let kept := delete_unused x (transfer_otps d) in
      pk = fresh (dom kept)
      ∧ otp = FundTransferOTP.mk x (strip rfid) amount (strip notes) code now
                (now + 600) false None
      ∧ d' = with_transfer_otps (λ _, <[pk := otp]> kept) d.
Proof.
  unfold run, request_transfer_otp, bind at 1, read. simpl.
  destruct (request_transfer_checks d request rfid amount notes)
    as [e|[[x rfid'] notes']] eqn:Hc; [done|].
  pose proof Hc as (mx & y & my & _ & _ & -> & -> & _)%request_transfer_checks_inr.
  unfold try_except, bind.
  destruct (create_otp _ _ _ _ _ _ _) as [[e|[pk' otp']] s1] eqn:E; simpl;
    intros [= <- <- <-].
  apply create_otp_inr in E as (-> & -> & ->). simpl. by exists x.
Qed.

Lemma request_transfer_otp_no_fault d request rfid amount notes code now x r n :
  request_transfer_checks d request rfid amount notes = inr (x, r, n) →
  let kept := delete_unused x (transfer_otps d) in
  let pk := fresh (dom kept) in
  let otp := FundTransferOTP.mk x r amount n code now (now + 600) false None in
  run (request_transfer_otp request rfid amount notes code now) d None
  = (Success (pk, otp), with_transfer_otps (λ _, <[pk := otp]> kept) d).
Proof.
  intros Hc. unfold run, request_transfer_otp, bind at 1, read. simpl.
  rewrite Hc. reflexivity.
Qed.

Lemma verify_transfer_otp_no_fault d request otp_code now x mx otp_id otp y my :
  verify_transfer_checks d request otp_code now
  = inr (mkPlan (x, mx) (otp_id, otp) (y, my)) →
  let A := FundTransferOTP.amount otp in
  let e1 := BalanceTransaction.mk x deduction A (Member.balance mx)
              (Member.balance mx - A) (transfer_notes "to" my otp) now in
  let e2 := BalanceTransaction.mk y deposit A (Member.balance my)
              (Member.balance my + A) (transfer_notes "from" mx otp) now in
  run (verify_transfer_otp request otp_code now) d None
  = (Success (e1, e2),
     mkDB (alter (Member.set_last_transaction now) y
             (alter (Member.set_last_transaction now) x
                (alter (Member.set_balance (Member.balance my + A)) y
                   (alter (Member.set_balance (Member.balance mx - A)) x
                      (members d)))))
          ((balance_transactions d ++ [e1]) ++ [e2])
          (alter (FundTransferOTP.used_at now) otp_id (transfer_otps d))
          (transactions d) (products d)).
Proof.
  intros Hc. pose proof Hc as (? & ? & ? & ? & ? & ? & [= <- <- <- <- <- <-]
    & (_ & Hreq & _ & Hotp) & _ & _ & Hy & _)%verify_transfer_checks_inr.
  apply get_member_from_request_inr in Hreq as [Hmx _].
  apply objects_get_One in Hy as (Hmy & _).
  apply objects_get_One in Hotp as (Hrow & _).
  intros A e1 e2.
  transitivity (run (perform_transfer (mkPlan (x, mx) (otp_id, otp) (y, my))
                       now) d None).
  - unfold run, verify_transfer_otp, bind at 1, read. simpl. by rewrite Hc.
  - apply perform_transfer_no_fault; rewrite ?Hmy, ?Hrow; done.
Qed.

(** X2.  Request, then confirm.  When [request_transfer_otp] has answered
    with success, [verify_transfer_otp] with the issued code, by the same
    caller on a storage that does not fail, at any time up to and
    including the 600th second after the request, succeeds: it moves
    exactly the requested amount from the caller to the member that the
    card number named at the time of the request, appends the two entries
    and leaves the intent used. *)
Theorem issued_code_transfers d fault request rfid amount notes code now now'
    pk otp d1 :
  run (request_transfer_otp request rfid amount notes code now) d fault
    = (Success (pk, otp), d1) →
  strip code = code → code ≠ "" →
  now' ≤ now + 600 →
  ∃ x mx y my e1 e2 d2,
    get_member_from_request d request = inr (x, mx)
    ∧ get_active_by_rfid d (strip rfid) = One y my
    ∧ run (verify_transfer_otp request code now') d1 None
      = (Success (e1, e2), d2)
    ∧ Member.balance <$> members d2 !! x = Some (Member.balance mx - amount)
    ∧ Member.balance <$> members d2 !! y = Some (Member.balance my + amount)
    ∧ balance_transactions d2 = balance_transactions d ++ [e1; e2]
    ∧ BalanceTransaction.amount e1 = amount
    ∧ BalanceTransaction.amount e2 = amount
    ∧ FundTransferOTP.is_used <$> transfer_otps d2 !! pk = Some true.
Proof.
  intros (x & Hc & Hpk & Hotp & ->)%request_transfer_otp_Success
    Hstrip Hcode Hnow.
  apply request_transfer_checks_inr in Hc
    as (mx & y & my & Hperm & Hreq & _ & _ & Hpos & Hle & _ & Hy & Hne).
  set (d1 := with_transfer_otps _ d).
  assert (Hfind : find_unused_otp d1 x (strip code) = One pk otp).
  { apply objects_get_One. simpl. rewrite lookup_insert_eq.
    split_and!; [done| |].
    - rewrite Hotp, Hstrip. simpl.
      by rewrite Pos.eqb_refl, String.eqb_refl.
    - intros k o Hk [[Hm%Pos.eqb_eq _]%andb_true_iff Hu%negb_true_iff]%andb_true_iff.
      rewrite Hpk.
      eapply (proj1 (at_most_one_unused_new d x otp ltac:(by rewrite Hotp)));
        [|done..].
      by rewrite Hpk in Hk. }
  assert (Hchecks : verify_transfer_checks d1 request code now'
                    = inr (mkPlan (x, mx) (pk, otp) (y, my))).
  { apply verify_transfer_checks_inr. exists x, mx, pk, otp, y, my.
    split_and!; try done.
    - split_and!; try done. by rewrite Hstrip.
    - rewrite Hotp. unfold FundTransferOTP.is_valid. simpl.
      by destruct (Z.ltb_spec (now + 600) now'); [lia|].
    - rewrite Hotp. simpl. lia.
    - by rewrite Hotp. }
  pose proof Hreq as [Hmx _]%get_member_from_request_inr.
  pose proof Hy as (Hmy & _)%objects_get_One.
  eexists x, mx, y, my, _, _, _. split_and!; [done|done| | | | | | |].
  - by apply verify_transfer_otp_no_fault.
  - simpl. rewrite lookup_alter_ne, lookup_alter_eq, lookup_alter_ne,
      lookup_alter_eq by done. rewrite Hmx, Hotp. done.
  - simpl. rewrite lookup_alter_eq, lookup_alter_ne, lookup_alter_eq,
      lookup_alter_ne by done. rewrite Hmy, Hotp. done.
  - simpl. by rewrite <- app_assoc.
  - by rewrite Hotp.
  - by rewrite Hotp.
  - simpl. rewrite lookup_alter_eq, lookup_insert_eq. done.
Qed.

Lemma issued_code_transfers_witness :
  ∃ e1 e2 d2,
    run (verify_transfer_otp Scenario.as_alice "123456" 1600)
        Scenario.requested None = (Success (e1, e2), d2)
    ∧ Member.balance <$> members d2 !! 1%positive = Some 30000
    ∧ Member.balance <$> members d2 !! 2%positive = Some 25000.
Proof.
  destruct (issued_code_transfers Scenario.kiosk None Scenario.as_alice
              "RFID-B" 20000 "lunch" "123456" 1000 1600 1%positive
              Scenario.intent Scenario.requested)
    as (x & mx & y & my & e1 & e2 & d2 & Hx & Hy & Hrun & Hbx & Hby & _).
  - vm_compute. reflexivity.
  - reflexivity.
  - discriminate.
  - lia.
  - exists e1, e2, d2.
    assert (x = 1%positive ∧ mx = Scenario.alice) as [-> ->]
      by (vm_compute in Hx; by injection Hx as <- <-).
    assert (y = 2%positive ∧ my = Scenario.bob) as [-> ->]
      by (vm_compute in Hy; by injection Hy as <- <-).
    split_and!; [exact Hrun|exact Hbx|exact Hby].
Defined.

(** X3.  A successful [verify_transfer_otp] marks the intent it was
    given, and no other, as used at the time of the call; it leaves the
    sales and the stock alone; it stamps the activity time of the sender
    and of the recipient; and it changes no card number, name, e-mail
    address, role, user link or activity flag of any member. *)
Theorem transfer_marks_its_intent_only d fault request otp_code now entries d' :
  run (verify_transfer_otp request otp_code now) d fault
    = (Success entries, d') →
  ∃ x mx otp_id otp y my,
    presents d request otp_code x mx otp_id otp
    ∧ get_active_by_rfid d (FundTransferOTP.recipient_rfid otp) = One y my
    ∧ transfer_otps d' !! otp_id = Some (FundTransferOTP.used_at now otp)
    ∧ (∀ k, k ≠ otp_id → transfer_otps d' !! k = transfer_otps d !! k)
    ∧ transactions d' = transactions d
    ∧ products d' = products d
    ∧ Member.last_transaction <$> members d' !! x = Some (Some now)
    ∧ Member.last_transaction <$> members d' !! y = Some (Some now)
    ∧ rows_related same_account (members d) (members d').
Proof.
  intros [(e & [=] & _)|(x & mx & otp_id & otp & y & my & Hp & _ & _ & Hy & Hne
                         & Hmx & Hmy & Hrow & _ & ->)]%verify_transfer_otp_run.
  exists x, mx, otp_id, otp, y, my. simpl. split_and!; try done.
  - by rewrite lookup_alter_eq, Hrow.
  - intros k Hk. by rewrite lookup_alter_ne.
  - rewrite lookup_alter_ne, lookup_alter_eq, lookup_alter_ne, lookup_alter_eq
      by done. by rewrite Hmx.
  - rewrite lookup_alter_eq, lookup_alter_ne, lookup_alter_eq, lookup_alter_ne
      by done. by rewrite Hmy.
  - eapply rows_related_trans; [apply same_account_trans| |].
    2: apply rows_related_alter; done.
    eapply rows_related_trans; [apply same_account_trans| |].
    2: apply rows_related_alter; done.
    eapply rows_related_trans; [apply same_account_trans| |].
    2: apply rows_related_alter; done.
    apply rows_related_alter; done.
Qed.

Lemma transfer_marks_its_intent_only_witness :
  transfer_otps Scenario.transferred !! 1%positive
  = Some (FundTransferOTP.used_at 1100 Scenario.intent)
  ∧ products Scenario.transferred = products Scenario.requested.
Proof.
  destruct (transfer_marks_its_intent_only Scenario.requested None
              Scenario.as_alice "123456" 1100
              (Scenario.sent, Scenario.received) Scenario.transferred)
    as (x & mx & otp_id & otp & y & my & Hp & _ & Hused & _ & _ & Hproducts
        & _).
  - vm_compute. reflexivity.
  - destruct Hp as (_ & Hreq & _ & Hfind).
    vm_compute in Hreq. injection Hreq as <- <-.
    assert (otp_id = 1%positive ∧ otp = Scenario.intent) as [-> ->].
    { vm_compute in Hfind. by injection Hfind as <- <-. }
    split; [exact Hused|exact Hproducts].
Defined.

(** X4.  [request_transfer_otp] moves no money, whatever it answers and
    whatever the storage does: the members, the ledger, the sales and the
    stock are as before.  Of the intents it deletes none that is used and
    none of another member than the caller. *)
Theorem request_never_moves_money d fault request rfid amount notes code now :
  let d' := (run (request_transfer_otp request rfid amount notes code now)
                 d fault).2 in
  members d' = members d
  ∧ balance_transactions d' = balance_transactions d
  ∧ transactions d' = transactions d
  ∧ products d' = products d
  ∧ ∀ k o, transfer_otps d !! k = Some o →
           FundTransferOTP.is_used o = true
           ∨ (∀ mx, get_member_from_request d request
                    ≠ inr (FundTransferOTP.member o, mx)) →
           transfer_otps d' !! k = Some o.
Proof.
  cbv zeta.
  destruct (run _ d fault) as [r d'] eqn:Hrun. simpl. revert Hrun.
  unfold run, request_transfer_otp, bind at 1, read. simpl.
  destruct (request_transfer_checks d request rfid amount notes)
    as [e|[[x rfid'] notes']] eqn:Hc.
  { intros [= <- <-]. split_and!; auto. }
  apply request_transfer_checks_inr in Hc
    as (mx & y & my & _ & Hreq & -> & -> & _).
  assert (Hkept : ∀ k o, transfer_otps d !! k = Some o →
            FundTransferOTP.is_used o = true
            ∨ (∀ mx, get_member_from_request d request
                     ≠ inr (FundTransferOTP.member o, mx)) →
            delete_unused x (transfer_otps d) !! k = Some o).
  { intros k o Hk Ho. apply lookup_delete_unused. split; [done|].
    intros [<- Hu]. destruct Ho as [?|Ho]; [congruence|]. by apply (Ho mx). }
  unfold try_except, bind.
  destruct (create_otp _ _ _ _ _ _ _) as [[e|[pk otp]] s1] eqn:E; simpl;
    intros [= <- <-].
  - apply create_otp_inl in E as [->| ->]; simpl; split_and!; auto.
  - apply create_otp_inr in E as (-> & -> & ->). simpl. split_and!; try done.
    intros k o Hk Ho. rewrite lookup_insert_ne; [by apply Hkept|].
    intros <-. pose proof (fresh_delete_unused x (transfer_otps d)) as Hf.
    rewrite (Hkept _ _ Hk Ho) in Hf. done.
Qed.

(** X5.  On a storage that does not fail, [request_transfer_otp] issues
    an intent exactly when the caller is admitted and resolves to a
    member, the amount is positive and covered by the balance, the
    caller has an e-mail address, and the stripped card number is that of
    exactly one active member, who is not the caller. *)
Theorem request_is_accepted_iff d request rfid amount notes code now :
  (∃ issued d', run (request_transfer_otp request rfid amount notes code now)
                    d None = (Success issued, d'))
  ↔ ∃ x mx y my,
      has_permission d request = true
      ∧ get_member_from_request d request = inr (x, mx)
      ∧ 0 < amount ∧ amount ≤ Member.balance mx
      ∧ Member.email mx ≠ ""
      ∧ get_active_by_rfid d (strip rfid) = One y my
      ∧ y ≠ x.
Proof.
  split.
  - intros ([pk otp] & d' & (x & Hc & _)%request_transfer_otp_Success).
    apply request_transfer_checks_inr in Hc
      as (mx & y & my & ? & ? & _ & _ & ? & ? & ? & ? & ?).
    by exists x, mx, y, my.
  - intros (x & mx & y & my & ? & ? & ? & ? & ? & ? & ?).
    eexists _, _. apply request_transfer_otp_no_fault.
    apply request_transfer_checks_inr. by exists mx, y, my.
Qed.

(** X6.  The member that [get_member_from_request] resolves is a stored,
    active member.  For a logged-in user it is the active member linked
    to that user with the least key, and the session is not consulted;
    for an anonymous request it is the member the session names. *)
Theorem resolved_member_is_the_callers d request x mx :
  get_member_from_request d request = inr (x, mx) →
  members d !! x = Some mx
  ∧ Member.is_active mx = true
  ∧ match request_user request with
    | Some u =>
        Member.user mx = Some (user_pk u)
        ∧ ∀ x' mx', members d !! x' = Some mx' →
                    Member.user mx' = Some (user_pk u) →
                    Member.is_active mx' = true → (x ≤ x')%positive
    | None => session_member_id request = Some x
    end.
Proof.
  intros Hreq. pose proof Hreq as [Hmx Hactive]%get_member_from_request_inr.
  split_and!; [done..|]. revert Hreq. unfold get_member_from_request.
  assert (Hlinked : ∀ u m, linked_to u m = true
                           ↔ Member.user m = Some (user_pk u)).
  { intros u m. unfold linked_to. destruct (Member.user m) as [pk|]; [|done].
    rewrite Pos.eqb_eq. split; congruence. }
  destruct (request_user request) as [u|].
  - destruct (objects_get _ _) as [|pk row|] eqn:E.
    + done.
    + intros [= -> ->].
      apply objects_get_One in E as (_ & [?%Hlinked _]%andb_true_iff & Huniq).
      split; [done|]. intros x' mx' Hx' Hu' Ha'.
      rewrite (Huniq x' mx'); [done..|].
      apply andb_true_iff. by rewrite Hlinked.
    + destruct (objects_first _ _) as [[pk row]|] eqn:E'; [|done].
      intros [= -> ->].
      apply objects_first_Some in E'
        as (_ & [?%Hlinked _]%andb_true_iff & Hmin).
      split; [done|]. intros x' mx' Hx' Hu' Ha'.
      apply (Hmin x' mx'); [done|]. apply andb_true_iff. by rewrite Hlinked.
  - destruct (session_member_id request) as [member_id|]; [|done].
    destruct (get_by_pk _ _ _) as [|pk row|] eqn:E; try done.
    intros [= -> ->]. by apply get_by_pk_One in E as (-> & ? & ?).
Qed.

Lemma resolved_member_is_the_callers_witness :
  members Scenario.kiosk !! 1%positive = Some Scenario.alice
  ∧ Member.is_active Scenario.alice = true
  ∧ Member.user Scenario.alice = Some 10%positive.
Proof.
  destruct (resolved_member_is_the_callers Scenario.kiosk Scenario.as_alice
              1%positive Scenario.alice) as (Hrow & Hactive & Hlinked & _).
  - vm_compute. reflexivity.
  - split_and!; [exact Hrow|exact Hactive|exact Hlinked].
Defined.

(** ** [search_member] *)



(** X8.  [search_member] and [request_transfer_otp] agree on the
    recipient.  For a caller who passes the checks on the sender's side
    (a positive amount covered by the balance, an e-mail address) and a
    card number that is not blank: a member that the search finds is
    accepted as the recipient, and the intent carries that member's card
    number; where the search answers 'not found' the request answers
    'Recipient member not found'; every other failure of the search is
    the failure of the request. *)
Theorem search_member_agrees_with_request d request rfid amount notes code now
    x mx :
  has_permission d request = true →
  get_member_from_request d request = inr (x, mx) →
  0 < amount → amount ≤ Member.balance mx → Member.email mx ≠ "" →
  strip rfid ≠ "" →
  let r := (run (request_transfer_otp request rfid amount notes code now)
                d None).1 in
  match search_member d request rfid with
  | inr (y, my) =>
      ∃ pk otp, r = Success (pk, otp)
                ∧ FundTransferOTP.recipient_rfid otp = Member.rfid_card_number my
  | inl CardNotFound => r = Failure RecipientNotFound
  | inl RfidRequired => False
  | inl (SearchFailed e) => r = Failure e
  end.
Proof.
  intros Hperm Hreq Hpos Hle Hmail Hrfid. cbv zeta.
  unfold search_member. rewrite Hperm, Hreq. simpl.
  apply truthy_true in Hrfid as Hrfid'. rewrite Hrfid'. simpl.
  destruct (get_active_by_rfid d (strip rfid)) as [|y my|] eqn:Hy.
  - unfold run, request_transfer_otp, bind at 1, read, request_transfer_checks.
    simpl. rewrite Hperm, Hreq, Hy. simpl.
    destruct (Z.leb_spec amount 0); [lia|].
    destruct (Z.ltb_spec (Member.balance mx) amount); [lia|].
    apply truthy_true in Hmail as ->. done.
  - destruct (Pos.eqb_spec y x) as [->|Hne].
    + unfold run, request_transfer_otp, bind at 1, read, request_transfer_checks.
      simpl. rewrite Hperm, Hreq, Hy. simpl.
      destruct (Z.leb_spec amount 0); [lia|].
      destruct (Z.ltb_spec (Member.balance mx) amount); [lia|].
      apply truthy_true in Hmail as ->. simpl. by rewrite Pos.eqb_refl.
    + rewrite (request_transfer_otp_no_fault d request rfid amount notes code
                 now x (strip rfid) (strip notes)).
      * simpl. eexists _, _. split; [done|]. simpl.
        by apply objects_get_One in Hy
          as (? & [?%String.eqb_eq ?]%andb_true_iff & _).
      * apply request_transfer_checks_inr. by exists mx, y, my.
  - unfold run, request_transfer_otp, bind at 1, read, request_transfer_checks.
    simpl. rewrite Hperm, Hreq, Hy. simpl.
    destruct (Z.leb_spec amount 0); [lia|].
    destruct (Z.ltb_spec (Member.balance mx) amount); [lia|].
    apply truthy_true in Hmail as ->. done.
Qed.

Lemma search_member_agrees_with_request_witness :
  ∃ pk otp,
    (run (request_transfer_otp Scenario.as_alice "RFID-B" 20000 "lunch"
            "123456" 1000) Scenario.kiosk None).1 = Success (pk, otp)
    ∧ FundTransferOTP.recipient_rfid otp = "RFID-B".
Proof.
  pose proof (search_member_agrees_with_request Scenario.kiosk
                Scenario.as_alice "RFID-B" 20000 "lunch" "123456" 1000
                1%positive Scenario.alice) as H.
  assert (Hfound : search_member Scenario.kiosk Scenario.as_alice "RFID-B"
                   = inr (2%positive, Scenario.bob))
    by (vm_compute; reflexivity).
  rewrite Hfound in H. apply H.
  - vm_compute. reflexivity.
  - vm_compute. reflexivity.
  - lia.
  - vm_compute. discriminate.
  - discriminate.
  - vm_compute. discriminate.
Defined.

(** ** The history of balance transactions *)

Lemma insert_by_created_at_Permutation e l :
  insert_by_created_at e l ≡ₚ e :: l.
Proof.
  induction l as [|e' l IH]; simpl; [done|].
  destruct (_ <? _); [done|]. by rewrite IH, Permutation_swap.
Qed.

Lemma order_by_created_at_desc_Permutation l :
  order_by_created_at_desc l ≡ₚ l.
Proof.
  induction l as [|e l IH]; simpl; [done|].
  by rewrite insert_by_created_at_Permutation, IH.
Qed.

Lemma length_order_by_created_at_desc l :
  List.length (order_by_created_at_desc l) = List.length l.
Proof. by rewrite order_by_created_at_desc_Permutation. Qed.

Section History.
Context (d : DB) (request : Request) (x : positive) (mx : Member.t).
Context (limit : Z).
Hypothesis Hperm : has_permission d request = true.
Hypothesis Hreq : get_member_from_request d request = inr (x, mx).
Hypothesis Hlimit : 0 < limit.

(** The page after [i] pages. *)
Lemma balance_transactions_page (i : nat) :
  Views.balance_transactions d request (Z.of_nat i + 1) limit
  = inr (take (Z.to_nat limit)
           (drop (i * Z.to_nat limit)
              (order_by_created_at_desc (member_balance_transactions d x))),
         mkPagination (Z.of_nat i + 1) limit
           (Z.of_nat (List.length
                        (order_by_created_at_desc
                           (member_balance_transactions d x))))
           (Z.of_nat i * limit + limit
            <? Z.of_nat (List.length
                           (order_by_created_at_desc
                              (member_balance_transactions d x))))
           (1 <? Z.of_nat i + 1)).
Proof.
  unfold Views.balance_transactions, queryset_slice. rewrite Hperm, Hreq.
  simpl.
  replace (Z.of_nat i + 1 - 1) with (Z.of_nat i) by lia.
  destruct (Z.ltb_spec (Z.of_nat i * limit) 0); [lia|].
  destruct (Z.ltb_spec (Z.of_nat i * limit + limit) 0); [lia|]. simpl.
  rewrite length_order_by_created_at_desc.
  replace (Z.of_nat i * limit + limit - Z.of_nat i * limit) with limit by lia.
  by rewrite Z2Nat.inj_mul, Nat2Z.id by lia.
Qed.

Lemma pages_read_take n :
  pages_read d request limit n
  = take (n * Z.to_nat limit)
         (order_by_created_at_desc (member_balance_transactions d x)).
Proof.
  unfold pages_read. induction n as [|n IH]; [done|].
  rewrite seq_S, fmap_app, concat_app, IH. simpl.
  rewrite balance_transactions_page, app_nil_r.
  rewrite take_take_drop. f_equal. lia.
Qed.

End History.

Lemma insert_by_created_at_sorted e l :
  StronglySorted not_older l →
  StronglySorted not_older (insert_by_created_at e l).
Proof.
  induction 1 as [|e' l Hl IH Hall]; simpl.
  - repeat constructor.
  - destruct (Z.ltb_spec (BalanceTransaction.created_at e')
                         (BalanceTransaction.created_at e)).
    + constructor; [by constructor|]. constructor; [unfold not_older; lia|].
      eapply Forall_impl; [exact Hall|]. unfold not_older. intros; lia.
    + constructor; [done|].
      rewrite insert_by_created_at_Permutation. by constructor.
Qed.

Lemma order_by_created_at_desc_sorted l :
  StronglySorted not_older (order_by_created_at_desc l).
Proof.
  induction l as [|e l IH]; simpl; [constructor|].
  by apply insert_by_created_at_sorted.
Qed.

(** Where no two rows have one timestamp, the order is strict: the rows
    have one order by [-created_at] only. *)
Lemma sorted_distinct_is_strict l :
  StronglySorted not_older l →
  NoDup (BalanceTransaction.created_at <$> l) →
  StronglySorted newer l.
Proof.
  induction 1 as [|e l Hl IH Hall]; [constructor|].
  rewrite fmap_cons, NoDup_cons. intros [Hnew Hrest].
  constructor; [by apply IH|].
  apply Forall_forall. intros e' He'.
  rewrite Forall_forall in Hall. specialize (Hall _ He').
  unfold not_older, newer in *.
  destruct (decide (BalanceTransaction.created_at e'
                    = BalanceTransaction.created_at e)) as [Heq|]; [|lia].
  destruct Hnew. rewrite <- Heq. by apply list_elem_of_fmap_2.
Qed.

(** X9.  Where no two balance transactions of the caller have one
    timestamp, a client of [balance_transactions] that reads page 1, page
    2 and so on with one positive limit, and stops at the first page whose
    [has_next] is false, has read every balance transaction of the caller
    exactly once, each one before every older one. *)
Theorem reading_until_has_next_is_false_reads_all d request x mx limit n rows
    pagination :
  has_permission d request = true →
  get_member_from_request d request = inr (x, mx) →
  0 < limit →
  NoDup (BalanceTransaction.created_at <$> member_balance_transactions d x) →
  Views.balance_transactions d request (Z.of_nat n + 1) limit
    = inr (rows, pagination) →
  has_next pagination = false →
  pages_read d request limit (S n) ≡ₚ member_balance_transactions d x
  ∧ StronglySorted newer (pages_read d request limit (S n)).
Proof.
  intros Hperm Hreq Hlimit Hdistinct Hpage Hlast.
  rewrite (balance_transactions_page d request x mx limit) in Hpage by done.
  injection Hpage as <- <-. simpl in Hlast. apply Z.ltb_ge in Hlast.
  rewrite length_order_by_created_at_desc in Hlast.
  assert (pages_read d request limit (S n)
          = order_by_created_at_desc (member_balance_transactions d x)) as ->.
  { rewrite (pages_read_take d request x mx) by done.
    apply take_ge. rewrite length_order_by_created_at_desc. nia. }
  split; [apply order_by_created_at_desc_Permutation|].
  apply sorted_distinct_is_strict; [apply order_by_created_at_desc_sorted|].
  by rewrite order_by_created_at_desc_Permutation.
Qed.

Lemma reading_until_has_next_is_false_reads_all_witness :
  pages_read Scenario.transferred Scenario.as_alice 1 2
  ≡ₚ member_balance_transactions Scenario.transferred 1
  ∧ StronglySorted newer
      (pages_read Scenario.transferred Scenario.as_alice 1 2).
Proof.
  apply (reading_until_has_next_is_false_reads_all Scenario.transferred
           Scenario.as_alice 1%positive
           (Member.set_last_transaction 1100
              (Member.set_balance 30000 Scenario.alice))
           1 1
           [BalanceTransaction.mk 1 deposit 50000 0 50000
              "Balance refill by admin" 0]
           (mkPagination 2 1 2 false true)).
  - vm_compute. reflexivity.
  - vm_compute. reflexivity.
  - lia.
  - apply (bool_decide_unpack _). vm_compute. exact I.
  - vm_compute. reflexivity.
  - reflexivity.
Defined.

(** X10.  A page of [balance_transactions] whose [has_next] is true is
    full, holds balance transactions of the caller only, and is followed
    by a page that is not empty. *)
Theorem has_next_promises_a_next_page d request x mx limit n rows pagination :
  has_permission d request = true →
  get_member_from_request d request = inr (x, mx) →
  0 < limit →
  Views.balance_transactions d request (Z.of_nat n + 1) limit
    = inr (rows, pagination) →
  has_next pagination = true →
  Z.of_nat (List.length rows) = limit
  ∧ Forall (λ e, BalanceTransaction.member e = x) rows
  ∧ ∃ e rows' pagination',
      Views.balance_transactions d request (Z.of_nat n + 2) limit
      = inr (e :: rows', pagination').
Proof.
  intros Hperm Hreq Hlimit Hpage Hnext.
  rewrite (balance_transactions_page d request x mx limit) in Hpage by done.
  injection Hpage as <- <-. simpl in Hnext. apply Z.ltb_lt in Hnext.
  set (history := order_by_created_at_desc (member_balance_transactions d x))
    in *.
  split_and!.
  - rewrite length_take, length_drop. nia.
  - apply Forall_take, Forall_drop. subst history.
    rewrite order_by_created_at_desc_Permutation.
    unfold member_balance_transactions. apply Forall_forall.
    intros e [_ ?%Pos.eqb_eq]%list_elem_of_In%filter_In. done.
  - replace (Z.of_nat n + 2) with (Z.of_nat (S n) + 1) by lia.
    rewrite (balance_transactions_page d request x mx limit) by done.
    fold history.
    destruct (take _ (drop (S n * Z.to_nat limit) history)) as [|e rows']
      eqn:E; [|by eexists _, _, _].
    apply (f_equal List.length) in E.
    rewrite length_take, length_drop in E. simpl in E. nia.
Qed.

Lemma has_next_promises_a_next_page_witness :
  ∃ e rows' pagination',
    Views.balance_transactions Scenario.transferred Scenario.as_alice 2 1
    = inr (e :: rows', pagination').
Proof.
  destruct (has_next_promises_a_next_page Scenario.transferred
              Scenario.as_alice 1%positive
              (Member.set_last_transaction 1100
                 (Member.set_balance 30000 Scenario.alice))
              1 0 [Scenario.sent] (mkPagination 1 1 2 true false))
    as (_ & _ & Hnext).
  - vm_compute. reflexivity.
  - vm_compute. reflexivity.
  - lia.
  - vm_compute. reflexivity.
  - reflexivity.
  - exact Hnext.
Defined.

(** ** Refunds and refills *)



(** X12.  A caller who is neither cashier nor administrator gets a refund
    through only for a sale of their own: whatever the storage does, a
    success answer of [api_process_refund] to such a caller means that the
    sale belongs to an active member linked to the caller's user. *)
Theorem member_refunds_own_sale_only PAYMENT_METHODS d fault request u
    transaction_id reason now receipt d' :
  request_user request = Some u →
  is_cashier_or_admin d u = false →
  run (api_process_refund PAYMENT_METHODS request transaction_id reason now)
      d fault = (Success receipt, d') →
  ∃ pk x me m,
    transaction_id = Some pk
    ∧ transactions d !! pk = Some x
    ∧ Transaction.member x = Some me
    ∧ members d !! me = Some m
    ∧ Member.user m = Some (user_pk u)
    ∧ Member.is_active m = true.
Proof.
  intros Hu Haccess. unfold run, api_process_refund. rewrite Hu.
  unfold try_except.
  match goal with |- context [match ?b ?s with _ => _ end] =>
    destruct (b s) as [[e|r] s'] eqn:Hbody end; [done|].
  intros [= -> <-].
  destruct transaction_id as [pk|]; [|done].
  apply bind_inr in Hbody as (d0 & ? & [-> ->]%read_inr & Hbody). simpl in *.
  destruct (get_by_pk _ pk (transactions d)) as [|pk' x|] eqn:Hget; try done.
  apply get_by_pk_One in Hget as (-> & Hx & Hstatus%String.eqb_eq).
  apply bind_inr in Hbody as (member & s1 & Hmember & Hbody).
  rewrite Haccess in Hbody.
  assert (Hlinked : ∀ m, linked_to u m = true
                         ↔ Member.user m = Some (user_pk u)).
  { intros m. unfold linked_to. destruct (Member.user m) as [k|]; [|done].
    rewrite Pos.eqb_eq. split; congruence. }
  destruct (objects_get _ (members d)) as [|me m|] eqn:Hme.
  - done.
  - case_bool_decide as Hown; [|done].
    apply objects_get_One in Hme as (? & [?%Hlinked ?]%andb_true_iff & _).
    by exists pk, x, me, m.
  - destruct (objects_first _ (members d)) as [[me m]|] eqn:Hfirst; [|done].
    simpl in Hbody. case_bool_decide as Hown; [|done].
    apply objects_first_Some in Hfirst
      as (? & [?%Hlinked ?]%andb_true_iff & _).
    by exists pk, x, me, m.
Qed.

Lemma member_refunds_own_sale_only_witness :
  ∃ m, members Scenario.kiosk !! 3%positive = Some m
       ∧ Member.user m = Some 13%positive.
Proof.
  destruct (member_refunds_own_sale_only Scenario.payment_methods
              Scenario.kiosk None Shop.as_carol (mkUser 13 false false)
              (Some 1%positive) "too many" 2000 (Some (2000, 17000))
              (run (api_process_refund Scenario.payment_methods Shop.as_carol
                      (Some 1%positive) "too many" 2000)
                   Scenario.kiosk None).2)
    as (pk & x & me & m & Hpk & Hx & Hme & Hm & Hu & _).
  - reflexivity.
  - vm_compute. reflexivity.
  - vm_compute. reflexivity.
  - injection Hpk as <-. vm_compute in Hx. injection Hx as <-.
    injection Hme as <-. exists m. split; [exact Hm|exact Hu].
Defined.

Lemma restocked_lookup items (ps : gmap positive Product.t) k :
  Product.stock_quantity <$> restocked items ps !! k
  = (λ p, Product.stock_quantity p + returned_quantity k items) <$> ps !! k.
Proof.
  revert ps. induction items as [|item items IH]; intros ps.
  - simpl. destruct (ps !! k); simpl; [f_equal; lia|done].
  - unfold restocked in *. simpl. rewrite IH.
    destruct (TransactionItem.product item) as [product_id|] eqn:Hprod.
    + case_bool_decide as Hk.
      * injection Hk as ->. rewrite lookup_alter_eq.
        destruct (ps !! k); simpl; [f_equal; lia|done].
      * rewrite lookup_alter_ne by congruence. done.
    + by rewrite bool_decide_eq_false_2.
Qed.

(** X13.  The stock loop of [api_process_refund], on a storage that does
    not fail and for line items whose products exist, runs to its end,
    touches the products only, and raises the stock of every product by
    the sum of the quantities of the lines that name it; a line whose
    product is gone is skipped. *)
Theorem restore_stock_adds_quantities items d :
  products_exist items (products d) →
  ∃ d',
    restore_stock items (mkStore d None) = (inr tt, mkStore d' None)
    ∧ members d' = members d
    ∧ balance_transactions d' = balance_transactions d
    ∧ transfer_otps d' = transfer_otps d
    ∧ transactions d' = transactions d
    ∧ ∀ k, Product.stock_quantity <$> products d' !! k
           = (λ p, Product.stock_quantity p + returned_quantity k items)
             <$> products d !! k.
Proof.
  intros Hall. eexists. split; [by apply restore_stock_no_fault|].
  simpl. split_and!; try done. intros k. apply restocked_lookup.
Qed.

Lemma restore_stock_adds_quantities_witness :
  ∃ d', restore_stock (Transaction.items Shop.guest_sale)
                      (mkStore Shop.shop None)
        = (inr tt, mkStore d' None)
        ∧ Product.stock_quantity <$> products d' !! 1%positive = Some 8.
Proof.
  destruct (restore_stock_adds_quantities (Transaction.items Shop.guest_sale)
              Shop.shop) as (d' & Hrun & _ & _ & _ & _ & Hstock).
  - repeat constructor; vm_compute; eauto.
  - exists d'. split; [exact Hrun|]. rewrite Hstock. vm_compute. reflexivity.
Defined.



(** ** [api_update_transaction] *)

Lemma update_if_preserves {A} (P : Transaction.t → Prop) (field : option A)
    f x :
  (∀ v y, P y → P (f v y)) → P x → P (update_if field f x).
Proof. intros Hf Hx. destruct field; simpl; auto. Qed.

Ltac update_steps P :=
  repeat (apply (update_if_preserves P);
          [intros ? ? ?; simpl;
           repeat match goal with
                  | |- context [0 <=? ?a] => destruct (Z.leb_spec 0 a)
                  | |- context [if ?c then _ else _] => destruct c
                  | |- context [match ?o with Some _ => _ | None => _ end] =>
                      destruct o
                  end; simpl; first [done | lia]|]).

(** The view leaves the database as it was, or it writes the addressed
    sale with the fields of the body. *)
Lemma api_update_transaction_run PAYMENT_METHODS d fault request data r d' :
  run (api_update_transaction PAYMENT_METHODS request data) d fault = (r, d') →
  d' = d
  ∨ ∃ pk x x',
      data_transaction_id data = Some pk
      ∧ transactions d !! pk = Some x
      ∧ d' = with_transactions (<[pk := x']>) d
      ∧ same_sale x x'
      ∧ (0 ≤ Transaction.amount_paid x → 0 ≤ Transaction.amount_paid x')
      ∧ (0 ≤ Transaction.amount_from_balance x
         → 0 ≤ Transaction.amount_from_balance x').
Proof.
  unfold run, api_update_transaction.
  destruct (request_user request) as [u|]; [|intros [= <- <-]; eauto].
  unfold bind at 1, read. simpl.
  destruct (negb _); [intros [= <- <-]; eauto|].
  destruct (data_transaction_id data) as [pk|]; [|intros [= <- <-]; eauto].
  destruct (transactions d !! pk) as [x|] eqn:Hx; [|intros [= <- <-]; eauto].
  unfold bind, save, write, ret.
  destruct fault as [[|n]|]; simpl; intros [= <- <-]; eauto;
    right; eexists pk, x, _; (split_and!; [done|done|reflexivity|..]).
  all: try (update_steps (same_sale x); done).
  all: try (update_steps (λ y, 0 ≤ Transaction.amount_paid x
                               → 0 ≤ Transaction.amount_paid y); done).
  all: update_steps (λ y, 0 ≤ Transaction.amount_from_balance x
                          → 0 ≤ Transaction.amount_from_balance y); done.
Qed.

(** X15.  [api_update_transaction] changes at most the sale that the
    body addresses, whatever it answers and whatever the storage does:
    the members, the ledger, the intents and the stock are as before, no
    sale appears or disappears, and no sale changes its number, its
    owner, its total or its line items.  In particular an edit of the
    status or of the amount taken from the balance moves no money. *)
Theorem update_transaction_changes_one_sale PAYMENT_METHODS d fault request
    data :
  let d' := (run (api_update_transaction PAYMENT_METHODS request data)
                 d fault).2 in
  members d' = members d
  ∧ balance_transactions d' = balance_transactions d
  ∧ transfer_otps d' = transfer_otps d
  ∧ products d' = products d
  ∧ (∀ pk, data_transaction_id data ≠ Some pk →
           transactions d' !! pk = transactions d !! pk)
  ∧ rows_related same_sale (transactions d) (transactions d').
Proof.
  cbv zeta. destruct (run _ d fault) as [r d'] eqn:Hrun. simpl.
  assert (Hrefl : ∀ x, same_sale x x) by done.
  apply api_update_transaction_run in Hrun
    as [->|(pk & x & x' & Hpk & Hx & -> & Hsame & _)].
  - split_and!; try done. by apply rows_related_refl.
  - simpl. split_and!; try done.
    + intros k Hk. rewrite lookup_insert_ne; [done|congruence].
    + intros k. destruct (decide (k = pk)) as [->|].
      * by rewrite lookup_insert_eq, Hx.
      * rewrite lookup_insert_ne by done. destruct (transactions d !! k); auto.
Qed.

(** X16.  [api_update_transaction] ignores a negative amount: where no
    sale records a negative amount paid or a negative amount taken from
    the balance, none does after the call. *)
Theorem update_transaction_keeps_payments_nonnegative PAYMENT_METHODS d fault
    request data :
  payments_nonnegative d →
  payments_nonnegative
    (run (api_update_transaction PAYMENT_METHODS request data) d fault).2.
Proof.
  intros Hd. destruct (run _ d fault) as [r d'] eqn:Hrun. simpl.
  apply api_update_transaction_run in Hrun
    as [->|(pk & x & x' & Hpk & Hx & -> & _ & Hpaid & Hfrom)]; [done|].
  unfold payments_nonnegative. simpl. apply map_Forall_insert_2; [|done].
  destruct (Hd _ _ Hx). auto.
Qed.

Lemma update_transaction_keeps_payments_nonnegative_witness :
  payments_nonnegative
    (run (api_update_transaction Scenario.payment_methods Scenario.as_admin
            (mkUpdateData (Some 1%positive) None None (Some (Some (-500)))
               (Some (Some 2500)) None))
         Shop.shop None).2.
Proof.
  apply (update_transaction_keeps_payments_nonnegative
           Scenario.payment_methods Shop.shop None Scenario.as_admin).
  unfold payments_nonnegative. apply (bool_decide_unpack _).
  vm_compute. exact I.
Defined.

(** ** The role tests *)

(** X17.  Access to the Django admin is access to the dashboard minus
    the Django staff flag: [can_access_django_admin] holds exactly for the
    users for whom [is_admin_user] holds and who are not staff without
    being superuser. *)
Theorem django_admin_access_is_admin_without_staff_flag d u :
  can_access_django_admin d u
  = is_admin_user d u && negb (is_staff u && negb (is_superuser u)).
Proof.
  unfold can_access_django_admin, is_admin_user.
  destruct (is_superuser u); [by rewrite andb_false_r|].
  destruct (is_staff u); simpl; [by rewrite andb_false_r|].
  rewrite andb_true_r.
  destruct (get_member_of_user d u) as [|pk m|]; try done.
  destruct (Member.is_active m); rewrite ?andb_false_r, ?andb_true_r; [|done].
  destruct (String.eqb_spec (Member.role m) "staff") as [->|]; [done|].
  by destruct (String.eqb (Member.role m) "admin").
Qed.

(** X18.  A staff member in the sense of [is_staff_user] has the staff
    role, which lets them refill balances, and nothing more: they are
    neither cashier nor administrator and have no access to the Django
    admin. *)
Theorem staff_user_has_staff_rights_only d u :
  is_staff_user d u = true →
  is_staff_role d u = true
  ∧ is_cashier_or_admin d u = false
  ∧ is_admin_user d u = false
  ∧ can_access_django_admin d u = false.
Proof.
  unfold is_staff_user, is_staff_role, is_cashier_or_admin, is_admin_user,
    can_access_django_admin.
  destruct (is_staff u), (is_superuser u); try done. simpl.
  destruct (get_member_of_user d u) as [|pk m|]; try done.
  intros [->%String.eqb_eq ->]%andb_true_iff. done.
Qed.

Lemma staff_user_has_staff_rights_only_witness :
  is_staff_role Shop.shop (mkUser 14 false false) = true
  ∧ is_cashier_or_admin Shop.shop (mkUser 14 false false) = false
  ∧ is_admin_user Shop.shop (mkUser 14 false false) = false
  ∧ can_access_django_admin Shop.shop (mkUser 14 false false) = false.
Proof.
  apply (staff_user_has_staff_rights_only Shop.shop (mkUser 14 false false)).
  vm_compute. reflexivity.
Defined.

(** ** The stock signals *)

Ltac compare_stock :=
  repeat match goal with
         | |- context [?a =? ?b] => destruct (Z.eqb_spec a b)
         | |- context [?a <? ?b] => destruct (Z.ltb_spec a b)
         | |- context [?a <=? ?b] => destruct (Z.leb_spec a b)
         end; simpl; try done; try lia.

(** X19.  Saving a stored product without lowering its stock, as the
    refund does when it restores the stock, sends no mail: the handlers
    reset the counter of failed accesses when the product is active and
    its stock rose from zero or more, and do nothing otherwise. *)
Theorem saving_without_lowering_stock_sends_no_mail ps pk old is_active s
    threshold :
  ps !! pk = Some old →
  Product.stock_quantity old ≤ s →
  check_out_of_stock is_active (track_stock_before_save ps (Some pk)) s
                     threshold false
  = if is_active && (0 <=? Product.stock_quantity old)
       && (Product.stock_quantity old <? s)
    then [ResetAttempts] else [].
Proof.
  intros Hold Hle. unfold check_out_of_stock, track_stock_before_save.
  rewrite Hold. destruct is_active; simpl; [|done]. compare_stock.
Qed.

Lemma saving_without_lowering_stock_sends_no_mail_witness :
  check_out_of_stock true
    (track_stock_before_save (products Scenario.kiosk) (Some 1%positive)) 7 10
    false
  = [ResetAttempts].
Proof.
  rewrite (saving_without_lowering_stock_sends_no_mail
             (products Scenario.kiosk) 1%positive (Product.mk 5) true 7 10);
    [reflexivity | reflexivity | simpl; lia].
Defined.

(** X20.  Saving an active stored product with a lower stock sends
    exactly one mail when the new stock is zero (out of stock) or is
    positive and at most the threshold (low stock), and none otherwise;
    it never resets the counter. *)
Theorem lowering_stock_notifies_once ps pk old s threshold created :
  ps !! pk = Some old →
  s < Product.stock_quantity old →
  check_out_of_stock true (track_stock_before_save ps (Some pk)) s threshold
                     created
  = if s =? 0 then [OutOfStockNotification]
    else if (0 <? s) && (s <=? threshold) then [LowStockWarning]
    else [].
Proof.
  intros Hold Hlt. unfold check_out_of_stock, track_stock_before_save.
  rewrite Hold. simpl. destruct created; compare_stock.
Qed.

Lemma lowering_stock_notifies_once_witness :
  check_out_of_stock true
    (track_stock_before_save (products Scenario.kiosk) (Some 1%positive)) 0 10
    false
  = [OutOfStockNotification].
Proof.
  rewrite (lowering_stock_notifies_once
             (products Scenario.kiosk) 1%positive (Product.mk 5) 0 10 false);
    [reflexivity | reflexivity | simpl; lia].
Defined.

(** X21.  A save makes at most one of the three calls: it never both
    resets the counter and sends a mail, and never sends both mails. *)
Theorem check_out_of_stock_calls_at_most_one is_active previous s threshold
    created :
  (List.length (check_out_of_stock is_active previous s threshold created)
   ≤ 1)%nat.
Proof.
  unfold check_out_of_stock.
  destruct is_active; simpl; [|lia].
  destruct previous as [p|], created; simpl; compare_stock.
Qed.

(** ** The counter of failed accesses *)

Lemma fifth_attempt k :
  0 ≤ k →
  (5 <=? k + 1) && (5 * (k / 5) / 5 <? (k + 1) / 5)
  = bool_decide ((k + 1) mod 5 = 0).
Proof.
  intros Hk.
  replace (5 * (k / 5) / 5) with (k / 5)
    by (rewrite Z.mul_comm, Z.div_mul; lia).
  case_bool_decide as Hmod.
  - apply andb_true_iff. split; [apply Z.leb_le|apply Z.ltb_lt];
      Z.div_mod_to_equations; lia.
  - apply andb_false_iff. right. apply Z.ltb_ge.
    Z.div_mod_to_equations; lia.
Qed.

Lemma counted_reset product_id t0 c :
  counted product_id t0 0 (reset_out_of_stock_attempts product_id c).
Proof.
  split; [done|]. intros t _. unfold cache_get. simpl.
  by rewrite !lookup_delete_eq.
Qed.

Lemma counted_step product_id stock_quantity t0 k c now :
  stock_quantity ≤ 0 →
  counted product_id t0 k c → t0 ≤ now < t0 + 86400 →
  ∃ c', track_out_of_stock_attempt product_id stock_quantity now c
        = (c', (k + 1, bool_decide ((k + 1) mod 5 = 0)))
        ∧ counted product_id t0 (k + 1) c'.
Proof.
  intros Hstock [Hk Hc] Hnow. unfold track_out_of_stock_attempt.
  destruct (Z.ltb_spec 0 stock_quantity); [lia|].
  destruct (Hc now Hnow) as [-> Hlast]. simpl. rewrite Hlast.
  rewrite fifth_attempt by done.
  assert (Hset : ∀ entries v t, t0 ≤ t < t0 + 86400 →
            cache_get (cache_set entries product_id v 86400 now) product_id 0 t
            = v).
  { intros entries v t Ht. unfold cache_get, cache_set.
    rewrite lookup_insert_eq. simpl.
    destruct (Z.leb_spec (now + 86400) t); [lia|done]. }
  case_bool_decide as Hmod; eexists; (split; [done|]); (split; [lia|]);
    intros t Ht; simpl; rewrite Hset by done; (split; [done|]).
  - rewrite Hset by done. Z.div_mod_to_equations; lia.
  - destruct (Hc t Ht) as [_ ->]. Z.div_mod_to_equations; lia.
Qed.

Lemma track_attempts_counted product_id stock_quantity t0 times : ∀ k c,
  stock_quantity ≤ 0 →
  counted product_id t0 k c →
  Forall (λ t, t0 ≤ t < t0 + 86400) times →
  track_attempts product_id stock_quantity times c
  = imap (λ i _, (k + Z.of_nat i + 1,
                  bool_decide ((k + Z.of_nat i + 1) mod 5 = 0))) times.
Proof.
  induction times as [|now times IH]; intros k c Hstock Hc Hall; [done|].
  inversion_clear Hall as [|? ? Hnow Hrest].
  destruct (counted_step product_id stock_quantity t0 k c now Hstock Hc Hnow)
    as (c' & Hstep & Hc').
  simpl. rewrite Hstep. rewrite (IH (k + 1) c') by done.
  rewrite Z.add_0_r. f_equal. apply imap_ext. intros i t _. simpl.
  by replace (k + 1 + Z.of_nat i + 1) with (k + Z.of_nat (S i) + 1) by lia.
Qed.

(** X22.  After [reset_out_of_stock_attempts], the attempts on a product
    that is out of stock, made within one day, are counted 1, 2, 3 and so
    on, and exactly every fifth of them sends the notification. *)
Theorem every_fifth_attempt_notifies product_id stock_quantity t0 times c :
  stock_quantity ≤ 0 →
  Forall (λ t, t0 ≤ t < t0 + 86400) times →
  track_attempts product_id stock_quantity times
                 (reset_out_of_stock_attempts product_id c)
  = imap (λ i _, (Z.of_nat i + 1, bool_decide ((Z.of_nat i + 1) mod 5 = 0)))
         times.
Proof.
  intros Hstock Hall.
  rewrite (track_attempts_counted product_id stock_quantity t0 times 0);
    [done|done| |done].
  apply counted_reset.
Qed.

Lemma every_fifth_attempt_notifies_witness :
  track_attempts 1%positive 0 [100; 200; 300; 400; 500; 600]
                 (reset_out_of_stock_attempts 1%positive (mkCache ∅ ∅))
  = [(1, false); (2, false); (3, false); (4, false); (5, true); (6, false)].
Proof.
  rewrite (every_fifth_attempt_notifies 1%positive 0 100
             [100; 200; 300; 400; 500; 600] (mkCache ∅ ∅)).
  - reflexivity.
  - lia.
  - repeat constructor; lia.
Defined.

(** ** Logging in *)

(** X23.  [api_validate_rfid_login] answers a card number exactly as
    [api_rfid_login] does: the same refusal, or the same kind of
    acceptance (member only, or the user name of the user who is logged
    in). *)
Theorem rfid_validation_predicts_login users d request rfid :
  api_validate_rfid_login users d rfid
  = match api_rfid_login users d request rfid with
    | inl e => inl e
    | inr (answer, _) => inr answer
    end.
Proof.
  unfold api_validate_rfid_login, api_rfid_login.
  destruct (negb (truthy rfid)); [done|].
  destruct (get_active_by_rfid d rfid) as [|member_id member|]; try done.
  destruct (String.eqb (Member.role member) "member"),
    (member_user users member) as [[pk user]|]; simpl; try done.
  - by destruct (truthy (AuthUser.username user)), (AuthUser.is_active user).
  - by destruct (AuthUser.is_active user).
Qed.

Lemma linked_to_authenticated pk row m :
  linked_to (authenticated pk row) m = true ↔ Member.user m = Some pk.
Proof.
  unfold linked_to. simpl. destruct (Member.user m) as [k|]; [|done].
  rewrite Pos.eqb_eq. split; congruence.
Qed.

(** X24.  The session that [api_rfid_login] opens for an anonymous
    request, on the card number alone, is admitted by the mobile API:
    [MobileMemberPermission] lets it pass and [get_member_from_request]
    resolves it, to the member of the card when the login was member
    only, and otherwise to an active member linked to the same user as
    the member of the card. *)
Theorem card_login_opens_the_mobile_api users d request rfid answer request' :
  request_user request = None →
  api_rfid_login users d request rfid = inr (answer, request') →
  ∃ y my x mx,
    get_active_by_rfid d rfid = One y my
    ∧ has_permission d request' = true
    ∧ get_member_from_request d request' = inr (x, mx)
    ∧ match answer with
      | MemberOnly _ => x = y
      | Username _ => Member.user mx = Member.user my
      end.
Proof.
  intros Hanon. unfold api_rfid_login.
  destruct (negb (truthy rfid)); [done|].
  destruct (get_active_by_rfid d rfid) as [|y my|] eqn:Hy; try done.
  pose proof Hy as (Hmy & [_ Hactive]%andb_true_iff & _)%objects_get_One.
  destruct (_ && _).
  - intros [= <- <-]. exists y, my, y, my.
    unfold remember_member. rewrite Hanon.
    unfold has_permission, get_member_from_request, get_by_pk. simpl.
    by rewrite Hmy, Hactive.
  - destruct (member_user users my) as [[pk user]|] eqn:Huser; [|done].
    destruct (negb (AuthUser.is_active user)); [done|].
    intros [= <- <-].
    assert (Hlink : Member.user my = Some pk).
    { unfold member_user in Huser. destruct (Member.user my) as [k|]; [|done].
      destruct (users !! k); [|done]. congruence. }
    unfold login, has_permission, get_member_from_request. simpl.
    destruct (objects_get _ (members d)) as [|x mx|] eqn:E.
    + rewrite objects_get_DoesNotExist in E. specialize (E _ _ Hmy).
      simpl in E. rewrite Hactive, andb_true_r in E.
      by rewrite (proj2 (linked_to_authenticated pk user my)) in E.
    + exists y, my, x, mx. split_and!; try done.
      apply objects_get_One in E
        as (_ & [?%linked_to_authenticated _]%andb_true_iff & _).
      congruence.
    + destruct (objects_first _ (members d)) as [[x mx]|] eqn:E'.
      * exists y, my, x, mx. split_and!; try done.
        apply objects_first_Some in E'
          as (_ & [?%linked_to_authenticated _]%andb_true_iff & _).
        congruence.
      * rewrite objects_first_None in E'. specialize (E' _ _ Hmy).
        simpl in E'. rewrite Hactive, andb_true_r in E'.
        by rewrite (proj2 (linked_to_authenticated pk user my)) in E'.
Qed.

Lemma card_login_opens_the_mobile_api_witness :
  ∃ mx, get_member_from_request Scenario.kiosk (mkRequest None (Some 2%positive))
        = inr (2%positive, mx).
Proof.
  destruct (card_login_opens_the_mobile_api Shop.accounts Scenario.kiosk
              Shop.anonymous "RFID-B" (MemberOnly "Bob")
              (mkRequest None (Some 2%positive)))
    as (y & my & x & mx & Hy & _ & Hreq & Hx).
  - reflexivity.
  - vm_compute. reflexivity.
  - vm_compute in Hy. injection Hy as <- <-. subst x. by exists mx.
Defined.



(** X26.  Disabling the user account of a member with the role 'member'
    closes [mobile_login] by card, whatever the PIN, but not
    [api_rfid_login]: the card number alone still opens a member-only
    session, which [MobileMemberPermission] admits and
    [get_member_from_request] resolves to the member. *)
Theorem card_login_ignores_a_disabled_user check_pin users d request rfid y my
    pk user :
  request_user request = None →
  strip rfid = rfid → rfid ≠ "" →
  get_active_by_rfid d rfid = One y my →
  Member.role my = "member" →
  member_user users my = Some (pk, user) →
  AuthUser.username user ≠ "" →
  AuthUser.is_active user = false →
  (∀ pin, ∃ e, mobile_login check_pin users d request "" pin rfid = inl e)
  ∧ api_rfid_login users d request rfid
    = inr (MemberOnly (Member.full_name my), remember_member request y)
  ∧ has_permission d (remember_member request y) = true
  ∧ get_member_from_request d (remember_member request y) = inr (y, my).
Proof.
  intros Hanon Hstrip Hrfid Hy Hrole Huser Hname Hinactive.
  apply truthy_true in Hrfid as Hrfid', Hname as Hname'.
  pose proof Hy as (Hmy & [_ Hactive]%andb_true_iff & _)%objects_get_One.
  split_and!.
  - intros pin. unfold mobile_login.
    destruct (negb (truthy (strip pin))); [by eexists|].
    destruct (negb (is_pin (strip pin))); [by eexists|].
    change (strip "") with "". simpl.
    rewrite Hstrip, Hrfid', Hy, Hrole, Huser, Hname'. simpl. by eexists.
  - unfold api_rfid_login.
    rewrite Hrfid', Hy, Hrole, Huser, Hinactive. simpl.
    by rewrite orb_true_r.
  - unfold remember_member, has_permission, get_by_pk. rewrite Hanon. simpl.
    by rewrite Hmy, Hactive.
  - unfold remember_member, get_member_from_request, get_by_pk.
    rewrite Hanon. simpl. by rewrite Hmy, Hactive.
Qed.

Lemma card_login_ignores_a_disabled_user_witness :
  api_rfid_login Shop.accounts_with_erin Shop.kiosk_with_erin Shop.anonymous
                 "RFID-E"
  = inr (MemberOnly "Erin", mkRequest None (Some 5%positive))
  ∧ ∃ e, mobile_login Shop.check_pin Shop.accounts_with_erin
                      Shop.kiosk_with_erin Shop.anonymous "" "1234" "RFID-E"
         = inl e.
Proof.
  destruct (card_login_ignores_a_disabled_user Shop.check_pin
              Shop.accounts_with_erin Shop.kiosk_with_erin Shop.anonymous
              "RFID-E" 5%positive Shop.erin 15%positive
              (AuthUser.mk "erin" false false false))
    as (Hmobile & Hcard & _).
  - reflexivity.
  - reflexivity.
  - discriminate.
  - vm_compute. reflexivity.
  - reflexivity.
  - vm_compute. reflexivity.
  - discriminate.
  - reflexivity.
  - split; [exact Hcard|exact (Hmobile "1234")].
Defined.
